(** * GitHub -> Jira webhook integration: event routing and PR/issue synchronisation

    A shallow embedding of the Go sources

      - package [handlers] (the two webhook entry points and their handlers),
      - package [github], [internal/github/client.go] (the enrichment client)
        and its types,
      - package [jira] (the tracker client),

    followed by the properties of the routing and synchronisation logic.

    The handlers talk to two remote services and to a logger.  A handler is
    modelled as a function from the state of the outside world to a [Run]:
    the outcome (a value, or a Go runtime panic), the new state of the
    outside world, and the chronological list of the calls and log lines it
    produced.  Everything that is not code of the repository (the answers of
    the two APIs, the clock, the JSON syntax checker, Unicode case mapping)
    is a field of [Platform]; all theorems hold for every platform. *)

From Stdlib Require Import ZArith QArith String Ascii List DecimalString DecimalPos DecimalZ Lia.
From stdpp Require Import gmap strings list.

Set Warnings "-register-all".
#[local] Open Scope string_scope.
#[local] Open Scope list_scope.
#[local] Open Scope Z_scope.

(** ** Go values *)

(** What [json.Unmarshal] stores in an [interface{}]: [nil], [bool],
    [float64], [string], [[]interface{}] or [map[string]interface{}].  A
    [float64] read from JSON is finite, hence a rational number. *)
Inductive JSON : Type :=
| JNull
| JBool (b : bool)
| JNumber (f : Q)
| JString (s : string)
| JArray (l : list JSON)
| JObject (m : gmap string JSON).

(** A Go [map[string]interface{}]; [None] is the nil map. *)
Definition GoMap : Type := option (gmap string JSON).

(** [m[k]]: indexing a nil map yields the nil interface, as a missing key
    does. *)
Definition index (m : GoMap) (k : string) : option JSON :=
  match m with
  | Some m' => m' !! k
  | None => None
  end.

(** Type assertions in their comma-ok form, [v, ok := x.(T)]: the result is
    [None] when [ok] is false. *)
Definition assert_string (x : option JSON) : option string :=
  match x with Some (JString s) => Some s | _ => None end.

Definition assert_bool (x : option JSON) : option bool :=
  match x with Some (JBool b) => Some b | _ => None end.

Definition assert_float64 (x : option JSON) : option Q :=
  match x with Some (JNumber f) => Some f | _ => None end.

Definition assert_map (x : option JSON) : GoMap :=
  match x with Some (JObject m) => Some m | _ => None end.

Definition assert_slice (x : option JSON) : option (list JSON) :=
  match x with Some (JArray l) => Some l | _ => None end.

(** [v, _ := x.(T)]: the zero value of [T] when the assertion fails. *)
Definition string_ (x : option JSON) : string := default "" (assert_string x).
Definition bool_ (x : option JSON) : bool := default false (assert_bool x).
Definition float64_ (x : option JSON) : Q := default (0 # 1)%Q (assert_float64 x).

(** [int(f)] truncates towards zero.  Go leaves the result unspecified when
    the truncated value does not fit the 64-bit [int]; amd64 yields the
    smallest [int]. *)
Definition int_of_float64 (f : Q) : Z :=
  let z := Z.quot (Qnum f) (Zpos (Qden f)) in
  if (- 2 ^ 63 <=? z) && (z <? 2 ^ 63) then z else - 2 ^ 63.

(** Go errors, by their message. *)
Definition error : Type := string.

Inductive result (A : Type) : Type :=
| Ok (a : A)
| Err (e : error).
Arguments Ok {A} a.
Arguments Err {A} e.

Definition is_Ok {A} (r : result A) : bool :=
  match r with Ok _ => true | Err _ => false end.

(** ** [fmt] and [strings] *)

Definition dquote : string := String "034"%char EmptyString.
Definition newline : string := String "010"%char EmptyString.

(** The verb [%d]. *)
Definition fmt_d (n : Z) : string := NilZero.string_of_int (Z.to_int n).

(** The verb [%t]. *)
Definition fmt_t (b : bool) : string := if b then "true" else "false".

(** The verb [%.0f]: the sign, then the magnitude rounded to the nearest
    integer, ties to even.  (The negative zero of [float64] is not a
    rational and is not modelled.) *)
Definition round_half_even (a : Z) (d : Z) : Z :=
  let q := a / d in
  let r := a mod d in
  if 2 * r <? d then q
  else if d <? 2 * r then q + 1
  else if Z.even q then q else q + 1.

Definition fmt_f0 (f : Q) : string :=
  (if Qnum f <? 0 then "-" else "") +:+
  fmt_d (round_half_even (Z.abs (Qnum f)) (Zpos (Qden f))).

Fixpoint strings_Repeat (s : string) (count : nat) : string :=
  match count with
  | O => ""
  | S n => s +:+ strings_Repeat s n
  end.

Fixpoint strings_Join (elems : list string) (sep : string) : string :=
  match elems with
  | [] => ""
  | [e] => e
  | e :: rest => e +:+ sep +:+ strings_Join rest sep
  end.

Definition strings_TrimPrefix (s pre : string) : string :=
  if String.prefix pre s
  then String.substring (String.length pre) (String.length s - String.length pre) s
  else s.

(** ** Data of the two client libraries *)

(** go-github.  Its structs hold pointers and are read through nil-safe
    getters; a pointer field is an [option]. *)
Record User := { Login : option string }.
Record PullRequestBranch := { Ref : option string }.

Record PullRequest := {
  PR_Title : option string;
  PR_Number : option Z;
  PR_User : option User;
  PR_State : option string;
  PR_Head : option PullRequestBranch;
  PR_Base : option PullRequestBranch
}.

Record CommitFile := {
  Filename : option string;
  Status : option string;
  File_Additions : option Z;
  File_Deletions : option Z;
  Patch : option string
}.

Record CommitStats := {
  Stats_Additions : option Z;
  Stats_Deletions : option Z
}.

Record RepositoryCommit := {
  Stats : option CommitStats;
  Commit_Files : list CommitFile
}.

(** Only the number of reviews is ever used. *)
Record PullRequestReview := { Review_ID : Z }.

Record Hook := {
  Hook_Name : string;
  Hook_Config : gmap string string;
  Hook_Events : list string;
  Hook_Active : bool
}.

Definition GetLogin (u : option User) : string := default "" (u ≫= Login).
Definition GetRef (b : option PullRequestBranch) : string := default "" (b ≫= Ref).
Definition GetTitle (p : PullRequest) : string := default "" (PR_Title p).
Definition GetNumber (p : PullRequest) : Z := default 0 (PR_Number p).
Definition GetState (p : PullRequest) : string := default "" (PR_State p).
Definition GetFilename (f : CommitFile) : string := default "" (Filename f).
Definition GetStatus (f : CommitFile) : string := default "" (Status f).
Definition File_GetAdditions (f : CommitFile) : Z := default 0 (File_Additions f).
Definition File_GetDeletions (f : CommitFile) : Z := default 0 (File_Deletions f).
Definition GetAdditions (s : option CommitStats) : Z := default 0 (s ≫= Stats_Additions).
Definition GetDeletions (s : option CommitStats) : Z := default 0 (s ≫= Stats_Deletions).

(** go-jira. *)
Record IssueFields := {
  Project_Key : string;
  Type_Name : string;
  Summary : string;
  Description : string;
  Labels : list string
}.

Record Issue := {
  Key : string;
  Fields : option IssueFields
}.

Record Transition := {
  ID : string;
  To_Name : string
}.

(** ** Types of the repository: [internal/github/types.go] and package [jira] *)

Record PRDetails := {
  PullRequest_ : PullRequest;
  Files : list CommitFile;
  Reviews : list PullRequestReview
}.

Record RepoCreationInfo := {
  RepoName : string;
  CreatedBy : string;
  CreatedAt : string;
  RCI_Description : string;
  Language : string;
  Private : bool;
  DefaultBranch : string;
  CloneURL : string;
  GitURL : string;
  SSHURL : string
}.

Record CommitInfo := {
  SHA : string;
  Message : string;
  Author : string;
  AuthorEmail : string;
  Date : string;
  FilesChanged : Z;
  Additions : Z;
  Deletions : Z;
  Repository : string;
  Branch : string;
  DiffContent : string
}.

Record PRIssueInfo := {
  PRNumber : Z;
  PRTitle : string;
  PRI_RepoName : string;
  PRI_Author : string;
  SourceBranch : string;
  TargetBranch : string;
  PRI_FilesChanged : list string;
  PRLink : string;
  Action : string
}.

Definition set_Action (p : PRIssueInfo) (a : string) : PRIssueInfo :=
  {| PRNumber := PRNumber p; PRTitle := PRTitle p; PRI_RepoName := PRI_RepoName p;
     PRI_Author := PRI_Author p; SourceBranch := SourceBranch p;
     TargetBranch := TargetBranch p; PRI_FilesChanged := PRI_FilesChanged p;
     PRLink := PRLink p; Action := a |}.

(** ** The outside world *)

(** The calls that leave the process. *)
Inductive Call : Type :=
| Call_CreateHook (org repo : string) (hook : Hook)
| Call_GetCommit (org repo sha : string)
| Call_PullRequests_Get (org repo : string) (number : Z)
| Call_PullRequests_ListFiles (org repo : string) (number : Z)
| Call_PullRequests_ListReviews (org repo : string) (number : Z)
| Call_Issue_Create (issue : Issue)
| Call_Issue_Search (jql : string) (maxResults : Z)
| Call_Issue_GetTransitions (issueKey : string)
| Call_Issue_DoTransition (issueKey transitionID : string).

(** What an observer of the process sees, in order: calls and log lines. *)
Inductive Event : Type :=
| EvCall (c : Call)
| EvInfo (message : string)
| EvError (message : string).

(** Everything the repository's code relies on and does not define.  [W] is
    the state of the outside world (both remote services); every remote call
    may change it. *)
Record Platform (W : Type) := {
  json_decode : string -> result JSON;
  strings_ToUpper : string -> string;
  time_Now_Format : string -> W -> string;
  Repositories_CreateHook : string -> string -> Hook -> W -> option error * W;
  Repositories_GetCommit : string -> string -> string -> W -> result RepositoryCommit * W;
  PullRequests_Get : string -> string -> Z -> W -> result PullRequest * W;
  PullRequests_ListFiles : string -> string -> Z -> W -> result (list CommitFile) * W;
  PullRequests_ListReviews : string -> string -> Z -> W -> result (list PullRequestReview) * W;
  Issue_Create : Issue -> W -> result Issue * W;
  Issue_Search : string -> Z -> W -> result (list Issue) * W;
  Issue_GetTransitions : string -> W -> result (list Transition) * W;
  Issue_DoTransition : string -> string -> W -> option error * W
}.
Arguments json_decode {W} _ _.
Arguments strings_ToUpper {W} _ _.
Arguments time_Now_Format {W} _ _ _.
Arguments Repositories_CreateHook {W} _ _ _ _ _.
Arguments Repositories_GetCommit {W} _ _ _ _ _.
Arguments PullRequests_Get {W} _ _ _ _ _.
Arguments PullRequests_ListFiles {W} _ _ _ _ _.
Arguments PullRequests_ListReviews {W} _ _ _ _ _.
Arguments Issue_Create {W} _ _ _.
Arguments Issue_Search {W} _ _ _ _.
Arguments Issue_GetTransitions {W} _ _ _.
Arguments Issue_DoTransition {W} _ _ _ _.

(** ** The monad of handlers *)

Inductive Outcome (A : Type) : Type :=
| Val (a : A)
| Panicked (msg : string).
Arguments Val {A} a.
Arguments Panicked {A} msg.

Record Run (W A : Type) := mkRun {
  outcome : Outcome A;
  world : W;
  events : list Event
}.
Arguments mkRun {W A} _ _ _.
Arguments outcome {W A} _.
Arguments world {W A} _.
Arguments events {W A} _.

Definition M (W A : Type) : Type := W -> Run W A.

Definition ret {W A} (a : A) : M W A := fun w => mkRun (Val a) w [].

Definition bind {W A B} (m : M W A) (k : A -> M W B) : M W B :=
  fun w =>
    let r := m w in
    match outcome r with
    | Val a =>
        let r' := k a (world r) in
        mkRun (outcome r') (world r') (events r ++ events r')
    | Panicked msg => mkRun (Panicked msg) (world r) (events r)
    end.

Definition panic {W A} (msg : string) : M W A := fun w => mkRun (Panicked msg) w [].

Definition emit {W} (e : Event) : M W unit := fun w => mkRun (Val tt) w [e].

(** A remote call: recorded, answered by the platform. *)
Definition call {W A} (c : Call) (f : W -> A * W) : M W A :=
  fun w => mkRun (Val (fst (f w))) (snd (f w)) [EvCall c].

(** Reading the clock changes nothing. *)
Definition now {W} (P : Platform W) (layout : string) : M W string :=
  fun w => mkRun (Val (time_Now_Format P layout w)) w [].

Notation "'let*' x ':=' m 'in' k" := (bind m (fun x => k))
  (at level 10, x name, m at level 100, k at level 200).
Notation "'exec' m 'then' k" := (bind m (fun _ => k))
  (at level 10, m at level 100, k at level 200).

(** [for i, x := range l { body }]. *)
Fixpoint for_range_from {W A} (i : Z) (l : list A) (body : Z -> A -> M W unit) : M W unit :=
  match l with
  | [] => ret tt
  | x :: rest => exec body i x then for_range_from (i + 1) rest body
  end.

Definition for_range {W A} (l : list A) (body : Z -> A -> M W unit) : M W unit :=
  for_range_from 0 l body.

(** [utils.Logger]. *)
Definition logger_Info {W} (message : string) : M W unit := emit (EvInfo message).
Definition logger_Error {W} (message : string) : M W unit := emit (EvError message).

(** ** [internal/github/client.go]: the enrichment client *)

Record GithubClient := { org : string }.

(** [s[:8]] on a Go string: a run-time panic when [s] has fewer than 8
    bytes. *)
Definition slice_to {W} (s : string) (n : nat) : M W string :=
  if (String.length s <? n)%nat
  then panic "runtime error: slice bounds out of range"
  else ret (String.substring 0 n s).

(** The part of the diff text that [GetFileDiff] writes for one file. *)
Definition file_diff (i : Z) (file : CommitFile) : string :=
  "FILE " +:+ fmt_d (i + 1) +:+ ": " +:+ GetFilename file +:+ newline +:+
  "Status: " +:+ GetStatus file +:+ newline +:+
  "Changes: +" +:+ fmt_d (File_GetAdditions file) +:+ "/-" +:+
     fmt_d (File_GetDeletions file) +:+ " lines" +:+ newline +:+
  match Patch file with
  | Some patch => "DIFF:" +:+ newline +:+ patch +:+ newline
  | None => ""
  end +:+
  strings_Repeat "-" 60 +:+ newline.

Fixpoint files_diff (i : Z) (files : list CommitFile) : string :=
  match files with
  | [] => ""
  | file :: rest => file_diff i file +:+ files_diff (i + 1) rest
  end.

Section Clients.
Context {W : Type} (P : Platform W).

Definition webhook_events : list string :=
  ["push"; "pull_request"; "issues"; "repository"; "release"; "commit_comment"].

Definition CreateRepoWebhook (c : GithubClient) (repoName webhookURL : string)
  : M W (option error) :=
  let hook := {| Hook_Name := "web";
                 Hook_Config := {[ "url" := webhookURL;
                                   "content_type" := "json";
                                   "insecure_ssl" := "0" ]};
                 Hook_Events := webhook_events;
                 Hook_Active := true |} in
  let* err := call (Call_CreateHook (org c) repoName hook)
                   (Repositories_CreateHook P (org c) repoName hook) in
  match err with
  | Some e => ret (Some ("failed to create webhook for repo " +:+ repoName +:+ ": " +:+ e))
  | None => ret None
  end.

Definition GetCommitDetails (c : GithubClient) (repoName commitSHA : string)
  : M W (result RepositoryCommit) :=
  let* r := call (Call_GetCommit (org c) repoName commitSHA)
                 (Repositories_GetCommit P (org c) repoName commitSHA) in
  match r with
  | Err e => ret (Err ("failed to get commit details: " +:+ e))
  | Ok commit => ret (Ok commit)
  end.

Definition GetFileDiff (c : GithubClient) (repoName commitSHA : string)
  : M W (result string) :=
  let* r := call (Call_GetCommit (org c) repoName commitSHA)
                 (Repositories_GetCommit P (org c) repoName commitSHA) in
  match r with
  | Err e => ret (Err ("failed to get commit diff: " +:+ e))
  | Ok commit =>
      let* sha8 := slice_to commitSHA 8 in
      ret (Ok ("=== COMMIT DIFF: " +:+ sha8 +:+ " ===" +:+ newline +:+
               "Total files changed: " +:+
                  fmt_d (Z.of_nat (length (Commit_Files commit))) +:+ newline +:+
               "Additions: +" +:+ fmt_d (GetAdditions (Stats commit)) +:+
                  ", Deletions: -" +:+ fmt_d (GetDeletions (Stats commit)) +:+ newline +:+
               "=" +:+ strings_Repeat "=" 50 +:+ newline +:+ newline +:+
               files_diff 0 (Commit_Files commit)))
  end.

Definition GetPullRequestDetails (c : GithubClient) (repoName : string) (prNumber : Z)
  : M W (result PRDetails) :=
  let* r1 := call (Call_PullRequests_Get (org c) repoName prNumber)
                  (PullRequests_Get P (org c) repoName prNumber) in
  match r1 with
  | Err e => ret (Err ("failed to get PR details: " +:+ e))
  | Ok pr =>
      let* r2 := call (Call_PullRequests_ListFiles (org c) repoName prNumber)
                      (PullRequests_ListFiles P (org c) repoName prNumber) in
      match r2 with
      | Err e => ret (Err ("failed to get PR files: " +:+ e))
      | Ok prFiles =>
          let* r3 := call (Call_PullRequests_ListReviews (org c) repoName prNumber)
                          (PullRequests_ListReviews P (org c) repoName prNumber) in
          match r3 with
          | Err e => ret (Err ("failed to get PR reviews: " +:+ e))
          | Ok reviews =>
              ret (Ok {| PullRequest_ := pr; Files := prFiles; Reviews := reviews |})
          end
      end
  end.

(** ** Package [jira]: the tracker client *)

Definition bullet : string :=
  String "226"%char (String "128"%char (String "162"%char EmptyString)).
Definition arrow : string :=
  String "226"%char (String "134"%char (String "146"%char EmptyString)).

Definition pr_label (prNumber : Z) : string := "pr-" +:+ fmt_d prNumber.

Definition pr_description (prInfo : PRIssueInfo) (created : string) : string :=
  newline +:+
  "*GitHub PR Details:*" +:+ newline +:+
  bullet +:+ " Repository: " +:+ PRI_RepoName prInfo +:+ newline +:+
  bullet +:+ " PR Number: #" +:+ fmt_d (PRNumber prInfo) +:+ "  " +:+ newline +:+
  bullet +:+ " Author: " +:+ PRI_Author prInfo +:+ newline +:+
  bullet +:+ " Source Branch: " +:+ SourceBranch prInfo +:+ " " +:+ arrow +:+
     " Target Branch: " +:+ TargetBranch prInfo +:+ newline +:+
  bullet +:+ " PR Link: [View on GitHub|" +:+ PRLink prInfo +:+ "]" +:+ newline +:+
  newline +:+
  "*Files Changed:*" +:+ newline +:+
  strings_Join (PRI_FilesChanged prInfo) (newline +:+ bullet +:+ " ") +:+ newline +:+
  newline +:+
  "_Created: " +:+ created +:+ "_" +:+ newline.

Definition pr_issue (prInfo : PRIssueInfo) (created : string) : Issue :=
  {| Key := "";
     Fields := Some {| Project_Key := "REP";
                       Type_Name := "Task";
                       Summary := "PR #" +:+ fmt_d (PRNumber prInfo) +:+ ": " +:+ PRTitle prInfo;
                       Description := pr_description prInfo created;
                       Labels := ["github-pr"; pr_label (PRNumber prInfo)] |} |}.

Fixpoint find_transition (transitions : list Transition) (targetStatus : string)
  : option Transition :=
  match transitions with
  | [] => None
  | transition :: rest =>
      if String.eqb (To_Name transition) targetStatus
      then Some transition
      else find_transition rest targetStatus
  end.

Definition moveToStatus (issueKey targetStatus : string) : M W (option error) :=
  let* r := call (Call_Issue_GetTransitions issueKey) (Issue_GetTransitions P issueKey) in
  match r with
  | Err err => ret (Some err)
  | Ok transitions =>
      match find_transition transitions targetStatus with
      | Some transition =>
          call (Call_Issue_DoTransition issueKey (ID transition))
               (Issue_DoTransition P issueKey (ID transition))
      | None => ret (Some ("no transition found to status: " +:+ targetStatus))
      end
  end.

Definition CreatePRIssue (prInfo : PRIssueInfo) : M W (result Issue) :=
  let projectKey := "REP" in
  let* created := now P "2006-01-02 15:04:05" in
  let issueData := pr_issue prInfo created in
  let* r := call (Call_Issue_Create issueData) (Issue_Create P issueData) in
  match r with
  | Err err => ret (Err ("failed to create issue in project " +:+ projectKey +:+ ": " +:+ err))
  | Ok issue =>
      exec moveToStatus (Key issue) "Open_PR" then
      ret (Ok issue)
  end.

Definition pr_jql (prNumber : Z) : string :=
  "project = " +:+ dquote +:+ "REP" +:+ dquote +:+
  " AND labels = " +:+ dquote +:+ "pr-" +:+ fmt_d prNumber +:+ dquote.

Definition FindPRIssue (repoName : string) (prNumber : Z) : M W (result Issue) :=
  let jql := pr_jql prNumber in
  let* r := call (Call_Issue_Search jql 1) (Issue_Search P jql 1) in
  match r with
  | Err err => ret (Err err)
  | Ok issues =>
      match issues with
      | [] => ret (Err "PR issue not found")
      | issue :: _ => ret (Ok issue)
      end
  end.

Definition MovePRToMerged (repoName : string) (prNumber : Z) : M W (option error) :=
  let* r := FindPRIssue repoName prNumber in
  match r with
  | Err err => ret (Some err)
  | Ok issue => moveToStatus (Key issue) "Merged_PR"
  end.

End Clients.

(** ** Package [handlers]: the webhook handlers *)

Inductive JiraClient : Type := jira_client.

Record WebhookHandler := {
  githubClient : GithubClient;
  jiraClient : option JiraClient
}.

(** An inbound request: what [io.ReadAll(r.Body)] returns, and the header
    map, whose keys are in canonical form. *)
Record Request := {
  ReadAll_Body : result string;
  Header : gmap string (list string)
}.

Definition Header_Get (h : gmap string (list string)) (key : string) : string :=
  match h !! key with
  | Some (v :: _) => v
  | _ => ""
  end.

Record Response := {
  StatusCode : Z;
  Body : string
}.

Definition StatusOK : Z := 200.
Definition StatusBadRequest : Z := 400.

(** [http.Error(w, msg, code)] writes the message and a newline. *)
Definition http_Error (msg : string) (code : Z) : Response :=
  {| StatusCode := code; Body := msg +:+ newline |}.

(** [x.(float64)] without the comma-ok form: a run-time panic when [x] does
    not hold a [float64]. *)
Definition must_float64 {W} (x : option JSON) : M W Q :=
  match assert_float64 x with
  | Some f => ret f
  | None => panic "interface conversion: interface {} is not float64"
  end.

Section Handlers.
Context {W : Type} (P : Platform W) (h : WebhookHandler).

(** [json.Unmarshal(body, &payload)] with [payload] of type
    [map[string]interface{}]: a syntax error is an error; so is a
    well-formed document that is neither an object nor [null]. *)
Definition json_Unmarshal_map (body : string) : result GoMap :=
  match json_decode P body with
  | Err e => Err e
  | Ok JNull => Ok None
  | Ok (JObject m) => Ok (Some m)
  | Ok (JBool _) =>
      Err "json: cannot unmarshal bool into Go value of type map[string]interface {}"
  | Ok (JNumber _) =>
      Err "json: cannot unmarshal number into Go value of type map[string]interface {}"
  | Ok (JString _) =>
      Err "json: cannot unmarshal string into Go value of type map[string]interface {}"
  | Ok (JArray _) =>
      Err "json: cannot unmarshal array into Go value of type map[string]interface {}"
  end.

Definition extractRepoInfo (repo sender : GoMap) : RepoCreationInfo :=
  let name := string_ (index repo "name") in
  let description := string_ (index repo "description") in
  let language := string_ (index repo "language") in
  let private := bool_ (index repo "private") in
  let defaultBranch := string_ (index repo "default_branch") in
  let cloneURL := string_ (index repo "clone_url") in
  let gitURL := string_ (index repo "git_url") in
  let sshURL := string_ (index repo "ssh_url") in
  let createdAt := string_ (index repo "created_at") in
  let createdBy :=
    match sender with
    | Some _ => string_ (index sender "login")
    | None => "Unknown"
    end in
  {| RepoName := name; CreatedBy := createdBy; CreatedAt := createdAt;
     RCI_Description := description; Language := language; Private := private;
     DefaultBranch := defaultBranch; CloneURL := cloneURL; GitURL := gitURL;
     SSHURL := sshURL |}.

Definition logNewRepository (info : RepoCreationInfo) : M W unit :=
  exec logger_Info ("=" +:+ strings_Repeat "=" 80) then
  exec logger_Info "NEW REPOSITORY CREATED!" then
  exec logger_Info ("=" +:+ strings_Repeat "=" 80) then
  exec logger_Info ("Repository Name: " +:+ RepoName info) then
  exec logger_Info ("Created By: " +:+ CreatedBy info) then
  exec logger_Info ("Created At: " +:+ CreatedAt info) then
  exec logger_Info ("Description: " +:+ RCI_Description info) then
  exec logger_Info ("Language: " +:+ Language info) then
  exec logger_Info ("Private: " +:+ fmt_t (Private info)) then
  exec logger_Info ("Default Branch: " +:+ DefaultBranch info) then
  exec logger_Info ("Clone URL: " +:+ CloneURL info) then
  exec logger_Info ("SSH URL: " +:+ SSHURL info) then
  logger_Info ("=" +:+ strings_Repeat "=" 80).

Definition logDetailedCommit (commitNum : Z) (info : CommitInfo) : M W unit :=
  exec logger_Info ("COMMIT #" +:+ fmt_d commitNum +:+ " DETAILS:") then
  exec logger_Info ("  SHA: " +:+ SHA info) then
  exec logger_Info ("  Message: " +:+ Message info) then
  exec logger_Info ("  Author: " +:+ Author info +:+ " <" +:+ AuthorEmail info +:+ ">") then
  exec logger_Info ("  Repository: " +:+ Repository info) then
  exec logger_Info ("  Branch: " +:+ Branch info) then
  exec logger_Info ("  Files Changed: " +:+ fmt_d (FilesChanged info)) then
  exec logger_Info ("  Lines: +" +:+ fmt_d (Additions info) +:+ "/-" +:+
                      fmt_d (Deletions info)) then
  exec logger_Info "  FILE DIFF CONTENT:" then
  exec logger_Info (strings_Repeat "-" 60) then
  exec logger_Info (DiffContent info) then
  logger_Info (strings_Repeat "-" 60).

Definition logDetailedPR (action : string) (details : PRDetails) : M W unit :=
  let pr := PullRequest_ details in
  exec logger_Info ("PULL REQUEST " +:+ strings_ToUpper P action +:+ ":") then
  exec logger_Info ("  Title: " +:+ GetTitle pr) then
  exec logger_Info ("  Number: #" +:+ fmt_d (GetNumber pr)) then
  exec logger_Info ("  Author: " +:+ GetLogin (PR_User pr)) then
  exec logger_Info ("  State: " +:+ GetState pr) then
  exec logger_Info ("  Source Branch: " +:+ GetRef (PR_Head pr)) then
  exec logger_Info ("  Target Branch: " +:+ GetRef (PR_Base pr)) then
  exec logger_Info ("  Files Changed: " +:+ fmt_d (Z.of_nat (length (Files details)))) then
  exec logger_Info ("  Reviews: " +:+ fmt_d (Z.of_nat (length (Reviews details)))) then
  if (0 <? Z.of_nat (length (Files details)))
  then
    exec logger_Info "  CHANGED FILES:" then
    for_range (Files details) (fun i file =>
      logger_Info ("    " +:+ fmt_d (i + 1) +:+ ". " +:+ GetFilename file +:+
                   " (+" +:+ fmt_d (File_GetAdditions file) +:+ "/-" +:+
                   fmt_d (File_GetDeletions file) +:+ ") [" +:+ GetStatus file +:+ "]"))
  else ret tt.

Definition handleRepositoryEvent (payload : GoMap) : M W unit :=
  match assert_string (index payload "action") with
  | None => ret tt
  | Some action =>
      if negb (String.eqb action "created") then ret tt
      else
        let repo := assert_map (index payload "repository") in
        match repo with
        | None => logger_Error "Invalid repository data in payload"
        | Some _ =>
            let sender := assert_map (index payload "sender") in
            let repoInfo := extractRepoInfo repo sender in
            exec logNewRepository repoInfo then
            let webhookURL := "https://c45078315703.ngrok-free.app/webhook/repo" in
            let* err := CreateRepoWebhook P (githubClient h) (RepoName repoInfo) webhookURL in
            match err with
            | Some e =>
                logger_Error ("Failed to add webhook to new repo " +:+ RepoName repoInfo +:+
                              ": " +:+ e)
            | None =>
                logger_Info ("Successfully added webhook to new repo: " +:+
                             RepoName repoInfo)
            end
        end
  end.

Definition handlePushEvent (payload : GoMap) : M W unit :=
  let repoData := assert_map (index payload "repository") in
  let repoName := string_ (index repoData "name") in
  let pusher := assert_map (index payload "pusher") in
  let pusherName := string_ (index pusher "name") in
  logger_Info ("Push event detected in repo: " +:+ repoName +:+ " by " +:+ pusherName).

(** The body of the loop of [handlePushEventDetailed]; [continue] is an
    early return of the body. *)
Definition processCommit (repoName branch : string) (i : Z) (commitInterface : JSON)
  : M W unit :=
  match assert_map (Some commitInterface) with
  | None => ret tt
  | Some _ as commitData =>
      let commitSHA := string_ (index commitData "id") in
      let message := string_ (index commitData "message") in
      let author := assert_map (index commitData "author") in
      let authorName := string_ (index author "name") in
      let authorEmail := string_ (index author "email") in
      let* r := GetCommitDetails P (githubClient h) repoName commitSHA in
      match r with
      | Err err => logger_Error ("Failed to get commit details: " +:+ err)
      | Ok commitDetails =>
          let* d := GetFileDiff P (githubClient h) repoName commitSHA in
          let* diffContent :=
            match d with
            | Err err =>
                exec logger_Error ("Failed to get file diff: " +:+ err) then
                ret "Diff unavailable"
            | Ok diffContent => ret diffContent
            end in
          let* date := now P "2006-01-02T15:04:05Z07:00" in
          let commitInfo :=
            {| SHA := commitSHA; Message := message; Author := authorName;
               AuthorEmail := authorEmail; Date := date;
               FilesChanged := Z.of_nat (length (Commit_Files commitDetails));
               Additions := GetAdditions (Stats commitDetails);
               Deletions := GetDeletions (Stats commitDetails);
               Repository := repoName; Branch := branch;
               DiffContent := diffContent |} in
          logDetailedCommit (i + 1) commitInfo
      end
  end.

Definition handlePushEventDetailed (payload : GoMap) : M W unit :=
  let repoData := assert_map (index payload "repository") in
  let repoName := string_ (index repoData "name") in
  let ref := string_ (index payload "ref") in
  let branch := strings_TrimPrefix ref "refs/heads/" in
  let pusher := assert_map (index payload "pusher") in
  let pusherName := string_ (index pusher "name") in
  match assert_slice (index payload "commits") with
  | None => logger_Error "No commits found in push payload"
  | Some commits =>
      exec logger_Info ("DETAILED PUSH EVENT - Repo: " +:+ repoName +:+ ", Branch: " +:+
                        branch +:+ ", Pusher: " +:+ pusherName +:+ ", Commits: " +:+
                        fmt_d (Z.of_nat (length commits))) then
      for_range commits (processCommit repoName branch)
  end.

Definition handlePullRequestEvent (payload : GoMap) : M W unit :=
  let action := string_ (index payload "action") in
  let prData := assert_map (index payload "pull_request") in
  let title := string_ (index prData "title") in
  let number := float64_ (index prData "number") in
  logger_Info ("PR event: " +:+ action +:+ " - #" +:+ fmt_f0 number +:+ ": " +:+ title).

Definition handlePROpened (prInfo : PRIssueInfo) : M W unit :=
  exec logger_Info ("Creating Jira issue for PR #" +:+ fmt_d (PRNumber prInfo) +:+
                    " in " +:+ PRI_RepoName prInfo) then
  let* r := CreatePRIssue P prInfo in
  match r with
  | Err err => logger_Error ("Failed to create Jira issue: " +:+ err)
  | Ok issue =>
      logger_Info ("Created Jira issue: " +:+ Key issue +:+ " for PR #" +:+
                   fmt_d (PRNumber prInfo) +:+ " in Open_PR status")
  end.

Definition handlePRMerged (prInfo : PRIssueInfo) : M W unit :=
  exec logger_Info ("Moving PR #" +:+ fmt_d (PRNumber prInfo) +:+
                    " to Merged_PR status in Jira") then
  let* err := MovePRToMerged P (PRI_RepoName prInfo) (PRNumber prInfo) in
  match err with
  | Some e => logger_Error ("Failed to move PR to merged: " +:+ e)
  | None =>
      logger_Info ("Moved PR #" +:+ fmt_d (PRNumber prInfo) +:+
                   " to Merged_PR status successfully")
  end.

Definition handlePullRequestEventDetailed (payload : GoMap) : M W unit :=
  let action := string_ (index payload "action") in
  let prData := assert_map (index payload "pull_request") in
  let repoData := assert_map (index payload "repository") in
  let repoName := string_ (index repoData "name") in
  let* number := must_float64 (index prData "number") in
  let prNumber := int_of_float64 number in
  let title := string_ (index prData "title") in
  let user := assert_map (index prData "user") in
  let userName := string_ (index user "login") in
  let head := assert_map (index prData "head") in
  let base := assert_map (index prData "base") in
  let sourceBranch := string_ (index head "ref") in
  let targetBranch := string_ (index base "ref") in
  let prURL := string_ (index prData "html_url") in
  exec logger_Info ("DETAILED PR EVENT - Action: " +:+ action +:+ ", Repo: " +:+ repoName +:+
                    ", PR #" +:+ fmt_d prNumber +:+ " by " +:+ userName) then
  let* r := GetPullRequestDetails P (githubClient h) repoName prNumber in
  match r with
  | Err err => logger_Error ("Failed to get PR details: " +:+ err)
  | Ok prDetails =>
      let changedFiles := map GetFilename (Files prDetails) in
      let prInfo :=
        {| PRNumber := prNumber; PRTitle := title; PRI_RepoName := repoName;
           PRI_Author := userName; SourceBranch := sourceBranch;
           TargetBranch := targetBranch; PRI_FilesChanged := changedFiles;
           PRLink := prURL; Action := action |} in
      exec match jiraClient h with
           | Some _ =>
               if String.eqb action "opened" then handlePROpened prInfo
               else if String.eqb action "closed" then
                 let merged := bool_ (index prData "merged") in
                 if merged then handlePRMerged (set_Action prInfo "merged") else ret tt
               else if String.eqb action "synchronize" then
                 logger_Info ("PR #" +:+ fmt_d prNumber +:+
                              " updated - keeping existing Jira issue")
               else ret tt
           | None => ret tt
           end then
      logDetailedPR action prDetails
  end.

Definition HandleOrgWebhook (r : Request) : M W Response :=
  match ReadAll_Body r with
  | Err err =>
      exec logger_Error ("Failed to read request body: " +:+ err) then
      ret (http_Error "Invalid request body" StatusBadRequest)
  | Ok body =>
      let eventType := Header_Get (Header r) "X-Github-Event" in
      if String.eqb eventType ""
      then
        exec logger_Error "Missing X-GitHub-Event header" then
        ret (http_Error "Missing event type" StatusBadRequest)
      else
        match json_Unmarshal_map body with
        | Err err =>
            exec logger_Error ("Failed to parse JSON payload: " +:+ err) then
            ret (http_Error "Invalid JSON payload" StatusBadRequest)
        | Ok payload =>
            exec (if String.eqb eventType "repository" then handleRepositoryEvent payload
                  else if String.eqb eventType "push" then handlePushEvent payload
                  else if String.eqb eventType "pull_request"
                       then handlePullRequestEvent payload
                  else if String.eqb eventType "ping" then
                    logger_Info "Received ping event from GitHub - webhook setup successful!"
                  else logger_Info ("Received org-level event: " +:+ eventType)) then
            ret {| StatusCode := StatusOK;
                   Body := "Organization webhook processed successfully" |}
        end
  end.

Definition HandleRepoWebhook (r : Request) : M W Response :=
  match ReadAll_Body r with
  | Err err =>
      exec logger_Error ("Failed to read request body: " +:+ err) then
      ret (http_Error "Invalid request body" StatusBadRequest)
  | Ok body =>
      let eventType := Header_Get (Header r) "X-Github-Event" in
      if String.eqb eventType ""
      then
        exec logger_Error "Missing X-GitHub-Event header" then
        ret (http_Error "Missing event type" StatusBadRequest)
      else
        match json_Unmarshal_map body with
        | Err err =>
            exec logger_Error ("Failed to parse JSON payload: " +:+ err) then
            ret (http_Error "Invalid JSON payload" StatusBadRequest)
        | Ok payload =>
            exec (if String.eqb eventType "push" then handlePushEventDetailed payload
                  else if String.eqb eventType "pull_request"
                       then handlePullRequestEventDetailed payload
                  else if String.eqb eventType "ping" then
                    logger_Info
                      "Received ping event from GitHub - repo webhook setup successful!"
                  else logger_Info ("Received repo-level event: " +:+ eventType)) then
            ret {| StatusCode := StatusOK;
                   Body := "Repository webhook processed successfully" |}
        end
  end.

End Handlers.

(** ** [main]: the configuration, up to the start of the server

    The process environment is a map from names to values, read after the
    optional [.env] file has been loaded into it.  What [main] does once the
    server listens (serving, signals, shutdown) is not modelled. *)

(** [os.Getenv]: the empty string for a variable that is not set. *)
Definition os_Getenv (env : gmap string string) (key : string) : string :=
  default "" (env !! key).

(** [github.NewClient]: the client keeps the organisation. *)
Definition github_NewClient (token o : string) : GithubClient := {| org := o |}.

(** [jira.NewClient] of the repository; [lib_NewClient] is the constructor
    of the client library, which refuses some base addresses. *)
Definition jira_NewClient (lib_NewClient : string -> option error)
    (baseURL email apiToken : string) : result JiraClient :=
  match lib_NewClient baseURL with
  | Some err => Err ("failed to create Jira client: " +:+ err)
  | None => Ok jira_client
  end.

(** What is written while starting: by the standard logger ([log.Println],
    [log.Printf], [log.Fatal]) or by the application's logger. *)
Inductive StartupLine : Type :=
| StdLog (message : string)
| LoggerInfo (message : string).

Record Server := {
  Addr : string;
  server_handler : WebhookHandler
}.

(** [started] is [None] when [log.Fatal] ended the process. *)
Record Startup := {
  startup_lines : list StartupLine;
  started : option Server
}.

(** [main] up to [ListenAndServe].  [dotenv_loaded] tells whether
    [godotenv.Load] succeeded; [jiraAPIToken] is the token, which the source
    holds as a literal. *)
Definition main_configure (dotenv_loaded : bool) (lib_NewClient : string -> option error)
    (jiraAPIToken : string) (env : gmap string string) : Startup :=
  let lines0 :=
    if dotenv_loaded then []
    else [StdLog "No .env file found, using system environment variables"] in
  let githubToken := os_Getenv env "GITHUB_TOKEN" in
  let githubOrg := os_Getenv env "GITHUB_ORG" in
  let port := os_Getenv env "PORT" in
  if String.eqb githubToken "" || String.eqb githubOrg ""
  then {| startup_lines :=
            lines0 ++ [StdLog "GITHUB_TOKEN and GITHUB_ORG environment variables are required"];
          started := None |}
  else
    let port := if String.eqb port "" then "3000" else port in
    let githubClient := github_NewClient githubToken githubOrg in
    let jiraBaseURL := os_Getenv env "JIRA_BASE_URL" in
    let jiraEmail := os_Getenv env "JIRA_EMAIL" in
    let '(jiraClient, lines1) :=
      if negb (String.eqb jiraBaseURL "") && negb (String.eqb jiraEmail "") &&
         negb (String.eqb jiraAPIToken "")
      then
        match jira_NewClient lib_NewClient jiraBaseURL jiraEmail jiraAPIToken with
        | Err err =>
            (None, [StdLog ("Jira client initialization failed: " +:+ err +:+
                            " (continuing without Jira)")])
        | Ok client => (Some client, [LoggerInfo "Jira integration enabled"])
        end
      else (None, [LoggerInfo "Jira configuration missing - running without Jira integration"])
    in
    {| startup_lines := lines0 ++ lines1;
       started := Some {| Addr := ":" +:+ port;
                          server_handler := {| githubClient := githubClient;
                                               jiraClient := jiraClient |} |} |}.

(** * Observations on a run *)

(** The remote calls of a trace, in order. *)
Definition calls (t : list Event) : list Call :=
  omap (fun e => match e with EvCall c => Some c | _ => None end) t.

(** The calls addressed to the issue tracker: create, search, list
    transitions, execute a transition. *)
Definition is_tracker_call (c : Call) : bool :=
  match c with
  | Call_Issue_Create _ | Call_Issue_Search _ _
  | Call_Issue_GetTransitions _ | Call_Issue_DoTransition _ _ => true
  | _ => false
  end.

Definition tracker_calls (t : list Event) : list Call :=
  List.filter is_tracker_call (calls t).

(** The messages sent to the error logger, in order. *)
Definition errors_logged (t : list Event) : list string :=
  omap (fun e => match e with EvError m => Some m | _ => None end) t.

(** [t] is the first element of [ts] whose destination status is [target]. *)
Definition first_match (ts : list Transition) (target : string) (t : Transition) : Prop :=
  exists pre post,
    ts = pre ++ t :: post /\ To_Name t = target /\
    Forall (fun t' => To_Name t' <> target) pre.

Definition no_match (ts : list Transition) (target : string) : Prop :=
  Forall (fun t' => To_Name t' <> target) ts.

(** A computation that always returns. *)
Definition total {W A} (m : M W A) : Prop := forall w, exists a, outcome (m w) = Val a.

(** A trace made of informational log lines only. *)
Definition info_only (t : list Event) : Prop :=
  Forall (fun e => exists m, e = EvInfo m) t.

(** A computation that only writes informational log lines: it returns,
    and leaves the outside world as it found it. *)
Definition logs_only {W} (m : M W unit) : Prop :=
  forall w, outcome (m w) = Val tt /\ world (m w) = w /\ info_only (events (m w)).

(** ** Reading a pull-request payload

    The values [handlePullRequestEventDetailed] extracts from a payload,
    under the names used in the statements below. *)

Definition pr_data (payload : GoMap) : GoMap := assert_map (index payload "pull_request").

Definition pr_action (payload : GoMap) : string := string_ (index payload "action").

Definition pr_repo (payload : GoMap) : string :=
  string_ (index (assert_map (index payload "repository")) "name").

(** The PR number as the payload holds it, when it holds one. *)
Definition pr_number (payload : GoMap) : option Q :=
  assert_float64 (index (pr_data payload) "number").

Definition pr_merged (payload : GoMap) : bool := bool_ (index (pr_data payload) "merged").

Definition pr_user (payload : GoMap) : string :=
  string_ (index (assert_map (index (pr_data payload) "user")) "login").

(** The [prInfo] built for the tracker from the payload and the enrichment. *)
Definition pr_info (payload : GoMap) (prNumber : Z) (details : PRDetails) : PRIssueInfo :=
  {| PRNumber := prNumber;
     PRTitle := string_ (index (pr_data payload) "title");
     PRI_RepoName := pr_repo payload;
     PRI_Author := pr_user payload;
     SourceBranch := string_ (index (assert_map (index (pr_data payload) "head")) "ref");
     TargetBranch := string_ (index (assert_map (index (pr_data payload) "base")) "ref");
     PRI_FilesChanged := map GetFilename (Files details);
     PRLink := string_ (index (pr_data payload) "html_url");
     Action := pr_action payload |}.

(** The first log line of [handlePullRequestEventDetailed]. *)
Definition pr_event_line (payload : GoMap) (prNumber : Z) : string :=
  "DETAILED PR EVENT - Action: " +:+ pr_action payload +:+ ", Repo: " +:+ pr_repo payload +:+
  ", PR #" +:+ fmt_d prNumber +:+ " by " +:+ pr_user payload.

(** The tracker step of [handlePullRequestEventDetailed]: its
    [if h.jiraClient != nil { switch action ... }]. *)
Definition tracker_sync {W} (P : Platform W) (h : WebhookHandler) (payload : GoMap)
    (prNumber : Z) (details : PRDetails) : M W unit :=
  match jiraClient h with
  | Some _ =>
      if String.eqb (pr_action payload) "opened"
      then handlePROpened P (pr_info payload prNumber details)
      else if String.eqb (pr_action payload) "closed" then
        if pr_merged payload
        then handlePRMerged P (set_Action (pr_info payload prNumber details) "merged")
        else ret tt
      else if String.eqb (pr_action payload) "synchronize" then
        logger_Info ("PR #" +:+ fmt_d prNumber +:+ " updated - keeping existing Jira issue")
      else ret tt
  | None => ret tt
  end.

(** The request [r] passes the three checks of an entry point and carries
    the event type [eventType] and the decoded payload [payload]. *)
Definition delivers {W} (P : Platform W) (r : Request) (eventType : string)
    (payload : GoMap) : Prop :=
  exists body,
    ReadAll_Body r = Ok body /\
    Header_Get (Header r) "X-Github-Event" = eventType /\
    eventType <> "" /\
    json_Unmarshal_map P body = Ok payload.

Definition repo_confirmation : Response :=
  {| StatusCode := StatusOK; Body := "Repository webhook processed successfully" |}.

Definition org_confirmation : Response :=
  {| StatusCode := StatusOK; Body := "Organization webhook processed successfully" |}.

(** The layout of the creation time in an issue description. *)
Definition created_layout : string := "2006-01-02 15:04:05".

Definition is_create_call (c : Call) : bool :=
  match c with Call_Issue_Create _ => true | _ => false end.

(** The two calls a status transition is made of. *)
Definition is_transition_call (c : Call) : bool :=
  match c with
  | Call_Issue_GetTransitions _ | Call_Issue_DoTransition _ _ => true
  | _ => false
  end.

(** The issue carries the label [label]. *)
Definition has_label (issue : Issue) (label : string) : Prop :=
  exists fields, Fields issue = Some fields /\ In label (Labels fields).

(** The record [handlePushEventDetailed] logs for the commit object [m], given
    the commit details, the diff text and the time of logging. *)
Definition commit_record (repoName branch : string) (m : gmap string JSON)
    (commitDetails : RepositoryCommit) (diffContent date : string) : CommitInfo :=
  {| SHA := string_ (m !! "id");
     Message := string_ (m !! "message");
     Author := string_ (index (assert_map (m !! "author")) "name");
     AuthorEmail := string_ (index (assert_map (m !! "author")) "email");
     Date := date;
     FilesChanged := Z.of_nat (length (Commit_Files commitDetails));
     Additions := GetAdditions (Stats commitDetails);
     Deletions := GetDeletions (Stats commitDetails);
     Repository := repoName;
     Branch := branch;
     DiffContent := diffContent |}.

Definition rfc3339 : string := "2006-01-02T15:04:05Z07:00".

(** ** The switch of the entry points, and which requests they refuse *)

(** The [switch eventType] of [HandleOrgWebhook]. *)
Definition dispatchOrg {W} (P : Platform W) (h : WebhookHandler) (eventType : string)
    (payload : GoMap) : M W unit :=
  if String.eqb eventType "repository" then handleRepositoryEvent P h payload
  else if String.eqb eventType "push" then handlePushEvent payload
  else if String.eqb eventType "pull_request" then handlePullRequestEvent payload
  else if String.eqb eventType "ping" then
    logger_Info "Received ping event from GitHub - webhook setup successful!"
  else logger_Info ("Received org-level event: " +:+ eventType).

(** The [switch eventType] of [HandleRepoWebhook]. *)
Definition dispatchRepo {W} (P : Platform W) (h : WebhookHandler) (eventType : string)
    (payload : GoMap) : M W unit :=
  if String.eqb eventType "push" then handlePushEventDetailed P h payload
  else if String.eqb eventType "pull_request" then handlePullRequestEventDetailed P h payload
  else if String.eqb eventType "ping" then
    logger_Info "Received ping event from GitHub - repo webhook setup successful!"
  else logger_Info ("Received repo-level event: " +:+ eventType).

Definition body_unreadable (r : Request) : Prop :=
  exists err, ReadAll_Body r = Err err.

(** [r.Header.Get] returns the empty string for an absent header, and for a
    header sent with an empty value. *)
Definition event_type_missing (r : Request) : Prop :=
  Header_Get (Header r) "X-Github-Event" = "".

(** The body does not decode into a [map[string]interface{}]: it is not
    well-formed JSON, or it is a JSON value other than an object or [null]. *)
Definition not_a_json_object {W} (P : Platform W) (r : Request) : Prop :=
  exists body err, ReadAll_Body r = Ok body /\ json_Unmarshal_map P body = Err err.

(** The body is not well-formed JSON. *)
Definition invalid_json {W} (P : Platform W) (r : Request) : Prop :=
  exists body err, ReadAll_Body r = Ok body /\ json_decode P body = Err err.

Definition rejected {W} (P : Platform W) (r : Request) : Prop :=
  body_unreadable r \/ event_type_missing r \/ not_a_json_object P r.

(** The run answered with status 400. *)
Definition bad_request {W} (run : Run W Response) : Prop :=
  exists resp, outcome run = Val resp /\ StatusCode resp = StatusBadRequest.

(** Payloads on which the two unchecked operations of the repository entry
    point are defined: a [pull_request] payload holds a numeric PR number, and
    every commit object of a [push] payload has an id of at least 8 bytes. *)
Definition well_formed_event (eventType : string) (payload : GoMap) : Prop :=
  (eventType = "pull_request" -> is_Some (pr_number payload)) /\
  (eventType = "push" ->
   forall commits m,
     assert_slice (index payload "commits") = Some commits ->
     In (JObject m) commits ->
     (8 <= String.length (string_ (m !! "id")))%nat).

(** ** A concrete platform

    Used to run the handlers on concrete requests.  The outside world is the
    number of remote calls answered so far. *)
Module Scenario.

Definition quoted (s : string) : string := dquote +:+ s +:+ dquote.

Definition pr_body (action : string) (pull_request : string) : string :=
  "{" +:+ quoted "action" +:+ ":" +:+ quoted action +:+ "," +:+
  quoted "pull_request" +:+ ":{" +:+ pull_request +:+ "}," +:+
  quoted "repository" +:+ ":{" +:+ quoted "name" +:+ ":" +:+ quoted "engine" +:+ "}}".

Definition pr_map (action : string) (pull_request : gmap string JSON) : gmap string JSON :=
  {[ "action" := JString action;
     "pull_request" := JObject pull_request;
     "repository" := JObject {[ "name" := JString "engine" ]} ]}.

Definition opened_body : string := pr_body "opened" (quoted "number" +:+ ":7").
Definition opened_map : gmap string JSON := pr_map "opened" {[ "number" := JNumber (7 # 1) ]}.

Definition merged_body : string :=
  pr_body "closed" (quoted "number" +:+ ":7," +:+ quoted "merged" +:+ ":true").
Definition merged_map : gmap string JSON :=
  pr_map "closed" {[ "number" := JNumber (7 # 1); "merged" := JBool true ]}.

Definition closed_body : string :=
  pr_body "closed" (quoted "number" +:+ ":7," +:+ quoted "merged" +:+ ":false").
Definition closed_map : gmap string JSON :=
  pr_map "closed" {[ "number" := JNumber (7 # 1); "merged" := JBool false ]}.

(** An [opened] event whose [pull_request] object has no [number]. *)
Definition unnumbered_body : string :=
  pr_body "opened" (quoted "title" +:+ ":" +:+ quoted "Add parser").
Definition unnumbered_map : gmap string JSON :=
  pr_map "opened" {[ "title" := JString "Add parser" ]}.

(** A push of one commit. *)
Definition push_body : string :=
  "{" +:+ quoted "commits" +:+ ":[{" +:+ quoted "id" +:+ ":" +:+
  quoted "0123456789abcdef" +:+ "}]}".
Definition push_commit : gmap string JSON := {[ "id" := JString "0123456789abcdef" ]}.
Definition push_map : gmap string JSON := {[ "commits" := JArray [JObject push_commit] ]}.

(** A push of one commit that has no [id]. *)
Definition anonymous_push_body : string := "{" +:+ quoted "commits" +:+ ":[{}]}".
Definition anonymous_push_map : gmap string JSON := {[ "commits" := JArray [JObject ∅] ]}.

(** The syntax checker, on the bodies above and on the empty array. *)
Definition decode (body : string) : result JSON :=
  if String.eqb body opened_body then Ok (JObject opened_map)
  else if String.eqb body merged_body then Ok (JObject merged_map)
  else if String.eqb body closed_body then Ok (JObject closed_map)
  else if String.eqb body unnumbered_body then Ok (JObject unnumbered_map)
  else if String.eqb body push_body then Ok (JObject push_map)
  else if String.eqb body anonymous_push_body then Ok (JObject anonymous_push_map)
  else if String.eqb body "[]" then Ok (JArray [])
  else Err "invalid character".

Definition upper_ascii (c : ascii) : ascii :=
  let n := nat_of_ascii c in
  if ((97 <=? n) && (n <=? 122))%nat then ascii_of_nat (n - 32) else c.

Fixpoint upper (s : string) : string :=
  match s with
  | EmptyString => EmptyString
  | String c rest => String (upper_ascii c) (upper rest)
  end.

(** How the two remote services answer. *)
Record Settings := {
  pull_request_found : bool;
  creation_succeeds : bool;
  search_answer : result (list Issue);
  transitions_answer : result (list Transition);
  (** The answer to [GetCommit], by the number of calls answered before. *)
  commit_answer : nat -> result RepositoryCommit
}.

Definition workflow : list Transition :=
  [ {| ID := "11"; To_Name := "Open_PR" |};
    {| ID := "21"; To_Name := "Merged_PR" |} ].

Definition the_commit : RepositoryCommit :=
  {| Stats := Some {| Stats_Additions := Some 12; Stats_Deletions := Some 3 |};
     Commit_Files := [ {| Filename := Some "parser.go"; Status := Some "modified";
                          File_Additions := Some 12; File_Deletions := Some 3;
                          Patch := None |} ] |}.

Definition the_pull_request : PullRequest :=
  {| PR_Title := Some "Add parser"; PR_Number := Some 7; PR_User := None;
     PR_State := Some "open"; PR_Head := None; PR_Base := None |}.

Definition settings : Settings :=
  {| pull_request_found := true;
     creation_succeeds := true;
     search_answer := Ok [ {| Key := "REP-1"; Fields := None |} ];
     transitions_answer := Ok workflow;
     commit_answer := fun _ => Ok the_commit |}.

Definition answer {A} (ok : bool) (a : A) (err : error) : result A :=
  if ok then Ok a else Err err.

Definition platform (s : Settings) : Platform nat :=
  {| json_decode := decode;
     strings_ToUpper := upper;
     time_Now_Format := fun _ _ => "2025-01-01 10:00:00";
     Repositories_CreateHook := fun _ _ _ w => (None, S w);
     Repositories_GetCommit := fun _ _ _ w => (commit_answer s w, S w);
     PullRequests_Get := fun _ _ _ w =>
       (answer (pull_request_found s) the_pull_request "404 Not Found", S w);
     PullRequests_ListFiles := fun _ _ _ w => (Ok (Commit_Files the_commit), S w);
     PullRequests_ListReviews := fun _ _ _ w => (Ok [], S w);
     Issue_Create := fun _ w =>
       (answer (creation_succeeds s)
               {| Key := "REP-" +:+ fmt_d (Z.of_nat w); Fields := None |}
               "401 Unauthorized", S w);
     Issue_Search := fun _ _ w => (search_answer s, S w);
     Issue_GetTransitions := fun _ w => (transitions_answer s, S w);
     Issue_DoTransition := fun _ _ w => (None, S w) |}.

(** What the enrichment of the pull request returns. *)
Definition details : PRDetails :=
  {| PullRequest_ := the_pull_request; Files := Commit_Files the_commit; Reviews := [] |}.

(** A handler with both clients configured. *)
Definition handler : WebhookHandler :=
  {| githubClient := {| org := "acme" |}; jiraClient := Some jira_client |}.

Definition request (eventType body : string) : Request :=
  {| ReadAll_Body := Ok body; Header := {[ "X-Github-Event" := [eventType] ]} |}.


(** The tracker finds no issue. *)
Definition nothing_found : Settings :=
  {| pull_request_found := true;
     creation_succeeds := true;
     search_answer := Ok [];
     transitions_answer := transitions_answer settings;
     commit_answer := commit_answer settings |}.

(** The hosting platform does not know the pull request. *)
Definition no_pull_request : Settings :=
  {| pull_request_found := false;
     creation_succeeds := true;
     search_answer := search_answer settings;
     transitions_answer := transitions_answer settings;
     commit_answer := commit_answer settings |}.

(** The first [GetCommit] succeeds, the following ones fail. *)
Definition diff_unavailable : Settings :=
  {| pull_request_found := true;
     creation_succeeds := true;
     search_answer := search_answer settings;
     transitions_answer := transitions_answer settings;
     commit_answer := fun w => match w with
                               | O => Ok the_commit
                               | _ => Err "502 Bad Gateway"
                               end |}.

End Scenario.

(** ** Predicates on traces *)

(** Every event a computation produces, from any state of the outside
    world, satisfies [Q]. *)
Definition emits {W A} (Q : Event -> Prop) (m : M W A) : Prop :=
  forall w, Forall Q (events (m w)).

(** The event is not a call to the issue tracker. *)
Definition not_tracker (e : Event) : Prop :=
  match e with
  | EvCall c => is_tracker_call c = false
  | _ => True
  end.

(** The event is not a remote call at all. *)
Definition not_a_call (e : Event) : Prop :=
  match e with
  | EvCall _ => False
  | _ => True
  end.

(** The organisation a call to the hosting platform is addressed to. *)
Definition call_org (c : Call) : option string :=
  match c with
  | Call_CreateHook o _ _ | Call_GetCommit o _ _ | Call_PullRequests_Get o _ _
  | Call_PullRequests_ListFiles o _ _ | Call_PullRequests_ListReviews o _ _ => Some o
  | _ => None
  end.

(** If the event is a call to the hosting platform, it is addressed to the
    organisation [o]. *)
Definition addressed_to (o : string) (e : Event) : Prop :=
  match e with
  | EvCall c => match call_org c with Some o' => o' = o | None => True end
  | _ => True
  end.

(** The webhook [CreateRepoWebhook] registers. *)
Definition repo_hook (webhookURL : string) : Hook :=
  {| Hook_Name := "web";
     Hook_Config := {[ "url" := webhookURL; "content_type" := "json"; "insecure_ssl" := "0" ]};
     Hook_Events := webhook_events;
     Hook_Active := true |}.

(** The callback address written in [handleRepositoryEvent]. *)
Definition callback_url : string := "https://c45078315703.ngrok-free.app/webhook/repo".

(** The ids of the commit objects of a [commits] array, in order; entries
    that are not objects are skipped by the loop. *)
Definition commit_ids (commits : list JSON) : list string :=
  omap (fun c => match c with JObject m => Some (string_ (m !! "id")) | _ => None end) commits.


(** Reading a decimal number back: the inverse of the verb [%d]. *)
Definition parse_d (s : string) : option Z :=
  match NilZero.int_of_string s with
  | Some d => Some (Z.of_int d)
  | None => None
  end.

(** The text [GetFileDiff] builds from a commit whose id has at least 8
    bytes. *)
Definition diff_text (commitSHA : string) (commit : RepositoryCommit) : string :=
  "=== COMMIT DIFF: " +:+ String.substring 0 8 commitSHA +:+ " ===" +:+ newline +:+
  "Total files changed: " +:+ fmt_d (Z.of_nat (length (Commit_Files commit))) +:+ newline +:+
  "Additions: +" +:+ fmt_d (GetAdditions (Stats commit)) +:+
     ", Deletions: -" +:+ fmt_d (GetDeletions (Stats commit)) +:+ newline +:+
  "=" +:+ strings_Repeat "=" 50 +:+ newline +:+ newline +:+
  files_diff 0 (Commit_Files commit).

(** The values [handlePushEventDetailed] extracts from a payload. *)
Definition push_repo (payload : GoMap) : string :=
  string_ (index (assert_map (index payload "repository")) "name").

Definition push_branch (payload : GoMap) : string :=
  strings_TrimPrefix (string_ (index payload "ref")) "refs/heads/".

Definition push_summary (payload : GoMap) (n : nat) : string :=
  "DETAILED PUSH EVENT - Repo: " +:+ push_repo payload +:+ ", Branch: " +:+
  push_branch payload +:+ ", Pusher: " +:+
  string_ (index (assert_map (index payload "pusher")) "name") +:+ ", Commits: " +:+
  fmt_d (Z.of_nat n).

(** If the event is the execution of a transition, the transition is one the
    tracker lists for that issue (in some state [w]) with a destination among
    [targets]. *)
Definition moves_to {W} (P : Platform W) (targets : list string) (e : Event) : Prop :=
  match e with
  | EvCall (Call_Issue_DoTransition issueKey transitionID) =>
      exists w ts t,
        fst (Issue_GetTransitions P issueKey w) = Ok ts /\
        In t ts /\ ID t = transitionID /\ In (To_Name t) targets
  | _ => True
  end.

(** The calls of a trace that are not addressed to the tracker. *)
Definition hosting_calls (t : list Event) : list Call :=
  List.filter (fun c => negb (is_tracker_call c)) (calls t).

(** The event is not a call to the hosting platform. *)
Definition not_hosting (e : Event) : Prop :=
  match e with
  | EvCall c => is_tracker_call c = true
  | _ => True
  end.

(** ** More concrete requests

    Repository and push events for the platform of [Scenario]. *)
Module Deliveries.

Definition repository_object : gmap string JSON := {[ "name" := JString "engine" ]}.
Definition sender_object : gmap string JSON := {[ "login" := JString "ada" ]}.

Definition repository_map (action : string) : gmap string JSON :=
  {[ "action" := JString action;
     "repository" := JObject repository_object;
     "sender" := JObject sender_object ]}.

Definition repository_body (action : string) : string :=
  "{" +:+ Scenario.quoted "action" +:+ ":" +:+ Scenario.quoted action +:+ "," +:+
  Scenario.quoted "repository" +:+ ":{" +:+ Scenario.quoted "name" +:+ ":" +:+
  Scenario.quoted "engine" +:+ "}," +:+
  Scenario.quoted "sender" +:+ ":{" +:+ Scenario.quoted "login" +:+ ":" +:+
  Scenario.quoted "ada" +:+ "}}".

(** A push of two commits to the branch [main]. *)
Definition first_commit : gmap string JSON := {[ "id" := JString "0123456789abcdef" ]}.
Definition second_commit : gmap string JSON := {[ "id" := JString "fedcba9876543210" ]}.

Definition push_map : gmap string JSON :=
  {[ "repository" := JObject {[ "name" := JString "engine" ]};
     "ref" := JString "refs/heads/main";
     "commits" := JArray [JObject first_commit; JObject second_commit] ]}.

Definition push_body : string :=
  "{" +:+ Scenario.quoted "repository" +:+ ":{" +:+ Scenario.quoted "name" +:+ ":" +:+
  Scenario.quoted "engine" +:+ "}," +:+
  Scenario.quoted "ref" +:+ ":" +:+ Scenario.quoted "refs/heads/main" +:+ "," +:+
  Scenario.quoted "commits" +:+ ":[{" +:+ Scenario.quoted "id" +:+ ":" +:+
  Scenario.quoted "0123456789abcdef" +:+ "},{" +:+ Scenario.quoted "id" +:+ ":" +:+
  Scenario.quoted "fedcba9876543210" +:+ "}]}".

(** A push that carries no [commits]. *)
Definition bare_push_map : gmap string JSON := {[ "ref" := JString "refs/heads/main" ]}.

Definition bare_push_body : string :=
  "{" +:+ Scenario.quoted "ref" +:+ ":" +:+ Scenario.quoted "refs/heads/main" +:+ "}".

Definition decode (body : string) : result JSON :=
  if String.eqb body (repository_body "created") then Ok (JObject (repository_map "created"))
  else if String.eqb body (repository_body "deleted")
       then Ok (JObject (repository_map "deleted"))
  else if String.eqb body push_body then Ok (JObject push_map)
  else if String.eqb body bare_push_body then Ok (JObject bare_push_map)
  else Scenario.decode body.

(** The platform of [Scenario], reading these bodies too. *)
Definition platform (s : Scenario.Settings) : Platform nat :=
  let P := Scenario.platform s in
  {| json_decode := decode;
     strings_ToUpper := strings_ToUpper P;
     time_Now_Format := time_Now_Format P;
     Repositories_CreateHook := Repositories_CreateHook P;
     Repositories_GetCommit := Repositories_GetCommit P;
     PullRequests_Get := PullRequests_Get P;
     PullRequests_ListFiles := PullRequests_ListFiles P;
     PullRequests_ListReviews := PullRequests_ListReviews P;
     Issue_Create := Issue_Create P;
     Issue_Search := Issue_Search P;
     Issue_GetTransitions := Issue_GetTransitions P;
     Issue_DoTransition := Issue_DoTransition P |}.

(** An environment that names the token and the organisation only. *)
Definition environment : gmap string string :=
  {[ "GITHUB_TOKEN" := "ghp_example"; "GITHUB_ORG" := "acme" ]}.

End Deliveries.

(** * Properties *)

(** ** The formatting functions on concrete values *)

Example fmt_d_examples : fmt_d 42 = "42" /\ fmt_d 0 = "0" /\ fmt_d (-7) = "-7".
Proof. repeat split; reflexivity. Qed.

Example fmt_f0_examples :
  fmt_f0 (7 # 1) = "7" /\ fmt_f0 (5 # 2) = "2" /\ fmt_f0 (7 # 2) = "4" /\
  fmt_f0 (-3 # 2) = "-2" /\ fmt_f0 (-2 # 5) = "-0".
Proof. repeat split; reflexivity. Qed.

Example int_of_float64_examples :
  int_of_float64 (7 # 1) = 7 /\ int_of_float64 (15 # 2) = 7 /\
  int_of_float64 (-15 # 2) = -7 /\ int_of_float64 (2 ^ 70 # 1) = - 2 ^ 63.
Proof. repeat split; reflexivity. Qed.

Example strings_TrimPrefix_examples :
  strings_TrimPrefix "refs/heads/main" "refs/heads/" = "main" /\
  strings_TrimPrefix "refs/tags/v1" "refs/heads/" = "refs/tags/v1".
Proof. split; reflexivity. Qed.

Example strings_Join_example :
  strings_Join ["a.go"; "b.go"; "c.go"] ", " = "a.go, b.go, c.go".
Proof. reflexivity. Qed.

Example pr_label_example : pr_label 7 = "pr-7".
Proof. reflexivity. Qed.

Example pr_jql_example :
  pr_jql 7 = "project = " +:+ Scenario.quoted "REP" +:+ " AND labels = " +:+
             Scenario.quoted "pr-7".
Proof. reflexivity. Qed.

Example json_Unmarshal_map_examples :
  let P := Scenario.platform Scenario.settings in
  json_Unmarshal_map P Scenario.opened_body = Ok (Some Scenario.opened_map) /\
  is_Ok (json_Unmarshal_map P "[]") = false /\
  is_Ok (json_Unmarshal_map P "{") = false.
Proof. repeat split; vm_compute; reflexivity. Qed.

(** ** Traces *)


Lemma calls_app (t1 t2 : list Event) : calls (t1 ++ t2) = calls t1 ++ calls t2.
Proof. unfold calls. apply omap_app. Qed.

Lemma tracker_calls_app (t1 t2 : list Event) :
  tracker_calls (t1 ++ t2) = tracker_calls t1 ++ tracker_calls t2.
Proof. unfold tracker_calls. rewrite calls_app. apply List.filter_app. Qed.

Lemma errors_logged_app (t1 t2 : list Event) :
  errors_logged (t1 ++ t2) = errors_logged t1 ++ errors_logged t2.
Proof. unfold errors_logged. apply omap_app. Qed.

Lemma find_transition_first (ts : list Transition) (target : string) (t : Transition) :
  first_match ts target t -> find_transition ts target = Some t.
Proof.
  intros (pre & post & -> & Hname & Hpre).
  induction Hpre as [|t' pre Hne _ IH]; simpl.
  - rewrite Hname, String.eqb_refl. reflexivity.
  - destruct (String.eqb_spec (To_Name t') target) as [Heq|_]; [contradiction|exact IH].
Qed.

Lemma find_transition_none (ts : list Transition) (target : string) :
  no_match ts target -> find_transition ts target = None.
Proof.
  induction 1 as [|t' ts Hne _ IH]; simpl; [reflexivity|].
  destruct (String.eqb_spec (To_Name t') target) as [Heq|_]; [contradiction|exact IH].
Qed.

Lemma find_transition_Some (ts : list Transition) (target : string) (t : Transition) :
  find_transition ts target = Some t -> first_match ts target t.
Proof.
  induction ts as [|t' ts IH]; simpl; [discriminate|].
  destruct (String.eqb_spec (To_Name t') target) as [Heq|Hne].
  - intros [= <-]. exists [], ts. repeat split; auto.
  - intros H. destruct (IH H) as (pre & post & -> & Hname & Hpre).
    exists (t' :: pre), post. repeat split; auto.
Qed.

Section ClientProperties.
Context {W : Type} (P : Platform W).

(** What [moveToStatus] does, by the answer of the tracker. *)
Lemma moveToStatus_unavailable issueKey targetStatus w err w1 :
  Issue_GetTransitions P issueKey w = (Err err, w1) ->
  moveToStatus P issueKey targetStatus w =
    mkRun (Val (Some err)) w1 [EvCall (Call_Issue_GetTransitions issueKey)].
Proof. intros H. unfold moveToStatus, bind, call. rewrite H. reflexivity. Qed.

Lemma moveToStatus_found issueKey targetStatus w ts w1 t :
  Issue_GetTransitions P issueKey w = (Ok ts, w1) ->
  find_transition ts targetStatus = Some t ->
  moveToStatus P issueKey targetStatus w =
    mkRun (Val (fst (Issue_DoTransition P issueKey (ID t) w1)))
          (snd (Issue_DoTransition P issueKey (ID t) w1))
          [EvCall (Call_Issue_GetTransitions issueKey);
           EvCall (Call_Issue_DoTransition issueKey (ID t))].
Proof.
  intros H Hf. unfold moveToStatus, bind, call. rewrite H. cbn. rewrite Hf.
  destruct (Issue_DoTransition P issueKey (ID t) w1). reflexivity.
Qed.

Lemma moveToStatus_not_found issueKey targetStatus w ts w1 :
  Issue_GetTransitions P issueKey w = (Ok ts, w1) ->
  find_transition ts targetStatus = None ->
  moveToStatus P issueKey targetStatus w =
    mkRun (Val (Some ("no transition found to status: " +:+ targetStatus))) w1
          [EvCall (Call_Issue_GetTransitions issueKey)].
Proof.
  intros H Hf. unfold moveToStatus, bind, call. rewrite H. cbn. rewrite Hf. reflexivity.
Qed.

(** [moveToStatus] never panics, emits no log line, and its calls are the
    listing of the transitions followed by at most one execution. *)
Lemma moveToStatus_shape issueKey targetStatus w :
  exists r,
    outcome (moveToStatus P issueKey targetStatus w) = Val r /\
    (events (moveToStatus P issueKey targetStatus w) =
       [EvCall (Call_Issue_GetTransitions issueKey)] /\ is_Some r
     \/ exists id,
         events (moveToStatus P issueKey targetStatus w) =
           [EvCall (Call_Issue_GetTransitions issueKey);
            EvCall (Call_Issue_DoTransition issueKey id)]).
Proof.
  destruct (Issue_GetTransitions P issueKey w) as [[ts|err] w1] eqn:H.
  - destruct (find_transition ts targetStatus) as [t|] eqn:Hf.
    + rewrite (moveToStatus_found _ _ _ _ _ _ H Hf). eexists; split; [reflexivity|].
      right. eexists. reflexivity.
    + rewrite (moveToStatus_not_found _ _ _ _ _ H Hf). eexists; split; [reflexivity|].
      left. split; [reflexivity|eauto].
  - rewrite (moveToStatus_unavailable _ _ _ _ _ H). eexists; split; [reflexivity|].
    left. split; [reflexivity|eauto].
Qed.

(** C8.  [moveToStatus] first lists the transitions available on the
    issue.  When the listing succeeds, it executes the first transition whose
    destination status name is exactly (byte for byte, hence
    case-sensitively) the target name, once, and returns what that execution
    returns; when no available transition has that destination name, it
    executes nothing and fails with the no-transition error. *)
Theorem moveToStatus_resolves_by_name issueKey targetStatus w ts w1 :
  Issue_GetTransitions P issueKey w = (Ok ts, w1) ->
  let run := moveToStatus P issueKey targetStatus w in
  (exists rest, events run = EvCall (Call_Issue_GetTransitions issueKey) :: rest) /\
  (forall t, first_match ts targetStatus t ->
     events run = [EvCall (Call_Issue_GetTransitions issueKey);
                   EvCall (Call_Issue_DoTransition issueKey (ID t))] /\
     outcome run = Val (fst (Issue_DoTransition P issueKey (ID t) w1))) /\
  (no_match ts targetStatus ->
     events run = [EvCall (Call_Issue_GetTransitions issueKey)] /\
     outcome run = Val (Some ("no transition found to status: " +:+ targetStatus))).
Proof.
  intros H run. subst run. split; [|split].
  - destruct (find_transition ts targetStatus) as [t|] eqn:Hf.
    + rewrite (moveToStatus_found _ _ _ _ _ _ H Hf). eexists. reflexivity.
    + rewrite (moveToStatus_not_found _ _ _ _ _ H Hf). eexists. reflexivity.
  - intros t Ht. apply find_transition_first in Ht.
    rewrite (moveToStatus_found _ _ _ _ _ _ H Ht). split; reflexivity.
  - intros Hn. apply find_transition_none in Hn.
    rewrite (moveToStatus_not_found _ _ _ _ _ H Hn). split; reflexivity.
Qed.

End ClientProperties.

(** ** Reasoning about runs *)

Section Runs.
Context {W : Type}.

Lemma bind_Val {A B} (m : M W A) (k : A -> M W B) (w : W) (a : A) :
  outcome (m w) = Val a ->
  bind m k w =
    mkRun (outcome (k a (world (m w)))) (world (k a (world (m w))))
          (events (m w) ++ events (k a (world (m w)))).
Proof. intros H. unfold bind. rewrite H. reflexivity. Qed.

Lemma bind_Panicked {A B} (m : M W A) (k : A -> M W B) (w : W) (msg : string) :
  outcome (m w) = Panicked msg ->
  bind m k w = mkRun (Panicked msg) (world (m w)) (events (m w)).
Proof. intros H. unfold bind. rewrite H. reflexivity. Qed.

Lemma bind_ret {A B} (a : A) (k : A -> M W B) (w : W) : bind (ret a) k w = k a w.
Proof. unfold bind, ret. cbn. destruct (k a w). reflexivity. Qed.

Lemma bind_Error_ret {A B} (message : string) (a : A) (k : A -> M W B) (w : W) :
  bind (bind (logger_Error message) (fun _ => ret a)) k w =
    mkRun (outcome (k a w)) (world (k a w)) (EvError message :: events (k a w)).
Proof. reflexivity. Qed.

Lemma bind_now {B} (P : Platform W) (layout : string) (k : string -> M W B) (w : W) :
  bind (now P layout) k w = k (time_Now_Format P layout w) w.
Proof. unfold bind, now. cbn. destruct (k _ w). reflexivity. Qed.

Lemma bind_panic {A B} (msg : string) (k : A -> M W B) (w : W) :
  bind (panic msg) k w = mkRun (Panicked msg) w [].
Proof. reflexivity. Qed.

Lemma bind_Info {B} (message : string) (k : unit -> M W B) (w : W) :
  bind (logger_Info message) k w =
    mkRun (outcome (k tt w)) (world (k tt w)) (EvInfo message :: events (k tt w)).
Proof. reflexivity. Qed.

Lemma bind_Error {B} (message : string) (k : unit -> M W B) (w : W) :
  bind (logger_Error message) k w =
    mkRun (outcome (k tt w)) (world (k tt w)) (EvError message :: events (k tt w)).
Proof. reflexivity. Qed.

Lemma total_ret {A} (a : A) : total (ret (W:=W) a).
Proof. intros w. exists a. reflexivity. Qed.

Lemma total_emit (e : Event) : total (emit (W:=W) e).
Proof. intros w. exists tt. reflexivity. Qed.

Lemma total_call {A} (c : Call) (f : W -> A * W) : total (call c f).
Proof. intros w. exists (fst (f w)). reflexivity. Qed.

Lemma total_bind {A B} (m : M W A) (k : A -> M W B) :
  total m -> (forall a, total (k a)) -> total (bind m k).
Proof.
  intros Hm Hk w. destruct (Hm w) as [a Ha].
  destruct (Hk a (world (m w))) as [b Hb].
  exists b. rewrite (bind_Val _ _ _ _ Ha). exact Hb.
Qed.

Lemma total_for_range_from {A} (l : list A) (body : Z -> A -> M W unit) :
  (forall i x, In x l -> total (body i x)) -> forall i, total (for_range_from i l body).
Proof.
  induction l as [|x l IH]; intros Hb i; simpl.
  - apply total_ret.
  - apply total_bind; [apply Hb; left; reflexivity|].
    intros _. apply IH. intros j y Hy. apply Hb. right. exact Hy.
Qed.

Lemma info_only_calls t : info_only t -> calls t = [].
Proof.
  induction 1 as [|e t [m ->] _ IH]; [reflexivity|]. unfold calls in *. simpl. exact IH.
Qed.

Lemma info_only_tracker_calls t : info_only t -> tracker_calls t = [].
Proof. intros H. unfold tracker_calls. rewrite (info_only_calls _ H). reflexivity. Qed.

Lemma info_only_errors_logged t : info_only t -> errors_logged t = [].
Proof.
  induction 1 as [|e t [m ->] _ IH]; [reflexivity|].
  unfold errors_logged in *. simpl. exact IH.
Qed.

Lemma logs_only_ret : logs_only (ret (W:=W) tt).
Proof. intros w. repeat split. constructor. Qed.

Lemma logs_only_Info message : logs_only (logger_Info (W:=W) message).
Proof.
  intros w. repeat split. constructor; [eexists; reflexivity|constructor].
Qed.

Lemma logs_only_bind (m : M W unit) (k : unit -> M W unit) :
  logs_only m -> (forall u, logs_only (k u)) -> logs_only (bind m k).
Proof.
  intros Hm Hk w. destruct (Hm w) as (Ho & Hw & He).
  rewrite (bind_Val _ _ _ _ Ho). rewrite Hw. cbn.
  destruct (Hk tt w) as (Ho' & Hw' & He'). repeat split; auto.
  apply Forall_app. split; assumption.
Qed.

Lemma logs_only_for_range_from {A} (l : list A) (body : Z -> A -> M W unit) :
  (forall i x, logs_only (body i x)) -> forall i, logs_only (for_range_from i l body).
Proof.
  intros Hb. induction l as [|x l IH]; intros i; simpl.
  - apply logs_only_ret.
  - apply logs_only_bind; [apply Hb|]. intros _. apply IH.
Qed.

Lemma logs_only_total (m : M W unit) : logs_only m -> total m.
Proof. intros H w. exists tt. apply H. Qed.

End Runs.

Ltac logs_only_steps :=
  repeat first
    [ apply logs_only_Info
    | apply logs_only_ret
    | apply logs_only_bind; [|intros _]
    | apply logs_only_for_range_from; intros ].

Section LoggingProperties.
Context {W : Type} (P : Platform W).

Lemma logNewRepository_logs_only info : logs_only (logNewRepository (W:=W) info).
Proof. unfold logNewRepository. logs_only_steps. Qed.

Lemma logDetailedCommit_logs_only n info : logs_only (logDetailedCommit (W:=W) n info).
Proof. unfold logDetailedCommit. logs_only_steps. Qed.

Lemma logDetailedPR_logs_only action details : logs_only (logDetailedPR P action details).
Proof.
  unfold logDetailedPR. logs_only_steps.
  destruct (0 <? Z.of_nat (length (Files details))); unfold for_range; logs_only_steps.
Qed.

End LoggingProperties.

(** ** The enrichment client *)

Section EnrichmentProperties.
Context {W : Type} (P : Platform W).

(** [GetPullRequestDetails], by the answers of the hosting platform. *)
Lemma GetPullRequestDetails_run c repoName prNumber w :
  GetPullRequestDetails P c repoName prNumber w =
    let o := org c in
    let g1 := PullRequests_Get P o repoName prNumber w in
    let g2 := PullRequests_ListFiles P o repoName prNumber (snd g1) in
    let g3 := PullRequests_ListReviews P o repoName prNumber (snd g2) in
    match fst g1 with
    | Err e =>
        mkRun (Val (Err ("failed to get PR details: " +:+ e))) (snd g1)
              [EvCall (Call_PullRequests_Get o repoName prNumber)]
    | Ok pr =>
        match fst g2 with
        | Err e =>
            mkRun (Val (Err ("failed to get PR files: " +:+ e))) (snd g2)
                  [EvCall (Call_PullRequests_Get o repoName prNumber);
                   EvCall (Call_PullRequests_ListFiles o repoName prNumber)]
        | Ok prFiles =>
            match fst g3 with
            | Err e =>
                mkRun (Val (Err ("failed to get PR reviews: " +:+ e))) (snd g3)
                      [EvCall (Call_PullRequests_Get o repoName prNumber);
                       EvCall (Call_PullRequests_ListFiles o repoName prNumber);
                       EvCall (Call_PullRequests_ListReviews o repoName prNumber)]
            | Ok reviews =>
                mkRun (Val (Ok {| PullRequest_ := pr; Files := prFiles; Reviews := reviews |}))
                      (snd g3)
                      [EvCall (Call_PullRequests_Get o repoName prNumber);
                       EvCall (Call_PullRequests_ListFiles o repoName prNumber);
                       EvCall (Call_PullRequests_ListReviews o repoName prNumber)]
            end
        end
    end.
Proof.
  unfold GetPullRequestDetails, bind, call. cbv zeta.
  destruct (PullRequests_Get P (org c) repoName prNumber w) as [[pr|e] w1]; cbn; [|reflexivity].
  destruct (PullRequests_ListFiles P (org c) repoName prNumber w1) as [[fs|e] w2]; cbn;
    [|reflexivity].
  destruct (PullRequests_ListReviews P (org c) repoName prNumber w2) as [[rs|e] w3]; cbn;
    reflexivity.
Qed.

Lemma GetPullRequestDetails_total c repoName prNumber :
  total (GetPullRequestDetails P c repoName prNumber).
Proof.
  intros w. rewrite GetPullRequestDetails_run. cbv zeta.
  repeat match goal with |- context [match ?x with Ok _ => _ | Err _ => _ end] => destruct x end;
    eexists; reflexivity.
Qed.

Lemma GetPullRequestDetails_no_tracker c repoName prNumber w :
  tracker_calls (events (GetPullRequestDetails P c repoName prNumber w)) = [] /\
  errors_logged (events (GetPullRequestDetails P c repoName prNumber w)) = [].
Proof.
  rewrite GetPullRequestDetails_run. cbv zeta.
  repeat match goal with |- context [match ?x with Ok _ => _ | Err _ => _ end] => destruct x end;
    split; reflexivity.
Qed.

End EnrichmentProperties.

(** ** The tracker client *)

Section TrackerProperties.
Context {W : Type} (P : Platform W).

Lemma moveToStatus_total issueKey targetStatus : total (moveToStatus P issueKey targetStatus).
Proof.
  intros w. destruct (moveToStatus_shape P issueKey targetStatus w) as (r & Hr & _).
  exists r. exact Hr.
Qed.

(** [FindPRIssue], by the answer of the tracker. *)
Lemma FindPRIssue_run repoName prNumber w :
  FindPRIssue P repoName prNumber w =
    let s := Issue_Search P (pr_jql prNumber) 1 w in
    mkRun (Val match fst s with
               | Err err => Err err
               | Ok [] => Err "PR issue not found"
               | Ok (issue :: _) => Ok issue
               end)
          (snd s) [EvCall (Call_Issue_Search (pr_jql prNumber) 1)].
Proof.
  unfold FindPRIssue, bind, call. cbv zeta.
  destruct (Issue_Search P (pr_jql prNumber) 1 w) as [[[|issue issues]|err] w1]; reflexivity.
Qed.

(** [MovePRToMerged] when the search finds nothing or fails: the error is
    returned and nothing else is called. *)
Lemma MovePRToMerged_not_found repoName prNumber w err :
  outcome (FindPRIssue P repoName prNumber w) = Val (Err err) ->
  MovePRToMerged P repoName prNumber w =
    mkRun (Val (Some err)) (snd (Issue_Search P (pr_jql prNumber) 1 w))
          [EvCall (Call_Issue_Search (pr_jql prNumber) 1)].
Proof.
  intros H. unfold MovePRToMerged. rewrite (bind_Val _ _ _ _ H).
  rewrite FindPRIssue_run. reflexivity.
Qed.

Lemma MovePRToMerged_found repoName prNumber w issue :
  outcome (FindPRIssue P repoName prNumber w) = Val (Ok issue) ->
  MovePRToMerged P repoName prNumber w =
    let w1 := snd (Issue_Search P (pr_jql prNumber) 1 w) in
    let mv := moveToStatus P (Key issue) "Merged_PR" w1 in
    mkRun (outcome mv) (world mv)
          (EvCall (Call_Issue_Search (pr_jql prNumber) 1) :: events mv).
Proof.
  intros H. unfold MovePRToMerged. rewrite (bind_Val _ _ _ _ H).
  rewrite FindPRIssue_run. reflexivity.
Qed.

Lemma MovePRToMerged_total repoName prNumber : total (MovePRToMerged P repoName prNumber).
Proof.
  intros w. destruct (outcome (FindPRIssue P repoName prNumber w)) as [[issue|err]|msg] eqn:H.
  - rewrite (MovePRToMerged_found _ _ _ _ H). cbv zeta. cbn [outcome].
    apply moveToStatus_total.
  - rewrite (MovePRToMerged_not_found _ _ _ _ H). eexists. reflexivity.
  - rewrite FindPRIssue_run in H. discriminate H.
Qed.

(** C10.  The lookup of the tracked issue never looks at the repository
    name: for any two repository names and any PR number, [FindPRIssue] runs
    identically, with the one search query built from the fixed project
    ["REP"] and the label ["pr-<n>"]; hence [MovePRToMerged] resolves and
    moves the same issue for either repository. *)
Theorem FindPRIssue_ignores_repository (r1 r2 : string) (n : Z) (w : W) :
  FindPRIssue P r1 n w = FindPRIssue P r2 n w /\
  calls (events (FindPRIssue P r1 n w)) = [Call_Issue_Search (pr_jql n) 1] /\
  pr_jql n = "project = " +:+ dquote +:+ "REP" +:+ dquote +:+
             " AND labels = " +:+ dquote +:+ pr_label n +:+ dquote /\
  MovePRToMerged P r1 n w = MovePRToMerged P r2 n w.
Proof.
  split; [|split; [|split]].
  - rewrite !FindPRIssue_run. reflexivity.
  - rewrite FindPRIssue_run. reflexivity.
  - reflexivity.
  - unfold MovePRToMerged, bind. rewrite !FindPRIssue_run. reflexivity.
Qed.

End TrackerProperties.

(** ** The pull-request handlers *)

Section PullRequestProperties.
Context {W : Type} (P : Platform W) (h : WebhookHandler).

(** [handlePROpened], by the answer of the tracker to the creation. *)
Lemma handlePROpened_run prInfo w :
  handlePROpened P prInfo w =
    let issueData := pr_issue prInfo (time_Now_Format P created_layout w) in
    let c := Issue_Create P issueData w in
    let line := EvInfo ("Creating Jira issue for PR #" +:+ fmt_d (PRNumber prInfo) +:+
                        " in " +:+ PRI_RepoName prInfo) in
    match fst c with
    | Err err =>
        mkRun (Val tt) (snd c)
              [line; EvCall (Call_Issue_Create issueData);
               EvError ("Failed to create Jira issue: " +:+
                        "failed to create issue in project REP: " +:+ err)]
    | Ok issue =>
        let mv := moveToStatus P (Key issue) "Open_PR" (snd c) in
        mkRun (Val tt) (world mv)
              (line :: EvCall (Call_Issue_Create issueData) :: events mv ++
               [EvInfo ("Created Jira issue: " +:+ Key issue +:+ " for PR #" +:+
                        fmt_d (PRNumber prInfo) +:+ " in Open_PR status")])
    end.
Proof.
  unfold handlePROpened, CreatePRIssue, logger_Info, logger_Error, emit, now, call, created_layout.
  unfold bind at 1 2 3 4. cbv zeta. cbn [outcome world events].
  destruct (Issue_Create P _ w) as [[issue|err] w1]; cbn [outcome world events fst snd].
  - destruct (moveToStatus_total P (Key issue) "Open_PR" w1) as [r Hr].
    rewrite (bind_Val _ _ _ _ Hr). cbn [outcome world events ret].
    rewrite app_nil_r. reflexivity.
  - reflexivity.
Qed.

Lemma handlePROpened_total prInfo : total (handlePROpened P prInfo).
Proof.
  intros w. rewrite handlePROpened_run. cbv zeta.
  destruct (fst (Issue_Create P _ w)); eexists; reflexivity.
Qed.

(** [handlePRMerged]: the two log lines around [MovePRToMerged]. *)
Lemma handlePRMerged_run prInfo w :
  handlePRMerged P prInfo w =
    let mv := MovePRToMerged P (PRI_RepoName prInfo) (PRNumber prInfo) w in
    mkRun (Val tt) (world mv)
          (EvInfo ("Moving PR #" +:+ fmt_d (PRNumber prInfo) +:+
                   " to Merged_PR status in Jira") :: events mv ++
           [match outcome mv with
            | Val (Some e) => EvError ("Failed to move PR to merged: " +:+ e)
            | _ => EvInfo ("Moved PR #" +:+ fmt_d (PRNumber prInfo) +:+
                           " to Merged_PR status successfully")
            end]).
Proof.
  unfold handlePRMerged, logger_Info, logger_Error, emit.
  unfold bind at 1. cbv zeta. cbn [outcome world events].
  destruct (MovePRToMerged_total P (PRI_RepoName prInfo) (PRNumber prInfo) w) as [r Hr].
  rewrite (bind_Val _ _ _ _ Hr). rewrite Hr. destruct r; reflexivity.
Qed.

Lemma handlePRMerged_total prInfo : total (handlePRMerged P prInfo).
Proof. intros w. rewrite handlePRMerged_run. eexists. reflexivity. Qed.

Lemma tracker_sync_total payload n d : total (tracker_sync P h payload n d).
Proof.
  unfold tracker_sync. destruct (jiraClient h); [|apply total_ret].
  destruct (String.eqb (pr_action payload) "opened"); [apply handlePROpened_total|].
  destruct (String.eqb (pr_action payload) "closed").
  - destruct (pr_merged payload); [apply handlePRMerged_total|apply total_ret].
  - destruct (String.eqb (pr_action payload) "synchronize");
      [apply total_emit|apply total_ret].
Qed.

(** A payload without a numeric [pull_request.number] stops
    [handlePullRequestEventDetailed] at its unchecked type assertion, before
    anything is logged or called. *)
Lemma handlePullRequestEventDetailed_panics payload w :
  pr_number payload = None ->
  handlePullRequestEventDetailed P h payload w =
    mkRun (Panicked "interface conversion: interface {} is not float64") w [].
Proof.
  intros H. unfold handlePullRequestEventDetailed, must_float64.
  unfold pr_number, pr_data in H. rewrite H. reflexivity.
Qed.

(** [handlePullRequestEventDetailed] in the vocabulary of the statements. *)
Lemma handlePullRequestEventDetailed_eq payload :
  handlePullRequestEventDetailed P h payload =
    (let* number := must_float64 (index (pr_data payload) "number") in
     exec logger_Info (pr_event_line payload (int_of_float64 number)) then
     let* r := GetPullRequestDetails P (githubClient h) (pr_repo payload)
                 (int_of_float64 number) in
     match r with
     | Err err => logger_Error ("Failed to get PR details: " +:+ err)
     | Ok d =>
         exec tracker_sync P h payload (int_of_float64 number) d then
         logDetailedPR P (pr_action payload) d
     end).
Proof. reflexivity. Qed.

(** [handlePullRequestEventDetailed] on a payload that holds a PR number, by
    the result of the enrichment. *)
Lemma handlePullRequestEventDetailed_run payload f w :
  pr_number payload = Some f ->
  handlePullRequestEventDetailed P h payload w =
    let n := int_of_float64 f in
    let fetch := GetPullRequestDetails P (githubClient h) (pr_repo payload) n w in
    match outcome fetch with
    | Val (Ok d) =>
        let sync := tracker_sync P h payload n d (world fetch) in
        let lg := logDetailedPR P (pr_action payload) d (world sync) in
        mkRun (Val tt) (world sync)
              (EvInfo (pr_event_line payload n) :: events fetch ++ events sync ++ events lg)
    | Val (Err err) =>
        mkRun (Val tt) (world fetch)
              (EvInfo (pr_event_line payload n) :: events fetch ++
               [EvError ("Failed to get PR details: " +:+ err)])
    | Panicked msg =>
        mkRun (Panicked msg) (world fetch) (EvInfo (pr_event_line payload n) :: events fetch)
    end.
Proof.
  intros H. rewrite handlePullRequestEventDetailed_eq. unfold must_float64.
  unfold pr_number in H. rewrite H. rewrite bind_ret, bind_Info. cbv zeta.
  set (n := int_of_float64 f).
  destruct (outcome (GetPullRequestDetails P (githubClient h) (pr_repo payload) n w))
    as [[d|err]|msg] eqn:Hf.
  - rewrite (bind_Val _ _ _ _ Hf). cbn [outcome world events].
    set (w1 := world (GetPullRequestDetails P (githubClient h) (pr_repo payload) n w)).
    destruct (tracker_sync_total payload n d w1) as [[] Hs].
    rewrite (bind_Val _ _ _ _ Hs). cbn [outcome world events].
    destruct (logDetailedPR_logs_only P (pr_action payload) d
                (world (tracker_sync P h payload n d w1))) as (Ho & Hw & _).
    rewrite Ho, Hw. reflexivity.
  - rewrite (bind_Val _ _ _ _ Hf). reflexivity.
  - rewrite (bind_Panicked _ _ _ _ Hf). reflexivity.
Qed.

(** The calls of one transition attempt: the listing, then at most one
    execution, both on the same issue. *)
Lemma moveToStatus_calls issueKey targetStatus w :
  let attempt := moveToStatus P issueKey targetStatus w in
  events attempt = map EvCall (calls (events attempt)) /\
  (calls (events attempt) = [Call_Issue_GetTransitions issueKey] \/
   exists id, calls (events attempt) =
                [Call_Issue_GetTransitions issueKey; Call_Issue_DoTransition issueKey id]).
Proof.
  cbv zeta. destruct (moveToStatus_shape P issueKey targetStatus w) as (r & _ & [[-> _]|[id ->]]).
  - split; [reflexivity|left; reflexivity].
  - split; [reflexivity|right; exists id; reflexivity].
Qed.

Lemma tracker_calls_moveToStatus issueKey targetStatus w :
  tracker_calls (events (moveToStatus P issueKey targetStatus w)) =
  calls (events (moveToStatus P issueKey targetStatus w)).
Proof.
  unfold tracker_calls.
  destruct (moveToStatus_calls issueKey targetStatus w) as (_ & [-> |[id ->]]); reflexivity.
Qed.


(** An entry point that received a [pull_request] event runs the detailed
    handler and confirms. *)
Lemma HandleRepoWebhook_pull_request r payload w :
  delivers P r "pull_request" payload ->
  HandleRepoWebhook P h r w =
    (exec handlePullRequestEventDetailed P h payload then ret repo_confirmation) w.
Proof.
  intros (body & Hb & Hh & _ & Hj). unfold HandleRepoWebhook. rewrite Hb, Hh. cbn [String.eqb].
  cbn. rewrite Hj. reflexivity.
Qed.

(** The run of the repository entry point on a [pull_request] event whose
    enrichment succeeds. *)
Lemma HandleRepoWebhook_enriched r payload f d w :
  delivers P r "pull_request" payload ->
  pr_number payload = Some f ->
  outcome (GetPullRequestDetails P (githubClient h) (pr_repo payload) (int_of_float64 f) w)
    = Val (Ok d) ->
  let n := int_of_float64 f in
  let fetch := GetPullRequestDetails P (githubClient h) (pr_repo payload) n w in
  let sync := tracker_sync P h payload n d (world fetch) in
  outcome (HandleRepoWebhook P h r w) = Val repo_confirmation /\
  world (HandleRepoWebhook P h r w) = world sync /\
  tracker_calls (events (HandleRepoWebhook P h r w)) = tracker_calls (events sync) /\
  errors_logged (events (HandleRepoWebhook P h r w)) = errors_logged (events sync) /\
  (forall e, In e (events sync) -> In e (events (HandleRepoWebhook P h r w))).
Proof.
  intros Hd Hn Hf. cbv zeta.
  rewrite (HandleRepoWebhook_pull_request _ _ _ Hd).
  assert (Hrun := handlePullRequestEventDetailed_run payload f w Hn).
  cbv zeta in Hrun. rewrite Hf in Hrun.
  unfold bind. rewrite Hrun. cbn [outcome world events ret]. rewrite app_nil_r.
  set (fetch := GetPullRequestDetails P (githubClient h) (pr_repo payload) (int_of_float64 f) w).
  set (sync := tracker_sync P h payload (int_of_float64 f) d (world fetch)).
  destruct (logDetailedPR_logs_only P (pr_action payload) d (world sync)) as (_ & _ & Hlg).
  destruct (GetPullRequestDetails_no_tracker P (githubClient h) (pr_repo payload)
              (int_of_float64 f) w) as (Ht & He).
  fold fetch in Ht, He.
  repeat split.
  - change (EvInfo ?m :: ?t) with ([EvInfo m] ++ t).
    rewrite !tracker_calls_app, Ht, (info_only_tracker_calls _ Hlg), app_nil_r. reflexivity.
  - change (EvInfo ?m :: ?t) with ([EvInfo m] ++ t).
    rewrite !errors_logged_app, He, (info_only_errors_logged _ Hlg), app_nil_r. reflexivity.
  - intros e He'. right. apply in_or_app. right. apply in_or_app. left. exact He'.
Qed.


(** C2.  For every [pull_request] payload with action [closed] and
    [merged = true] handled on the repository entry point, with a tracker
    client configured and the enrichment succeeding: the first tracker call is
    the search by the label ["pr-<number>"].  When the search fails or matches
    nothing, it is the only tracker call (no transition is listed or
    executed), the failure is logged, and the move to ["Merged_PR"] is not
    attempted; a transition is executed only on the issue the search found.
    In every case the sender gets the confirmation. *)
Theorem merged_moves_issue_only_when_found r payload f d j w :
  delivers P r "pull_request" payload ->
  pr_action payload = "closed" ->
  pr_merged payload = true ->
  pr_number payload = Some f ->
  jiraClient h = Some j ->
  outcome (GetPullRequestDetails P (githubClient h) (pr_repo payload) (int_of_float64 f) w)
    = Val (Ok d) ->
  let n := int_of_float64 f in
  let fetch := GetPullRequestDetails P (githubClient h) (pr_repo payload) n w in
  let run := HandleRepoWebhook P h r w in
  let search := Issue_Search P (pr_jql n) 1 (world fetch) in
  pr_jql n = "project = " +:+ dquote +:+ "REP" +:+ dquote +:+
             " AND labels = " +:+ dquote +:+ pr_label n +:+ dquote /\
  (exists rest, tracker_calls (events run) = Call_Issue_Search (pr_jql n) 1 :: rest) /\
  (forall err, fst search = Err err ->
     tracker_calls (events run) = [Call_Issue_Search (pr_jql n) 1] /\
     errors_logged (events run) = ["Failed to move PR to merged: " +:+ err]) /\
  (fst search = Ok [] ->
     tracker_calls (events run) = [Call_Issue_Search (pr_jql n) 1] /\
     errors_logged (events run) = ["Failed to move PR to merged: PR issue not found"]) /\
  (forall issue others, fst search = Ok (issue :: others) ->
     tracker_calls (events run) =
       Call_Issue_Search (pr_jql n) 1 ::
       calls (events (moveToStatus P (Key issue) "Merged_PR" (snd search)))) /\
  (forall c, In c (tracker_calls (events run)) -> is_transition_call c = true ->
     exists issue others, fst search = Ok (issue :: others)) /\
  outcome run = Val repo_confirmation.
Proof.
  intros Hd Ha Hm Hn Hj Hf. cbv zeta.
  destruct (HandleRepoWebhook_enriched r payload f d w Hd Hn Hf) as (Ho & _ & Ht & He & _).
  cbv zeta in Ht, He. rewrite Ht, He. clear Ht He.
  unfold tracker_sync. rewrite Hj, Ha, Hm. cbn [String.eqb Ascii.eqb Bool.eqb].
  set (n := int_of_float64 f) in *.
  set (w1 := world (GetPullRequestDetails P (githubClient h) (pr_repo payload) n w)) in *.
  rewrite handlePRMerged_run. cbv zeta.
  change (PRNumber (set_Action (pr_info payload n d) "merged")) with n.
  change (PRI_RepoName (set_Action (pr_info payload n d) "merged")) with (pr_repo payload).
  assert (Hfind := FindPRIssue_run P (pr_repo payload) n w1). cbv zeta in Hfind.
  set (search := Issue_Search P (pr_jql n) 1 w1) in *.
  assert (Hcases :
    (exists err, outcome (FindPRIssue P (pr_repo payload) n w1) = Val (Err err) /\
       (fst search = Err err \/ (fst search = Ok [] /\ err = "PR issue not found"))) \/
    (exists issue others, outcome (FindPRIssue P (pr_repo payload) n w1) = Val (Ok issue) /\
       fst search = Ok (issue :: others))).
  { rewrite Hfind. cbn [outcome]. destruct (fst search) as [[|issue others]|err].
    - left. eexists. split; [reflexivity|]. right. split; reflexivity.
    - right. eexists _, _. split; reflexivity.
    - left. eexists. split; [reflexivity|]. left. reflexivity. }
  destruct Hcases as [(err & Hout & Hs)|(issue & others & Hout & Hs)].
  - rewrite (MovePRToMerged_not_found P _ _ _ _ Hout). cbn [outcome world events].
    split; [reflexivity|]. split; [eexists; reflexivity|].
    split; [|split; [|split; [|split]]].
    + intros err' He'. destruct Hs as [Hs|[Hs _]]; rewrite Hs in He'; [|discriminate].
      injection He' as <-. split; reflexivity.
    + intros He'. destruct Hs as [Hs|[_ ->]]; [rewrite Hs in He'; discriminate|].
      split; reflexivity.
    + intros issue others He'. destruct Hs as [Hs|[Hs _]]; rewrite Hs in He'; discriminate.
    + intros c [<-|[]] Hc. discriminate Hc.
    + exact Ho.
  - rewrite (MovePRToMerged_found P _ _ _ _ Hout). cbv zeta. cbn [outcome world events].
    fold search.
    assert (Htc : tracker_calls
              (EvInfo ("Moving PR #" +:+ fmt_d n +:+ " to Merged_PR status in Jira")
               :: (EvCall (Call_Issue_Search (pr_jql n) 1)
                   :: events (moveToStatus P (Key issue) "Merged_PR" (snd search))) ++
               [match outcome (moveToStatus P (Key issue) "Merged_PR" (snd search)) with
                | Val (Some e) => EvError ("Failed to move PR to merged: " +:+ e)
                | _ => EvInfo ("Moved PR #" +:+ fmt_d n +:+ " to Merged_PR status successfully")
                end]) =
            Call_Issue_Search (pr_jql n) 1 ::
            calls (events (moveToStatus P (Key issue) "Merged_PR" (snd search)))).
    { change (EvInfo ?m :: (?c :: ?t) ++ ?u) with ([EvInfo m; c] ++ t ++ u).
      rewrite !tracker_calls_app, tracker_calls_moveToStatus.
      destruct (outcome (moveToStatus P (Key issue) "Merged_PR" (snd search))) as [[e|]|msg];
        cbn; rewrite app_nil_r; reflexivity. }
    rewrite Htc.
    split; [reflexivity|]. split; [eexists; reflexivity|].
    split; [|split; [|split; [|split]]].
    + intros err He'. rewrite Hs in He'. discriminate.
    + intros He'. rewrite Hs in He'. discriminate.
    + intros issue' others' He'. rewrite Hs in He'. injection He' as <- <-. reflexivity.
    + intros c _ _. exists issue, others. exact Hs.
    + exact Ho.
Qed.

Lemma tracker_sync_closed_unmerged payload n d w :
  pr_action payload = "closed" ->
  pr_merged payload = false ->
  tracker_sync P h payload n d w = mkRun (Val tt) w [].
Proof.
  intros Ha Hm. unfold tracker_sync. rewrite Ha, Hm. destruct (jiraClient h); reflexivity.
Qed.

(** C5.  For every [pull_request] payload with action [closed] and
    [merged] false (or absent) handled on the repository entry point, no
    tracker call is made: nothing is created, searched or moved, whatever the
    enrichment returns and whether a tracker client is configured or not. *)
Theorem closed_unmerged_makes_no_tracker_call r payload w :
  delivers P r "pull_request" payload ->
  pr_action payload = "closed" ->
  pr_merged payload = false ->
  tracker_calls (events (HandleRepoWebhook P h r w)) = [].
Proof.
  intros Hd Ha Hm. rewrite (HandleRepoWebhook_pull_request _ _ _ Hd).
  destruct (pr_number payload) as [f|] eqn:Hn.
  - assert (Hrun := handlePullRequestEventDetailed_run payload f w Hn). cbv zeta in Hrun.
    destruct (GetPullRequestDetails_no_tracker P (githubClient h) (pr_repo payload)
                (int_of_float64 f) w) as (Ht & _).
    destruct (outcome (GetPullRequestDetails P (githubClient h) (pr_repo payload)
                         (int_of_float64 f) w)) as [[d|err]|msg].
    + unfold bind. rewrite Hrun. cbn [outcome world events ret]. rewrite app_nil_r.
      rewrite !(tracker_sync_closed_unmerged _ _ _ _ Ha Hm). cbn [world events app].
      match goal with |- context [logDetailedPR P ?a d ?w'] =>
        destruct (logDetailedPR_logs_only P a d w') as (_ & _ & Hlg) end.
      change (EvInfo ?m :: ?t) with ([EvInfo m] ++ t).
      rewrite !tracker_calls_app, Ht, (info_only_tracker_calls _ Hlg). reflexivity.
    + unfold bind. rewrite Hrun. cbn [outcome world events ret]. rewrite app_nil_r.
      change (EvInfo ?m :: ?t) with ([EvInfo m] ++ t).
      rewrite !tracker_calls_app, Ht. reflexivity.
    + unfold bind. rewrite Hrun. cbn [outcome world events ret].
      change (EvInfo ?m :: ?t) with ([EvInfo m] ++ t).
      rewrite !tracker_calls_app, Ht. reflexivity.
  - unfold bind. rewrite (handlePullRequestEventDetailed_panics _ _ Hn). reflexivity.
Qed.

(** The tracker calls of one delivery of an [opened] event: the creation,
    then only calls of the transition attempt. *)
Lemma opened_tracker_calls r payload f d j w :
  delivers P r "pull_request" payload ->
  pr_action payload = "opened" ->
  pr_number payload = Some f ->
  jiraClient h = Some j ->
  outcome (GetPullRequestDetails P (githubClient h) (pr_repo payload) (int_of_float64 f) w)
    = Val (Ok d) ->
  exists issueData tail,
    tracker_calls (events (HandleRepoWebhook P h r w)) = Call_Issue_Create issueData :: tail /\
    has_label issueData (pr_label (int_of_float64 f)) /\
    Forall (fun c => is_transition_call c = true) tail.
Proof.
  intros Hd Ha Hn Hj Hf.
  destruct (HandleRepoWebhook_enriched r payload f d w Hd Hn Hf) as (_ & _ & Ht & _).
  cbv zeta in Ht. rewrite Ht. clear Ht.
  unfold tracker_sync. rewrite Hj, Ha. cbn [String.eqb Ascii.eqb Bool.eqb].
  rewrite handlePROpened_run. cbv zeta.
  match goal with |- context [Issue_Create P ?i ?w'] =>
    set (issueData := i); set (w1 := w') end.
  exists issueData.
  destruct (fst (Issue_Create P issueData w1)) as [issue|err]; cbn [events].
  - exists (calls (events (moveToStatus P (Key issue) "Open_PR" (snd (Issue_Create P issueData w1))))).
    split; [|split].
    + change (?a :: ?b :: ?t) with ([a; b] ++ t).
      rewrite !tracker_calls_app, tracker_calls_moveToStatus. cbn. rewrite app_nil_r.
      reflexivity.
    + eexists. split; [reflexivity|]. right. left. reflexivity.
    + destruct (moveToStatus_calls (Key issue) "Open_PR" (snd (Issue_Create P issueData w1)))
        as (_ & [-> |[id ->]]); repeat constructor.
  - exists []. split; [reflexivity|]. split; [|constructor].
    eexists. split; [reflexivity|]. right. left. reflexivity.
Qed.

(** C9.  Handling an [opened] event is not idempotent: when the same
    request is delivered twice (the enrichment succeeding both times, a tracker
    client configured), the two deliveries make two create-issue calls, both
    labelled ["pr-<number>"], and no search by PR number is made at any point,
    so nothing can detect the first issue before the second is created. *)
Theorem opened_twice_creates_twice r payload f j w :
  delivers P r "pull_request" payload ->
  pr_action payload = "opened" ->
  pr_number payload = Some f ->
  jiraClient h = Some j ->
  let n := int_of_float64 f in
  let first := HandleRepoWebhook P h r w in
  let second := HandleRepoWebhook P h r (world first) in
  (exists d, outcome (GetPullRequestDetails P (githubClient h) (pr_repo payload) n w)
             = Val (Ok d)) ->
  (exists d, outcome (GetPullRequestDetails P (githubClient h) (pr_repo payload) n
                        (world first)) = Val (Ok d)) ->
  let both := tracker_calls (events first ++ events second) in
  length (List.filter is_create_call both) = 2%nat /\
  Forall (fun c => match c with
                   | Call_Issue_Create issue => has_label issue (pr_label n)
                   | _ => True
                   end) both /\
  (forall jql maxResults, ~ In (Call_Issue_Search jql maxResults) both).
Proof.
  intros Hd Ha Hn Hj. cbv zeta. intros [d1 H1] [d2 H2].
  destruct (opened_tracker_calls r payload f d1 j w Hd Ha Hn Hj H1)
    as (i1 & t1 & E1 & L1 & T1).
  destruct (opened_tracker_calls r payload f d2 j _ Hd Ha Hn Hj H2)
    as (i2 & t2 & E2 & L2 & T2).
  rewrite tracker_calls_app, E1, E2.
  assert (Hnc : forall t, Forall (fun c => is_transition_call c = true) t ->
                          List.filter is_create_call t = []).
  { induction 1 as [|c t Hc _ IH]; [reflexivity|]. simpl. rewrite IH.
    destruct c; try discriminate Hc; reflexivity. }
  assert (Hlbl : forall t, Forall (fun c => is_transition_call c = true) t ->
                 Forall (fun c => match c with
                                  | Call_Issue_Create issue =>
                                      has_label issue (pr_label (int_of_float64 f))
                                  | _ => True
                                  end) t).
  { intros t Ht. eapply List.Forall_impl; [|exact Ht]. intros c Hc.
    destruct c; try discriminate Hc; exact I. }
  split; [|split].
  - simpl. rewrite List.filter_app. simpl. rewrite (Hnc _ T1), (Hnc _ T2). reflexivity.
  - constructor; [exact L1|]. apply Forall_app. split; [apply Hlbl, T1|].
    constructor; [exact L2|apply Hlbl, T2].
  - intros jql k Hin.
    assert (Hns : forall t, Forall (fun c => is_transition_call c = true) t ->
                            ~ In (Call_Issue_Search jql k) t).
    { intros t Ht Hi. rewrite List.Forall_forall in Ht. specialize (Ht _ Hi). discriminate Ht. }
    destruct Hin as [Hin|Hin]; [discriminate Hin|].
    apply in_app_or in Hin. destruct Hin as [Hin|[Hin|Hin]].
    + exact (Hns _ T1 Hin).
    + discriminate Hin.
    + exact (Hns _ T2 Hin).
Qed.

(** C6.  [GetPullRequestDetails] calls the hosting platform for the PR,
    then for its files, then for its reviews, each at most once and stopping at
    the first failure.  It returns the assembled details exactly when the three
    calls succeed, and an error otherwise.  When it returns an error, the
    handler logs it and gives up: it returns normally having made the
    enrichment calls once and no other call, in particular no tracker call. *)
Theorem enrichment_is_all_or_nothing payload f w :
  pr_number payload = Some f ->
  let n := int_of_float64 f in
  let o := org (githubClient h) in
  let repo := pr_repo payload in
  let fetch := GetPullRequestDetails P (githubClient h) repo n w in
  let g1 := PullRequests_Get P o repo n w in
  let g2 := PullRequests_ListFiles P o repo n (snd g1) in
  let g3 := PullRequests_ListReviews P o repo n (snd g2) in
  calls (events fetch) =
    Call_PullRequests_Get o repo n ::
    (if is_Ok (fst g1)
     then Call_PullRequests_ListFiles o repo n ::
          (if is_Ok (fst g2) then [Call_PullRequests_ListReviews o repo n] else [])
     else []) /\
  (forall pr prFiles reviews,
     fst g1 = Ok pr -> fst g2 = Ok prFiles -> fst g3 = Ok reviews ->
     outcome fetch = Val (Ok {| PullRequest_ := pr; Files := prFiles; Reviews := reviews |})) /\
  ((exists d, outcome fetch = Val (Ok d)) <->
   is_Ok (fst g1) && is_Ok (fst g2) && is_Ok (fst g3) = true) /\
  ((exists err, outcome fetch = Val (Err err)) <->
   is_Ok (fst g1) && is_Ok (fst g2) && is_Ok (fst g3) = false) /\
  (forall err, outcome fetch = Val (Err err) ->
     let run := handlePullRequestEventDetailed P h payload w in
     outcome run = Val tt /\
     events run = EvInfo (pr_event_line payload n) :: events fetch ++
                  [EvError ("Failed to get PR details: " +:+ err)] /\
     calls (events run) = calls (events fetch) /\
     tracker_calls (events run) = []).
Proof.
  intros Hn. cbv zeta.
  assert (Hrun := handlePullRequestEventDetailed_run payload f w Hn). cbv zeta in Hrun.
  destruct (GetPullRequestDetails_no_tracker P (githubClient h) (pr_repo payload)
              (int_of_float64 f) w) as (Ht & _).
  rewrite GetPullRequestDetails_run in *. cbv zeta in *.
  destruct (fst (PullRequests_Get P _ _ _ w)) as [pr|e1]; cbn [is_Ok andb].
  - destruct (fst (PullRequests_ListFiles P _ _ _ _)) as [fs|e2]; cbn [is_Ok andb].
    + destruct (fst (PullRequests_ListReviews P _ _ _ _)) as [rs|e3]; cbn [is_Ok andb outcome].
      * split; [reflexivity|]. split; [intros ? ? ? [= <-] [= <-] [= <-]; reflexivity|].
        split; [split; [reflexivity|eexists; reflexivity]|].
        split; [split; [intros [? [=]]|discriminate]|]. intros err [=].
      * split; [reflexivity|]. split; [intros ? ? ? _ _ [=]|].
        split; [split; [intros [? [=]]|discriminate]|].
        split; [split; [reflexivity|eexists; reflexivity]|].
        intros err [= <-]. rewrite Hrun. cbn [outcome events] in *. repeat split.
    + split; [reflexivity|]. split; [intros ? ? ? _ [=]|].
      split; [split; [intros [? [=]]|discriminate]|].
      split; [split; [reflexivity|eexists; reflexivity]|].
      intros err [= <-]. rewrite Hrun. cbn [outcome events] in *. repeat split.
  - split; [reflexivity|]. split; [intros ? ? ? [=]|].
    split; [split; [intros [? [=]]|discriminate]|].
    split; [split; [reflexivity|eexists; reflexivity]|].
    intros err [= <-]. rewrite Hrun. cbn [outcome events] in *. repeat split.
Qed.

End PullRequestProperties.

(** ** The push handler *)

Section PushProperties.
Context {W : Type} (P : Platform W) (h : WebhookHandler).

Lemma GetCommitDetails_run c repoName commitSHA w :
  GetCommitDetails P c repoName commitSHA w =
    let g := Repositories_GetCommit P (org c) repoName commitSHA w in
    mkRun (Val match fst g with
               | Err e => Err ("failed to get commit details: " +:+ e)
               | Ok commit => Ok commit
               end)
          (snd g) [EvCall (Call_GetCommit (org c) repoName commitSHA)].
Proof.
  unfold GetCommitDetails, bind, call. cbn.
  destruct (fst (Repositories_GetCommit P (org c) repoName commitSHA w)); reflexivity.
Qed.

(** The loop body on a commit that is a JSON object. *)
Lemma processCommit_run repoName branch i (m : gmap string JSON) w :
  processCommit P h repoName branch i (JObject m) w =
    let sha := string_ (m !! "id") in
    let detail := GetCommitDetails P (githubClient h) repoName sha w in
    match outcome detail with
    | Val (Err err) =>
        mkRun (Val tt) (world detail)
              (events detail ++ [EvError ("Failed to get commit details: " +:+ err)])
    | Val (Ok commitDetails) =>
        let diff := GetFileDiff P (githubClient h) repoName sha (world detail) in
        match outcome diff with
        | Val d =>
            let record :=
              commit_record repoName branch m commitDetails
                match d with Ok diffContent => diffContent | Err _ => "Diff unavailable" end
                (time_Now_Format P rfc3339 (world diff)) in
            mkRun (Val tt) (world diff)
                  (events detail ++ events diff ++
                   match d with
                   | Ok _ => []
                   | Err err => [EvError ("Failed to get file diff: " +:+ err)]
                   end ++
                   events (logDetailedCommit (i + 1) record (world diff)))
        | Panicked msg => mkRun (Panicked msg) (world diff) (events detail ++ events diff)
        end
    | Panicked msg => mkRun (Panicked msg) (world detail) (events detail)
    end.
Proof.
  unfold processCommit. cbn [assert_map index]. cbv zeta.
  destruct (outcome (GetCommitDetails P (githubClient h) repoName (string_ (m !! "id")) w))
    as [[cd|err]|msg] eqn:Hd.
  - rewrite (bind_Val _ _ _ _ Hd). cbn [outcome world events].
    set (w1 := world (GetCommitDetails P (githubClient h) repoName (string_ (m !! "id")) w)).
    destruct (outcome (GetFileDiff P (githubClient h) repoName (string_ (m !! "id")) w1))
      as [d|msg] eqn:Hf.
    + rewrite (bind_Val _ _ _ _ Hf). cbn [outcome world events].
      set (w2 := world (GetFileDiff P (githubClient h) repoName (string_ (m !! "id")) w1)).
      destruct d as [diffContent|err].
      * rewrite bind_ret, bind_now.
        match goal with |- context [logDetailedCommit ?n ?info w2] =>
          destruct (logDetailedCommit_logs_only (W:=W) n info w2) as (Ho & Hw & _) end.
        unfold commit_record, rfc3339. cbn [app]. rewrite Ho, Hw. reflexivity.
      * rewrite bind_Error_ret, bind_now.
        match goal with |- context [logDetailedCommit ?n ?info w2] =>
          destruct (logDetailedCommit_logs_only (W:=W) n info w2) as (Ho & Hw & _) end.
        unfold commit_record, rfc3339. rewrite Ho, Hw. reflexivity.
    + rewrite (bind_Panicked _ _ _ _ Hf). reflexivity.
  - rewrite (bind_Val _ _ _ _ Hd). reflexivity.
  - rewrite (bind_Panicked _ _ _ _ Hd). reflexivity.
Qed.

(** [handlePushEventDetailed] on a payload with a [commits] array: one
    summary line, then the loop over the commits from index 0. *)
Lemma handlePushEventDetailed_loop payload commits w :
  assert_slice (index payload "commits") = Some commits ->
  exists line,
    handlePushEventDetailed P h payload w =
      (exec logger_Info line then
       for_range_from 0 commits
         (processCommit P h (string_ (index (assert_map (index payload "repository")) "name"))
            (strings_TrimPrefix (string_ (index payload "ref")) "refs/heads/"))) w.
Proof.
  intros Hc. unfold handlePushEventDetailed. rewrite Hc. eexists. reflexivity.
Qed.


End PushProperties.

(** ** The two entry points *)

Section EntryPointProperties.
Context {W : Type} (P : Platform W) (h : WebhookHandler).

Lemma HandleOrgWebhook_delivered r eventType payload w :
  delivers P r eventType payload ->
  HandleOrgWebhook P h r w =
    (exec dispatchOrg P h eventType payload then ret org_confirmation) w.
Proof.
  intros (body & Hb & Hh & Hne & Hj). unfold HandleOrgWebhook. rewrite Hb, Hh, Hj.
  destruct (String.eqb_spec eventType "") as [->|_]; [contradiction|reflexivity].
Qed.

Lemma HandleRepoWebhook_delivered r eventType payload w :
  delivers P r eventType payload ->
  HandleRepoWebhook P h r w =
    (exec dispatchRepo P h eventType payload then ret repo_confirmation) w.
Proof.
  intros (body & Hb & Hh & Hne & Hj). unfold HandleRepoWebhook. rewrite Hb, Hh, Hj.
  destruct (String.eqb_spec eventType "") as [->|_]; [contradiction|reflexivity].
Qed.

(** A refused request: one error line, the 400 answer, nothing else. *)
Lemma HandleOrgWebhook_rejected r w :
  rejected P r ->
  exists line msg,
    HandleOrgWebhook P h r w =
      mkRun (Val (http_Error msg StatusBadRequest)) w [EvError line].
Proof.
  unfold HandleOrgWebhook.
  intros [[err Hb]|[Hh|(body & err & Hb & Hj)]].
  - rewrite Hb. eexists _, _. reflexivity.
  - destruct (ReadAll_Body r) as [body|err]; [|eexists _, _; reflexivity].
    unfold event_type_missing in Hh. rewrite Hh. eexists _, _. reflexivity.
  - rewrite Hb, Hj.
    destruct (String.eqb (Header_Get (Header r) "X-Github-Event") "");
      eexists _, _; reflexivity.
Qed.

Lemma HandleRepoWebhook_rejected r w :
  rejected P r ->
  exists line msg,
    HandleRepoWebhook P h r w =
      mkRun (Val (http_Error msg StatusBadRequest)) w [EvError line].
Proof.
  unfold HandleRepoWebhook.
  intros [[err Hb]|[Hh|(body & err & Hb & Hj)]].
  - rewrite Hb. eexists _, _. reflexivity.
  - destruct (ReadAll_Body r) as [body|err]; [|eexists _, _; reflexivity].
    unfold event_type_missing in Hh. rewrite Hh. eexists _, _. reflexivity.
  - rewrite Hb, Hj.
    destruct (String.eqb (Header_Get (Header r) "X-Github-Event") "");
      eexists _, _; reflexivity.
Qed.

(** A request is refused, or it delivers an event. *)
Lemma rejected_or_delivers r :
  rejected P r \/
  exists eventType payload, delivers P r eventType payload.
Proof.
  unfold rejected, body_unreadable, event_type_missing, not_a_json_object, delivers.
  destruct (ReadAll_Body r) as [body|err]; [|left; left; eexists; reflexivity].
  destruct (String.eqb_spec (Header_Get (Header r) "X-Github-Event") "") as [He|Hne];
    [left; right; left; exact He|].
  destruct (json_Unmarshal_map P body) as [payload|err] eqn:Hj.
  - right. exists (Header_Get (Header r) "X-Github-Event"), payload, body. auto.
  - left. right. right. exists body, err. auto.
Qed.

Lemma delivers_not_rejected r eventType payload :
  delivers P r eventType payload -> ~ rejected P r.
Proof.
  intros (body & Hb & Hh & Hne & Hj) [[err Hb']|[Hm|(body' & err & Hb' & Hj')]].
  - rewrite Hb in Hb'. discriminate.
  - unfold event_type_missing in Hm. rewrite Hh in Hm. contradiction.
  - rewrite Hb in Hb'. injection Hb' as <-. rewrite Hj in Hj'. discriminate.
Qed.

(** The outcome of a confirmed dispatch. *)
Lemma confirm_outcome (m : M W unit) (resp : Response) w :
  outcome ((exec m then ret resp) w) =
    match outcome (m w) with
    | Val _ => Val resp
    | Panicked msg => Panicked msg
    end.
Proof. unfold bind. destruct (outcome (m w)); reflexivity. Qed.

Lemma confirm_not_bad_request (m : M W unit) (resp : Response) w :
  StatusCode resp = StatusOK -> ~ bad_request ((exec m then ret resp) w).
Proof.
  intros Hs (resp' & Ho & Hc). rewrite confirm_outcome in Ho.
  destruct (outcome (m w)); [|discriminate].
  injection Ho as <-. rewrite Hs in Hc. discriminate.
Qed.

(** *** The handlers of the organisation entry point always return *)

Lemma CreateRepoWebhook_total c repoName webhookURL :
  total (CreateRepoWebhook P c repoName webhookURL).
Proof.
  unfold CreateRepoWebhook. apply total_bind; [apply total_call|].
  intros [e|]; apply total_ret.
Qed.

Lemma handleRepositoryEvent_total payload : total (handleRepositoryEvent P h payload).
Proof.
  unfold handleRepositoryEvent.
  destruct (assert_string (index payload "action")) as [action|]; [|apply total_ret].
  destruct (negb (String.eqb action "created")); [apply total_ret|].
  destruct (assert_map (index payload "repository")); [|apply total_emit].
  apply total_bind; [apply logs_only_total, logNewRepository_logs_only|].
  intros _. apply total_bind; [apply CreateRepoWebhook_total|].
  intros [e|]; apply total_emit.
Qed.

Lemma dispatchOrg_total eventType payload : total (dispatchOrg P h eventType payload).
Proof.
  unfold dispatchOrg.
  repeat match goal with |- total (if ?b then _ else _) => destruct b end;
    first [apply handleRepositoryEvent_total | apply total_emit].
Qed.

(** *** The handlers of the repository entry point return on well-formed events *)

Lemma GetFileDiff_total c repoName commitSHA :
  (8 <= String.length commitSHA)%nat ->
  total (GetFileDiff P c repoName commitSHA).
Proof.
  intros Hlen. unfold GetFileDiff. apply total_bind; [apply total_call|].
  intros [commit|e]; [|apply total_ret].
  unfold slice_to. destruct (Nat.ltb_spec (String.length commitSHA) 8) as [Hlt|_]; [lia|].
  apply total_bind; apply total_ret || (intros; apply total_ret).
Qed.

(** The other unchecked operation: [commitSHA[:8]] panics on an id shorter
    than 8 bytes once the platform has answered. *)
Lemma GetFileDiff_short_id_panics c repoName commitSHA commit w :
  (String.length commitSHA < 8)%nat ->
  fst (Repositories_GetCommit P (org c) repoName commitSHA w) = Ok commit ->
  outcome (GetFileDiff P c repoName commitSHA w) =
    Panicked "runtime error: slice bounds out of range".
Proof.
  intros Hlen Hc. unfold GetFileDiff, bind, call. cbn [outcome world events].
  rewrite Hc. unfold slice_to.
  destruct (Nat.ltb_spec (String.length commitSHA) 8) as [_|Hge]; [reflexivity|lia].
Qed.

Lemma processCommit_total repoName branch i commit :
  (forall m, commit = JObject m -> (8 <= String.length (string_ (m !! "id")))%nat) ->
  total (processCommit P h repoName branch i commit).
Proof.
  intros Hlen w.
  destruct commit as [| | | | |m]; try (exists tt; reflexivity).
  rewrite processCommit_run. cbv zeta. rewrite GetCommitDetails_run. cbv zeta.
  cbn [outcome world].
  destruct (fst (Repositories_GetCommit P _ _ _ w)) as [cd|e]; [|eexists; reflexivity].
  match goal with |- context [GetFileDiff P ?c ?r ?s ?w'] =>
    destruct (GetFileDiff_total c r s (Hlen m eq_refl) w') as [d Hd] end.
  rewrite Hd. eexists. reflexivity.
Qed.

Lemma handlePushEventDetailed_total payload :
  well_formed_event "push" payload -> total (handlePushEventDetailed P h payload).
Proof.
  intros [_ Hwf]. specialize (Hwf eq_refl). unfold handlePushEventDetailed.
  destruct (assert_slice (index payload "commits")) as [commits|]; [|apply total_emit].
  apply total_bind; [apply total_emit|]. intros _.
  unfold for_range. apply total_for_range_from. intros i x Hx.
  apply processCommit_total. intros m ->. exact (Hwf commits m eq_refl Hx).
Qed.

Lemma handlePullRequestEventDetailed_total payload :
  well_formed_event "pull_request" payload ->
  total (handlePullRequestEventDetailed P h payload).
Proof.
  intros [Hwf _] w. destruct (Hwf eq_refl) as [f Hn].
  rewrite (handlePullRequestEventDetailed_run P h payload f w Hn). cbv zeta.
  destruct (GetPullRequestDetails_total P (githubClient h) (pr_repo payload)
              (int_of_float64 f) w) as [[d|err] Hf]; rewrite Hf; exists tt; reflexivity.
Qed.

Lemma dispatchRepo_total eventType payload :
  well_formed_event eventType payload -> total (dispatchRepo P h eventType payload).
Proof.
  intros Hwf. unfold dispatchRepo.
  destruct (String.eqb_spec eventType "push") as [->|_];
    [apply handlePushEventDetailed_total, Hwf|].
  destruct (String.eqb_spec eventType "pull_request") as [->|_];
    [apply handlePullRequestEventDetailed_total, Hwf|].
  destruct (String.eqb eventType "ping"); apply total_emit.
Qed.

(** C4 (amended).  For every request to either entry point:
    - the answer is 400 exactly when the body cannot be read, the event-type
      header is absent or empty, or the body does not decode into a JSON object
      (it is malformed, or it is a JSON value other than an object or [null]);
      such a request is answered after one error line, without any dispatch or
      remote call;
    - otherwise the organisation entry point answers 200 with its plain-text
      confirmation, whatever the remote services answer; and so does the
      repository entry point for every well-formed event: a [pull_request]
      payload holding a numeric PR number, a [push] payload whose commit ids
      have at least 8 bytes, and any payload of another event type. *)
Theorem webhook_answers r w :
  let org_run := HandleOrgWebhook P h r w in
  let repo_run := HandleRepoWebhook P h r w in
  (bad_request org_run <-> rejected P r) /\
  (bad_request repo_run <-> rejected P r) /\
  (rejected P r ->
     (exists line, events org_run = [EvError line]) /\
     (exists line, events repo_run = [EvError line]) /\
     calls (events org_run) = [] /\ calls (events repo_run) = [] /\
     world org_run = w /\ world repo_run = w) /\
  (~ rejected P r -> outcome org_run = Val org_confirmation) /\
  (forall eventType payload,
     delivers P r eventType payload ->
     well_formed_event eventType payload ->
     outcome repo_run = Val repo_confirmation).
Proof.
  cbv zeta. split; [|split; [|split; [|split]]].
  - split.
    + intros Hbad. destruct (rejected_or_delivers r) as [Hr|(et & pl & Hd)]; [exact Hr|].
      rewrite (HandleOrgWebhook_delivered _ _ _ _ Hd) in Hbad.
      exfalso. revert Hbad. apply confirm_not_bad_request. reflexivity.
    + intros Hr. destruct (HandleOrgWebhook_rejected r w Hr) as (line & msg & ->).
      eexists. split; reflexivity.
  - split.
    + intros Hbad. destruct (rejected_or_delivers r) as [Hr|(et & pl & Hd)]; [exact Hr|].
      rewrite (HandleRepoWebhook_delivered _ _ _ _ Hd) in Hbad.
      exfalso. revert Hbad. apply confirm_not_bad_request. reflexivity.
    + intros Hr. destruct (HandleRepoWebhook_rejected r w Hr) as (line & msg & ->).
      eexists. split; reflexivity.
  - intros Hr.
    destruct (HandleOrgWebhook_rejected r w Hr) as (line & msg & ->).
    destruct (HandleRepoWebhook_rejected r w Hr) as (line' & msg' & ->).
    repeat split; eexists; reflexivity.
  - intros Hnr. destruct (rejected_or_delivers r) as [Hr|(et & pl & Hd)]; [contradiction|].
    rewrite (HandleOrgWebhook_delivered _ _ _ _ Hd), confirm_outcome.
    destruct (dispatchOrg_total et pl w) as [[] ->]. reflexivity.
  - intros et pl Hd Hwf.
    rewrite (HandleRepoWebhook_delivered _ _ _ _ Hd), confirm_outcome.
    destruct (dispatchRepo_total et pl Hwf w) as [[] ->]. reflexivity.
Qed.

End EntryPointProperties.

(** ** The unchecked type assertion of the repository entry point *)

Section MissingNumber.
Context {W : Type} (P : Platform W) (h : WebhookHandler).

(** C3 (the code departs from the claim).  A [pull_request] event whose
    payload parsed but holds no numeric [pull_request.number] is not handled
    with a zero value on the repository entry point: the handler panics at its
    unchecked type assertion, before any log line or call, and the request gets
    no answer.  The organisation entry point, which reads the same field with
    the checked form, confirms the same request. *)
Theorem repo_pull_request_without_number_panics r payload w :
  delivers P r "pull_request" payload ->
  pr_number payload = None ->
  HandleRepoWebhook P h r w =
    mkRun (Panicked "interface conversion: interface {} is not float64") w [] /\
  outcome (HandleOrgWebhook P h r w) = Val org_confirmation.
Proof.
  intros Hd Hn. split.
  - rewrite (HandleRepoWebhook_pull_request P h _ _ _ Hd).
    unfold bind. rewrite (handlePullRequestEventDetailed_panics P h _ _ Hn). reflexivity.
  - rewrite (HandleOrgWebhook_delivered P h _ _ _ _ Hd), confirm_outcome.
    destruct (dispatchOrg_total P h "pull_request" payload w) as [[] ->]. reflexivity.
Qed.

End MissingNumber.

(** * The handlers on concrete requests *)

Lemma scenario_delivers s body doc m :
  Scenario.decode body = Ok doc ->
  doc = JObject m ->
  delivers (Scenario.platform s) (Scenario.request "pull_request" body) "pull_request" (Some m).
Proof.
  intros Hdec ->. exists body. split; [reflexivity|]. split; [reflexivity|].
  split; [discriminate|]. unfold json_Unmarshal_map. cbn [json_decode Scenario.platform].
  rewrite Hdec. reflexivity.
Defined.



Lemma merged_moves_issue_witness :
  let P := Scenario.platform Scenario.nothing_found in
  let run := HandleRepoWebhook P Scenario.handler
               (Scenario.request "pull_request" Scenario.merged_body) 0%nat in
  tracker_calls (events run) = [Call_Issue_Search (pr_jql 7) 1] /\
  errors_logged (events run) = ["Failed to move PR to merged: PR issue not found"] /\
  outcome run = Val repo_confirmation.
Proof.
  cbv zeta.
  pose proof (merged_moves_issue_only_when_found
                (Scenario.platform Scenario.nothing_found) Scenario.handler
                (Scenario.request "pull_request" Scenario.merged_body)
                _ (7 # 1)%Q Scenario.details jira_client 0%nat
                (scenario_delivers _ Scenario.merged_body (JObject Scenario.merged_map) _
                                   eq_refl eq_refl)
                ltac:(vm_compute; reflexivity) ltac:(vm_compute; reflexivity)
                ltac:(vm_compute; reflexivity) eq_refl
                ltac:(vm_compute; reflexivity)) as H.
  cbv zeta in H. destruct H as (_ & _ & _ & Hnone & _ & _ & Hout).
  destruct (Hnone eq_refl) as (Hcalls & Herr).
  split; [exact Hcalls|]. split; [exact Herr|exact Hout].
Defined.

Lemma closed_unmerged_witness :
  tracker_calls
    (events (HandleRepoWebhook (Scenario.platform Scenario.settings) Scenario.handler
               (Scenario.request "pull_request" Scenario.closed_body) 0%nat)) = [].
Proof.
  exact (closed_unmerged_makes_no_tracker_call
           (Scenario.platform Scenario.settings) Scenario.handler
           (Scenario.request "pull_request" Scenario.closed_body) _ 0%nat
           (scenario_delivers _ Scenario.closed_body (JObject Scenario.closed_map) _
                              eq_refl eq_refl)
           ltac:(vm_compute; reflexivity) ltac:(vm_compute; reflexivity)).
Defined.

Lemma opened_twice_witness :
  let P := Scenario.platform Scenario.settings in
  let r := Scenario.request "pull_request" Scenario.opened_body in
  let first := HandleRepoWebhook P Scenario.handler r 0%nat in
  let second := HandleRepoWebhook P Scenario.handler r (world first) in
  length (List.filter is_create_call (tracker_calls (events first ++ events second))) = 2%nat.
Proof.
  cbv zeta.
  refine (proj1 (opened_twice_creates_twice
                   (Scenario.platform Scenario.settings) Scenario.handler
                   (Scenario.request "pull_request" Scenario.opened_body)
                   _ (7 # 1)%Q jira_client 0%nat
                   (scenario_delivers _ Scenario.opened_body (JObject Scenario.opened_map) _
                                      eq_refl eq_refl)
                   ltac:(vm_compute; reflexivity) ltac:(vm_compute; reflexivity)
                   eq_refl _ _)).
  - exists Scenario.details. vm_compute. reflexivity.
  - exists Scenario.details. vm_compute. reflexivity.
Defined.

Lemma enrichment_failure_witness :
  let P := Scenario.platform Scenario.no_pull_request in
  let run := handlePullRequestEventDetailed P Scenario.handler
               (Some Scenario.opened_map) 0%nat in
  outcome run = Val tt /\
  calls (events run) = [Call_PullRequests_Get "acme" "engine" 7] /\
  tracker_calls (events run) = [].
Proof.
  cbv zeta.
  pose proof (enrichment_is_all_or_nothing
                (Scenario.platform Scenario.no_pull_request) Scenario.handler
                (Some Scenario.opened_map)
                (7 # 1)%Q 0%nat ltac:(vm_compute; reflexivity)) as H.
  cbv zeta in H. destruct H as (Hcalls & _ & _ & _ & Hfail).
  destruct (Hfail "failed to get PR details: 404 Not Found" ltac:(vm_compute; reflexivity))
    as (Hout & _ & Hsame & Hnone).
  split; [exact Hout|]. split; [|exact Hnone].
  rewrite Hsame. exact Hcalls.
Defined.


Lemma moveToStatus_witness :
  let P := Scenario.platform Scenario.settings in
  events (moveToStatus P "REP-1" "Merged_PR" 0%nat) =
    [EvCall (Call_Issue_GetTransitions "REP-1");
     EvCall (Call_Issue_DoTransition "REP-1" "21")] /\
  events (moveToStatus P "REP-1" "merged_pr" 0%nat) =
    [EvCall (Call_Issue_GetTransitions "REP-1")] /\
  outcome (moveToStatus P "REP-1" "merged_pr" 0%nat) =
    Val (Some "no transition found to status: merged_pr").
Proof.
  cbv zeta.
  pose proof (moveToStatus_resolves_by_name (Scenario.platform Scenario.settings)
                "REP-1" "Merged_PR" 0%nat Scenario.workflow 1%nat eq_refl) as H1.
  pose proof (moveToStatus_resolves_by_name (Scenario.platform Scenario.settings)
                "REP-1" "merged_pr" 0%nat Scenario.workflow 1%nat eq_refl) as H2.
  cbv zeta in H1, H2. destruct H1 as (_ & Hfound & _). destruct H2 as (_ & _ & Hnone).
  split.
  - refine (proj1 (Hfound {| ID := "21"; To_Name := "Merged_PR" |} _)).
    exists [ {| ID := "11"; To_Name := "Open_PR" |} ], [].
    split; [reflexivity|]. split; [reflexivity|].
    constructor; [discriminate|constructor].
  - apply Hnone. repeat constructor; discriminate.
Defined.

Lemma repo_pull_request_without_number_witness :
  let P := Scenario.platform Scenario.settings in
  let r := Scenario.request "pull_request" Scenario.unnumbered_body in
  HandleRepoWebhook P Scenario.handler r 0%nat =
    mkRun (Panicked "interface conversion: interface {} is not float64") 0%nat [] /\
  outcome (HandleOrgWebhook P Scenario.handler r 0%nat) = Val org_confirmation.
Proof.
  exact (repo_pull_request_without_number_panics
           (Scenario.platform Scenario.settings) Scenario.handler
           (Scenario.request "pull_request" Scenario.unnumbered_body) _ 0%nat
           (scenario_delivers _ Scenario.unnumbered_body (JObject Scenario.unnumbered_map) _
                              eq_refl eq_refl)
           ltac:(vm_compute; reflexivity)).
Defined.

(** A push whose commit has no [id], on a platform that answers every
    [GetCommit]: the repository entry point panics after the two remote
    calls. *)
Example push_without_id_panics :
  let P := Scenario.platform Scenario.settings in
  let run := HandleRepoWebhook P Scenario.handler
               (Scenario.request "push" Scenario.anonymous_push_body) 0%nat in
  outcome run = Panicked "runtime error: slice bounds out of range" /\
  calls (events run) = [Call_GetCommit "acme" "" ""; Call_GetCommit "acme" "" ""].
Proof. split; vm_compute; reflexivity. Qed.

(** C4, as stated, fails: the body [[]] is readable and is well-formed
    JSON, the event-type header is present, and both entry points answer
    400. *)
Lemma json_array_body_is_refused :
  let P := Scenario.platform Scenario.settings in
  let r := Scenario.request "ping" "[]" in
  ReadAll_Body r = Ok "[]" /\
  Header r !! "X-Github-Event" = Some ["ping"] /\
  json_decode P "[]" = Ok (JArray []) /\
  ~ body_unreadable r /\ ~ event_type_missing r /\ ~ invalid_json P r /\
  outcome (HandleOrgWebhook P Scenario.handler r 0%nat) =
    Val (http_Error "Invalid JSON payload" StatusBadRequest) /\
  outcome (HandleRepoWebhook P Scenario.handler r 0%nat) =
    Val (http_Error "Invalid JSON payload" StatusBadRequest).
Proof.
  cbv zeta. repeat split; try (vm_compute; reflexivity).
  - intros [err Hb]. discriminate Hb.
  - intros Hh. vm_compute in Hh. discriminate Hh.
  - intros (body & err & Hb & Hj). injection Hb as <-. vm_compute in Hj. discriminate Hj.
Qed.

Lemma webhook_answers_witness :
  let P := Scenario.platform Scenario.diff_unavailable in
  outcome (HandleRepoWebhook P Scenario.handler
             (Scenario.request "push" Scenario.push_body) 0%nat) = Val repo_confirmation /\
  bad_request (HandleOrgWebhook P Scenario.handler (Scenario.request "" "{}") 0%nat).
Proof.
  cbv zeta. split.
  - refine (proj2 (proj2 (proj2 (proj2
             (webhook_answers (Scenario.platform Scenario.diff_unavailable) Scenario.handler
                (Scenario.request "push" Scenario.push_body) 0%nat))))
             "push" (Some Scenario.push_map) _ _).
    + exists Scenario.push_body. split; [reflexivity|]. split; [reflexivity|].
      split; [discriminate|]. vm_compute. reflexivity.
    + split; [discriminate|]. intros _ commits m Hc Hin.
      vm_compute in Hc. injection Hc as <-. destruct Hin as [Hm|[]].
      injection Hm as <-. vm_compute. lia.
  - apply (proj1 (webhook_answers (Scenario.platform Scenario.diff_unavailable)
                    Scenario.handler (Scenario.request "" "{}") 0%nat)).
    right. left. vm_compute. reflexivity.
Defined.

(** * Further properties of the handlers and clients *)

(** ** Trace predicates are kept by the combinators *)

Section Emits.
Context {W : Type} (Q : Event -> Prop).

Lemma emits_ret {A} (a : A) : emits Q (ret (W:=W) a).
Proof. intros w. constructor. Qed.

Lemma emits_panic {A} (msg : string) : emits Q (panic (W:=W) (A:=A) msg).
Proof. intros w. constructor. Qed.

Lemma emits_emit (e : Event) : Q e -> emits Q (emit (W:=W) e).
Proof. intros He w. repeat constructor. exact He. Qed.

Lemma emits_call {A} (c : Call) (f : W -> A * W) : Q (EvCall c) -> emits Q (call c f).
Proof. intros Hc w. repeat constructor. exact Hc. Qed.

Lemma emits_now (P : Platform W) (layout : string) : emits Q (now P layout).
Proof. intros w. constructor. Qed.

Lemma emits_bind {A B} (m : M W A) (k : A -> M W B) :
  emits Q m -> (forall a, emits Q (k a)) -> emits Q (bind m k).
Proof.
  intros Hm Hk w. unfold bind. cbv zeta.
  destruct (outcome (m w)) as [a|msg]; cbn [events]; [|apply Hm].
  apply Forall_app. split; [apply Hm|apply Hk].
Qed.

Lemma emits_for_range_from {A} (l : list A) (body : Z -> A -> M W unit) :
  (forall i x, In x l -> emits Q (body i x)) -> forall i, emits Q (for_range_from i l body).
Proof.
  induction l as [|x l IH]; intros Hb i; simpl.
  - apply emits_ret.
  - apply emits_bind; [apply Hb; left; reflexivity|].
    intros _. apply IH. intros j y Hy. apply Hb. right. exact Hy.
Qed.

Lemma emits_logs_only (m : M W unit) :
  (forall msg, Q (EvInfo msg)) -> logs_only m -> emits Q m.
Proof.
  intros HQ Hm w. destruct (Hm w) as (_ & _ & Hinfo).
  eapply List.Forall_impl; [|exact Hinfo]. intros e [msg ->]. apply HQ.
Qed.

End Emits.

Lemma emits_not_tracker {W A} (m : M W A) w :
  emits not_tracker m -> tracker_calls (events (m w)) = [].
Proof.
  intros Hm. specialize (Hm w). induction Hm as [|e t He _ IH]; [reflexivity|].
  change (e :: t) with ([e] ++ t). rewrite tracker_calls_app, IH, app_nil_r.
  destruct e as [c| |]; try reflexivity. unfold tracker_calls. cbn.
  cbn in He. rewrite He. reflexivity.
Qed.

Lemma emits_not_a_call {W A} (m : M W A) w :
  emits not_a_call m -> calls (events (m w)) = [].
Proof.
  intros Hm. specialize (Hm w). induction Hm as [|e t He _ IH]; [reflexivity|].
  destruct e as [c| |]; [destruct He|exact IH|exact IH].
Qed.

(** Solves [emits Q m] for a [Q] that holds of every log line, by the shape of
    [m]; leaves the calls to the caller. *)
Ltac emits_steps :=
  repeat first
    [ apply emits_ret
    | apply emits_panic
    | apply emits_now
    | apply emits_emit
    | apply emits_call
    | apply emits_bind; [|intros ?]
    | match goal with
      | |- emits _ (match ?x with _ => _ end) => destruct x
      | |- emits _ (if ?b then _ else _) => destruct b
      end ].

(** ** What the handlers can emit *)

Section HandlerTraces.
Context {W : Type} (P : Platform W) (h : WebhookHandler) (Q : Event -> Prop).
Hypothesis Q_info : forall msg, Q (EvInfo msg).
Hypothesis Q_error : forall msg, Q (EvError msg).
Hypothesis Q_hosting :
  forall c, call_org c = Some (org (githubClient h)) -> Q (EvCall c).

Lemma emits_CreateRepoWebhook repoName webhookURL :
  emits Q (CreateRepoWebhook P (githubClient h) repoName webhookURL).
Proof. unfold CreateRepoWebhook. emits_steps. apply Q_hosting. reflexivity. Qed.

Lemma emits_GetCommitDetails repoName commitSHA :
  emits Q (GetCommitDetails P (githubClient h) repoName commitSHA).
Proof. unfold GetCommitDetails. emits_steps. apply Q_hosting. reflexivity. Qed.

Lemma emits_GetFileDiff repoName commitSHA :
  emits Q (GetFileDiff P (githubClient h) repoName commitSHA).
Proof.
  unfold GetFileDiff, slice_to. emits_steps. apply Q_hosting. reflexivity.
Qed.

Lemma emits_GetPullRequestDetails repoName prNumber :
  emits Q (GetPullRequestDetails P (githubClient h) repoName prNumber).
Proof.
  unfold GetPullRequestDetails. emits_steps; apply Q_hosting; reflexivity.
Qed.

Lemma emits_handleRepositoryEvent payload : emits Q (handleRepositoryEvent P h payload).
Proof.
  unfold handleRepositoryEvent.
  destruct (assert_string (index payload "action")) as [action|]; [|apply emits_ret].
  destruct (negb (String.eqb action "created")); [apply emits_ret|].
  destruct (assert_map (index payload "repository")); [|apply emits_emit, Q_error].
  apply emits_bind; [apply emits_logs_only, logNewRepository_logs_only; exact Q_info|].
  intros _. apply emits_bind; [apply emits_CreateRepoWebhook|].
  intros [e|]; apply emits_emit; [apply Q_error|apply Q_info].
Qed.

Lemma emits_dispatchOrg eventType payload : emits Q (dispatchOrg P h eventType payload).
Proof.
  unfold dispatchOrg.
  repeat match goal with |- emits _ (if ?b then _ else _) => destruct b end;
    first [apply emits_handleRepositoryEvent | apply emits_emit, Q_info].
Qed.

Lemma emits_processCommit repoName branch i commit :
  emits Q (processCommit P h repoName branch i commit).
Proof.
  unfold processCommit.
  destruct (assert_map (Some commit)); [|apply emits_ret].
  apply emits_bind; [apply emits_GetCommitDetails|].
  intros [commitDetails|err]; [|apply emits_emit, Q_error].
  apply emits_bind; [apply emits_GetFileDiff|]. intros d.
  apply emits_bind.
  - destruct d; [apply emits_ret|].
    apply emits_bind; [apply emits_emit, Q_error|intros _; apply emits_ret].
  - intros diffContent. apply emits_bind; [apply emits_now|]. intros date.
    apply emits_logs_only, logDetailedCommit_logs_only. exact Q_info.
Qed.

Lemma emits_handlePushEventDetailed payload : emits Q (handlePushEventDetailed P h payload).
Proof.
  unfold handlePushEventDetailed. cbv zeta.
  destruct (assert_slice (index payload "commits")); [|apply emits_emit, Q_error].
  apply emits_bind; [apply emits_emit, Q_info|]. intros _.
  unfold for_range. apply emits_for_range_from. intros i x _. apply emits_processCommit.
Qed.

(** The tracker functions, for a [Q] that holds of the creation, of the
    search, and of what a move to one of the two statuses emits. *)
Hypothesis Q_create : forall issue, Q (EvCall (Call_Issue_Create issue)).
Hypothesis Q_search : forall jql maxResults, Q (EvCall (Call_Issue_Search jql maxResults)).
Hypothesis Q_move :
  forall issueKey targetStatus,
    In targetStatus ["Open_PR"; "Merged_PR"] -> emits Q (moveToStatus P issueKey targetStatus).

Lemma emits_handlePROpened prInfo : emits Q (handlePROpened P prInfo).
Proof.
  unfold handlePROpened, CreatePRIssue.
  apply emits_bind; [apply emits_emit, Q_info|]. intros _.
  apply emits_bind.
  - cbv zeta. apply emits_bind; [apply emits_now|]. intros created.
    apply emits_bind; [apply emits_call, Q_create|].
    intros [issue|err]; [|apply emits_ret].
    apply emits_bind; [apply Q_move; left; reflexivity|intros _; apply emits_ret].
  - intros [issue|err]; apply emits_emit; [apply Q_info|apply Q_error].
Qed.

Lemma emits_handlePRMerged prInfo : emits Q (handlePRMerged P prInfo).
Proof.
  unfold handlePRMerged, MovePRToMerged, FindPRIssue.
  apply emits_bind; [apply emits_emit, Q_info|]. intros _.
  apply emits_bind.
  - apply emits_bind.
    + cbv zeta. apply emits_bind; [apply emits_call, Q_search|].
      intros [[|issue issues]|err]; apply emits_ret.
    + intros [issue|err]; [apply Q_move; right; left; reflexivity|apply emits_ret].
  - intros [e|]; apply emits_emit; [apply Q_error|apply Q_info].
Qed.

Lemma emits_tracker_sync payload n d : emits Q (tracker_sync P h payload n d).
Proof.
  unfold tracker_sync. destruct (jiraClient h); [|apply emits_ret].
  destruct (String.eqb (pr_action payload) "opened"); [apply emits_handlePROpened|].
  destruct (String.eqb (pr_action payload) "closed").
  - destruct (pr_merged payload); [apply emits_handlePRMerged|apply emits_ret].
  - destruct (String.eqb (pr_action payload) "synchronize");
      [apply emits_emit, Q_info|apply emits_ret].
Qed.

Lemma emits_handlePullRequestEventDetailed payload :
  emits Q (handlePullRequestEventDetailed P h payload).
Proof.
  rewrite handlePullRequestEventDetailed_eq. unfold must_float64.
  apply emits_bind; [destruct (assert_float64 _); [apply emits_ret|apply emits_panic]|].
  intros number. apply emits_bind; [apply emits_emit, Q_info|]. intros _.
  apply emits_bind; [apply emits_GetPullRequestDetails|].
  intros [d|err]; [|apply emits_emit, Q_error].
  apply emits_bind; [apply emits_tracker_sync|]. intros _.
  apply emits_logs_only, logDetailedPR_logs_only. exact Q_info.
Qed.

Lemma emits_dispatchRepo eventType payload : emits Q (dispatchRepo P h eventType payload).
Proof.
  unfold dispatchRepo.
  repeat match goal with |- emits _ (if ?b then _ else _) => destruct b end;
    first [ apply emits_handlePushEventDetailed
          | apply emits_handlePullRequestEventDetailed
          | apply emits_emit, Q_info ].
Qed.

End HandlerTraces.

Lemma emits_moveToStatus {W} (P : Platform W) (Q : Event -> Prop) issueKey targetStatus :
  (forall c, is_tracker_call c = true -> Q (EvCall c)) ->
  emits Q (moveToStatus P issueKey targetStatus).
Proof. intros HT. unfold moveToStatus. emits_steps; apply HT; reflexivity. Qed.

(** ** Repository events on the organisation entry point *)

Section RepositoryEvents.
Context {W : Type} (P : Platform W) (h : WebhookHandler).

Lemma handleRepositoryEvent_other_action payload w :
  assert_string (index payload "action") <> Some "created" ->
  handleRepositoryEvent P h payload w = mkRun (Val tt) w [].
Proof.
  intros Ha. unfold handleRepositoryEvent.
  destruct (assert_string (index payload "action")) as [action|]; [|reflexivity].
  destruct (String.eqb_spec action "created") as [->|_]; [contradiction|reflexivity].
Qed.

Lemma handleRepositoryEvent_no_data payload w :
  assert_string (index payload "action") = Some "created" ->
  assert_map (index payload "repository") = None ->
  handleRepositoryEvent P h payload w =
    mkRun (Val tt) w [EvError "Invalid repository data in payload"].
Proof. intros Ha Hr. unfold handleRepositoryEvent. rewrite Ha, Hr. reflexivity. Qed.

Lemma handleRepositoryEvent_created payload m w :
  assert_string (index payload "action") = Some "created" ->
  assert_map (index payload "repository") = Some m ->
  let info := extractRepoInfo (Some m) (assert_map (index payload "sender")) in
  let o := org (githubClient h) in
  let answer := Repositories_CreateHook P o (RepoName info) (repo_hook callback_url) w in
  handleRepositoryEvent P h payload w =
    mkRun (Val tt) (snd answer)
          (events (logNewRepository (W:=W) info w) ++
           [EvCall (Call_CreateHook o (RepoName info) (repo_hook callback_url));
            match fst answer with
            | Some e => EvError ("Failed to add webhook to new repo " +:+ RepoName info +:+
                                 ": failed to create webhook for repo " +:+ RepoName info +:+
                                 ": " +:+ e)
            | None => EvInfo ("Successfully added webhook to new repo: " +:+ RepoName info)
            end]).
Proof.
  intros Ha Hr. cbv zeta. unfold handleRepositoryEvent. rewrite Ha, Hr.
  cbn [String.eqb Ascii.eqb Bool.eqb negb]. cbv zeta.
  set (info := extractRepoInfo (Some m) (assert_map (index payload "sender"))).
  destruct (logNewRepository_logs_only (W:=W) info w) as (Ho & Hw & _).
  rewrite (bind_Val _ _ _ _ Ho). rewrite Hw. cbn [outcome world events].
  unfold CreateRepoWebhook, bind, call. cbn [outcome world events].
  fold (repo_hook "https://c45078315703.ngrok-free.app/webhook/repo"). fold callback_url.
  destruct (fst (Repositories_CreateHook P (org (githubClient h)) (RepoName info)
                   (repo_hook callback_url) w)); reflexivity.
Qed.

(** X2.  On the organisation entry point a [repository] event provisions
    nothing unless its action is the string ["created"] and it carries a
    repository object: with any other action (or none) the event is confirmed
    without a log line or a call; with action ["created"] but no repository
    object one error line is written and no call is made. *)
Theorem repository_event_without_provisioning r payload w :
  delivers P r "repository" payload ->
  (assert_string (index payload "action") <> Some "created" ->
     HandleOrgWebhook P h r w = mkRun (Val org_confirmation) w []) /\
  (assert_string (index payload "action") = Some "created" ->
   assert_map (index payload "repository") = None ->
     HandleOrgWebhook P h r w =
       mkRun (Val org_confirmation) w [EvError "Invalid repository data in payload"]).
Proof.
  intros Hd. rewrite (HandleOrgWebhook_delivered P h _ _ _ _ Hd).
  unfold dispatchOrg. cbn [String.eqb Ascii.eqb Bool.eqb]. split.
  - intros Ha. unfold bind. rewrite (handleRepositoryEvent_other_action _ _ Ha). reflexivity.
  - intros Ha Hr. unfold bind. rewrite (handleRepositoryEvent_no_data _ _ Ha Hr). reflexivity.
Qed.


(** X4.  The creator logged for a new repository falls back to
    ["Unknown"] when the payload has no [sender] object.  When it has one, the
    logged creator is its [login], and the empty string when that [login] is
    missing or is not a string: the fallback does not apply then. *)
Theorem created_by_fallback r payload m w :
  delivers P r "repository" payload ->
  assert_string (index payload "action") = Some "created" ->
  assert_map (index payload "repository") = Some m ->
  let run := HandleOrgWebhook P h r w in
  (assert_map (index payload "sender") = None ->
     In (EvInfo "Created By: Unknown") (events run)) /\
  (forall s, assert_map (index payload "sender") = Some s ->
     In (EvInfo ("Created By: " +:+ string_ (s !! "login"))) (events run) /\
     (assert_string (s !! "login") = None -> In (EvInfo "Created By: ") (events run))).
Proof.
  intros Hd Ha Hr. cbv zeta. rewrite (HandleOrgWebhook_delivered P h _ _ _ _ Hd).
  unfold dispatchOrg. cbn [String.eqb Ascii.eqb Bool.eqb].
  assert (Hrun := handleRepositoryEvent_created payload m w Ha Hr). cbv zeta in Hrun.
  unfold bind. rewrite Hrun. cbn [outcome world events ret]. rewrite app_nil_r.
  assert (Hline : forall sender,
            assert_map (index payload "sender") = sender ->
            In (EvInfo ("Created By: " +:+ CreatedBy (extractRepoInfo (Some m) sender)))
               (events (logNewRepository (W:=W)
                          (extractRepoInfo (Some m) (assert_map (index payload "sender"))) w) ++
                [EvCall (Call_CreateHook (org (githubClient h))
                           (RepoName (extractRepoInfo (Some m)
                                        (assert_map (index payload "sender"))))
                           (repo_hook callback_url));
                 match fst (Repositories_CreateHook P (org (githubClient h))
                              (RepoName (extractRepoInfo (Some m)
                                           (assert_map (index payload "sender"))))
                              (repo_hook callback_url) w) with
                 | Some e =>
                     EvError ("Failed to add webhook to new repo " +:+
                              RepoName (extractRepoInfo (Some m)
                                          (assert_map (index payload "sender"))) +:+
                              ": failed to create webhook for repo " +:+
                              RepoName (extractRepoInfo (Some m)
                                          (assert_map (index payload "sender"))) +:+
                              ": " +:+ e)
                 | None =>
                     EvInfo ("Successfully added webhook to new repo: " +:+
                             RepoName (extractRepoInfo (Some m)
                                         (assert_map (index payload "sender"))))
                 end])).
  { intros sender <-. apply in_or_app. left. cbn. do 4 right. left. reflexivity. }
  split.
  - intros Hs. exact (Hline None Hs).
  - intros s Hs. split.
    + exact (Hline (Some s) Hs).
    + intros Hl. pose proof (Hline (Some s) Hs) as H. cbn in H. unfold string_ in H.
      rewrite Hl in H. exact H.
Qed.

End RepositoryEvents.

(** ** What the two entry points call *)

Section EndpointTraces.
Context {W : Type} (P : Platform W) (h : WebhookHandler).

Lemma emits_HandleOrgWebhook (Q : Event -> Prop) r :
  (forall msg, Q (EvInfo msg)) -> (forall msg, Q (EvError msg)) ->
  (forall c, call_org c = Some (org (githubClient h)) -> Q (EvCall c)) ->
  emits Q (HandleOrgWebhook P h r).
Proof.
  intros HI HE HG w. destruct (rejected_or_delivers P r) as [Hr|(et & pl & Hd)].
  - destruct (HandleOrgWebhook_rejected P h r w Hr) as (line & msg & ->).
    repeat constructor. apply HE.
  - rewrite (HandleOrgWebhook_delivered P h _ _ _ _ Hd).
    apply emits_bind; [apply emits_dispatchOrg; assumption|intros _; apply emits_ret].
Qed.

Lemma emits_HandleRepoWebhook (Q : Event -> Prop) r :
  (forall msg, Q (EvInfo msg)) -> (forall msg, Q (EvError msg)) ->
  (forall c, call_org c = Some (org (githubClient h)) -> Q (EvCall c)) ->
  (forall issue, Q (EvCall (Call_Issue_Create issue))) ->
  (forall jql maxResults, Q (EvCall (Call_Issue_Search jql maxResults))) ->
  (forall issueKey targetStatus,
     In targetStatus ["Open_PR"; "Merged_PR"] ->
     emits Q (moveToStatus P issueKey targetStatus)) ->
  emits Q (HandleRepoWebhook P h r).
Proof.
  intros HI HE HG HC HS HM w. destruct (rejected_or_delivers P r) as [Hr|(et & pl & Hd)].
  - destruct (HandleRepoWebhook_rejected P h r w Hr) as (line & msg & ->).
    repeat constructor. apply HE.
  - rewrite (HandleRepoWebhook_delivered P h _ _ _ _ Hd).
    apply emits_bind; [apply emits_dispatchRepo; assumption|intros _; apply emits_ret].
Qed.

(** X8.  Every call either entry point makes to the hosting platform,
    for any request and whatever the platform answers, is addressed to the
    organisation the client was configured with. *)
Theorem hosting_calls_use_the_configured_organisation r w :
  Forall (addressed_to (org (githubClient h))) (events (HandleOrgWebhook P h r w)) /\
  Forall (addressed_to (org (githubClient h))) (events (HandleRepoWebhook P h r w)).
Proof.
  split.
  - apply emits_HandleOrgWebhook; try (intros; exact I).
    intros c Hc. cbn. rewrite Hc. reflexivity.
  - apply emits_HandleRepoWebhook; try (intros; exact I).
    + intros c Hc. cbn. rewrite Hc. reflexivity.
    + intros key target _. apply emits_moveToStatus.
      intros c Hc. cbn. destruct c; try discriminate Hc; exact I.
Qed.

(** X5.  The organisation entry point never calls the issue tracker.  For
    any request it makes at most one remote call, the registration of the
    webhook on a new repository; for an event type other than ["repository"] it
    makes no remote call at all and leaves the outside world as it was. *)
Theorem org_endpoint_calls r w :
  let run := HandleOrgWebhook P h r w in
  tracker_calls (events run) = [] /\
  (calls (events run) = [] \/
   exists repoName,
     calls (events run) =
       [Call_CreateHook (org (githubClient h)) repoName (repo_hook callback_url)]) /\
  (Header_Get (Header r) "X-Github-Event" <> "repository" ->
     calls (events run) = [] /\ world run = w).
Proof.
  cbv zeta. split; [|split].
  - apply (emits_not_tracker (HandleOrgWebhook P h r)).
    apply emits_HandleOrgWebhook; try (intros; exact I).
    intros c Hc. cbn. destruct c; try discriminate Hc; reflexivity.
  - destruct (rejected_or_delivers P r) as [Hr|(et & pl & Hd)].
    + destruct (HandleOrgWebhook_rejected P h r w Hr) as (line & msg & ->). left. reflexivity.
    + rewrite (HandleOrgWebhook_delivered P h _ _ _ _ Hd). unfold dispatchOrg.
      destruct (String.eqb et "repository").
      * destruct (assert_string (index pl "action")) as [action|] eqn:Ha.
        -- destruct (String.eqb_spec action "created") as [->|Hne].
           ++ destruct (assert_map (index pl "repository")) as [m|] eqn:Hm.
              ** right. eexists. unfold bind.
                 assert (Hrun := handleRepositoryEvent_created P h pl m w Ha Hm).
                 cbv zeta in Hrun. rewrite Hrun. cbn [outcome world events ret].
                 rewrite app_nil_r, calls_app.
                 match goal with |- context [logNewRepository ?i w] =>
                   destruct (logNewRepository_logs_only (W:=W) i w) as (_ & _ & Hlog) end.
                 rewrite (info_only_calls _ Hlog). cbn.
                 destruct (fst (Repositories_CreateHook P _ _ _ w)); reflexivity.
              ** left. unfold bind.
                 rewrite (handleRepositoryEvent_no_data P h _ _ Ha Hm). reflexivity.
           ++ left. unfold bind. rewrite (handleRepositoryEvent_other_action P h pl w).
              ** reflexivity.
              ** rewrite Ha. intros [= ->]. contradiction.
        -- left. unfold bind. rewrite (handleRepositoryEvent_other_action P h pl w).
           ++ reflexivity.
           ++ rewrite Ha. discriminate.
      * left.
        repeat match goal with |- context [if ?b then _ else _] => destruct b end;
          reflexivity.
  - intros Hne. destruct (rejected_or_delivers P r) as [Hr|(et & pl & Hd)].
    + destruct (HandleOrgWebhook_rejected P h r w Hr) as (line & msg & ->).
      split; reflexivity.
    + rewrite (HandleOrgWebhook_delivered P h _ _ _ _ Hd). unfold dispatchOrg.
      destruct Hd as (body & _ & Hh & _). rewrite Hh in Hne.
      destruct (String.eqb_spec et "repository") as [->|_]; [contradiction|].
      repeat match goal with |- context [if ?b then _ else _] => destruct b end;
        split; reflexivity.
Qed.

(** X6.  Event types without a handler are acknowledged and ignored: the
    repository entry point answers any event other than ["push"] and
    ["pull_request"] (a ["repository"] event included) with its confirmation
    after one informational line, and so does the organisation entry point
    for any event other than ["repository"], ["push"] and ["pull_request"];
    neither makes a call.  The comparison of the event type is exact. *)
Theorem unhandled_events_are_acknowledged r eventType payload w :
  delivers P r eventType payload ->
  eventType <> "push" ->
  eventType <> "pull_request" ->
  HandleRepoWebhook P h r w =
    mkRun (Val repo_confirmation) w
      [EvInfo (if String.eqb eventType "ping"
               then "Received ping event from GitHub - repo webhook setup successful!"
               else "Received repo-level event: " +:+ eventType)] /\
  (eventType <> "repository" ->
   HandleOrgWebhook P h r w =
     mkRun (Val org_confirmation) w
       [EvInfo (if String.eqb eventType "ping"
                then "Received ping event from GitHub - webhook setup successful!"
                else "Received org-level event: " +:+ eventType)]).
Proof.
  intros Hd Hpush Hpr. split.
  - rewrite (HandleRepoWebhook_delivered P h _ _ _ _ Hd). unfold dispatchRepo.
    destruct (String.eqb_spec eventType "push") as [->|_]; [contradiction|].
    destruct (String.eqb_spec eventType "pull_request") as [->|_]; [contradiction|].
    destruct (String.eqb eventType "ping"); reflexivity.
  - intros Hrepo. rewrite (HandleOrgWebhook_delivered P h _ _ _ _ Hd). unfold dispatchOrg.
    destruct (String.eqb_spec eventType "repository") as [->|_]; [contradiction|].
    destruct (String.eqb_spec eventType "push") as [->|_]; [contradiction|].
    destruct (String.eqb_spec eventType "pull_request") as [->|_]; [contradiction|].
    destruct (String.eqb eventType "ping"); reflexivity.
Qed.

(** X1.  The three checks of an entry point are made in a fixed order, and
    the first that fails decides the answer: an unreadable body is answered
    ["Invalid request body"]; a readable body without event type is answered
    ["Missing event type"], whether or not the body is JSON; a body that does
    not decode is answered ["Invalid JSON payload"] only when the event type
    is there.  Each refusal writes one error line naming the cause, and the two
    entry points refuse alike. *)
Theorem refusals_follow_the_order_of_the_checks r w :
  (forall err, ReadAll_Body r = Err err ->
     HandleOrgWebhook P h r w =
       mkRun (Val (http_Error "Invalid request body" StatusBadRequest)) w
             [EvError ("Failed to read request body: " +:+ err)]) /\
  (forall body, ReadAll_Body r = Ok body ->
     Header_Get (Header r) "X-Github-Event" = "" ->
     HandleOrgWebhook P h r w =
       mkRun (Val (http_Error "Missing event type" StatusBadRequest)) w
             [EvError "Missing X-GitHub-Event header"]) /\
  (forall body err, ReadAll_Body r = Ok body ->
     Header_Get (Header r) "X-Github-Event" <> "" ->
     json_Unmarshal_map P body = Err err ->
     HandleOrgWebhook P h r w =
       mkRun (Val (http_Error "Invalid JSON payload" StatusBadRequest)) w
             [EvError ("Failed to parse JSON payload: " +:+ err)]) /\
  (rejected P r -> HandleRepoWebhook P h r w = HandleOrgWebhook P h r w).
Proof.
  split; [|split; [|split]].
  - intros err Hb. unfold HandleOrgWebhook. rewrite Hb. reflexivity.
  - intros body Hb Hh. unfold HandleOrgWebhook. rewrite Hb, Hh. reflexivity.
  - intros body err Hb Hh Hj. unfold HandleOrgWebhook. rewrite Hb, Hj.
    destruct (String.eqb_spec (Header_Get (Header r) "X-Github-Event") "") as [He|_];
      [contradiction|reflexivity].
  - unfold HandleRepoWebhook, HandleOrgWebhook.
    intros [[err Hb]|[Hh|(body & err & Hb & Hj)]].
    + rewrite Hb. reflexivity.
    + unfold event_type_missing in Hh. rewrite Hh.
      destruct (ReadAll_Body r); reflexivity.
    + rewrite Hb, Hj.
      destruct (String.eqb (Header_Get (Header r) "X-Github-Event") ""); reflexivity.
Qed.

End EndpointTraces.

(** ** When the repository entry point calls the tracker *)

Section TrackerUse.
Context {W : Type} (P : Platform W) (h : WebhookHandler).

Lemma not_tracker_hosting (c : Call) (o : string) :
  call_org c = Some o -> not_tracker (EvCall c).
Proof. intros Hc. cbn. destruct c; try discriminate Hc; reflexivity. Qed.

Lemma repo_pull_request_missing_number r payload w :
  delivers P r "pull_request" payload ->
  pr_number payload = None ->
  HandleRepoWebhook P h r w =
    mkRun (Panicked "interface conversion: interface {} is not float64") w [].
Proof.
  intros Hd Hn. rewrite (HandleRepoWebhook_pull_request P h _ _ _ Hd).
  unfold bind. rewrite (handlePullRequestEventDetailed_panics P h _ _ Hn). reflexivity.
Qed.

Lemma tracker_sync_idle payload n d w :
  jiraClient h = None \/
  (pr_action payload <> "opened" /\
   (pr_action payload <> "closed" \/ pr_merged payload = false)) ->
  tracker_calls (events (tracker_sync P h payload n d w)) = [].
Proof.
  intros Hidle. unfold tracker_sync.
  destruct (jiraClient h) as [j|]; [|reflexivity].
  destruct Hidle as [Hj|[Hopen Hclosed]]; [discriminate Hj|].
  destruct (String.eqb_spec (pr_action payload) "opened") as [Ho|_]; [contradiction|].
  destruct (String.eqb_spec (pr_action payload) "closed") as [Hc|_].
  - destruct Hclosed as [Hne| ->]; [contradiction|reflexivity].
  - destruct (String.eqb (pr_action payload) "synchronize"); reflexivity.
Qed.

(** X7.  The repository entry point calls the issue tracker only for a
    [pull_request] event that holds a PR number, whose enrichment succeeded,
    with a tracker client configured, and whose action is ["opened"], or
    ["closed"] with [merged] true.  Every other request (a push, a
    [synchronize] or any other action, a closed and unmerged PR, a failed
    enrichment, a refused request, a handler without tracker client) makes no
    tracker call, whatever the platform answers. *)
Theorem tracker_is_called_only_for_tracked_actions r w :
  tracker_calls (events (HandleRepoWebhook P h r w)) = [] \/
  exists payload f d,
    delivers P r "pull_request" payload /\
    pr_number payload = Some f /\
    outcome (GetPullRequestDetails P (githubClient h) (pr_repo payload)
               (int_of_float64 f) w) = Val (Ok d) /\
    jiraClient h <> None /\
    (pr_action payload = "opened" \/
     (pr_action payload = "closed" /\ pr_merged payload = true)).
Proof.
  destruct (rejected_or_delivers P r) as [Hr|(et & pl & Hd)].
  { left. destruct (HandleRepoWebhook_rejected P h r w Hr) as (line & msg & ->). reflexivity. }
  destruct (String.eqb_spec et "pull_request") as [->|Hne].
  - destruct (pr_number pl) as [f|] eqn:Hn.
    + destruct (outcome (GetPullRequestDetails P (githubClient h) (pr_repo pl)
                           (int_of_float64 f) w)) as [[d|err]|msg] eqn:Hf.
      * destruct (HandleRepoWebhook_enriched P h r pl f d w Hd Hn Hf) as (_ & _ & Ht & _).
        cbv zeta in Ht. rewrite Ht.
        destruct (jiraClient h) as [j|] eqn:Hj.
        -- destruct (String.eqb_spec (pr_action pl) "opened") as [Ho|Ho].
           ++ right. exists pl, f, d. repeat split; auto; discriminate.
           ++ destruct (String.eqb_spec (pr_action pl) "closed") as [Hc|Hc].
              ** destruct (pr_merged pl) eqn:Hm.
                 --- right. exists pl, f, d. repeat split; auto; discriminate.
                 --- left. apply tracker_sync_idle. right. auto.
              ** left. apply tracker_sync_idle. right. auto.
        -- left. apply tracker_sync_idle. left. exact Hj.
      * left. rewrite (HandleRepoWebhook_pull_request P h _ _ _ Hd).
        assert (Hrun := handlePullRequestEventDetailed_run P h pl f w Hn).
        cbv zeta in Hrun. rewrite Hf in Hrun. unfold bind. rewrite Hrun.
        cbn [outcome world events ret]. rewrite app_nil_r.
        destruct (GetPullRequestDetails_no_tracker P (githubClient h) (pr_repo pl)
                    (int_of_float64 f) w) as (Ht & _).
        change (EvInfo ?m :: ?t) with ([EvInfo m] ++ t).
        rewrite !tracker_calls_app, Ht. reflexivity.
      * destruct (GetPullRequestDetails_total P (githubClient h) (pr_repo pl)
                    (int_of_float64 f) w) as [a Ha]. rewrite Ha in Hf. discriminate Hf.
    + left. rewrite (repo_pull_request_missing_number _ _ w Hd Hn). reflexivity.
  - left. rewrite (HandleRepoWebhook_delivered P h _ _ _ _ Hd).
    apply (emits_not_tracker (exec dispatchRepo P h et pl then ret repo_confirmation)).
    apply emits_bind; [|intros _; apply emits_ret].
    unfold dispatchRepo.
    destruct (String.eqb_spec et "push") as [->|_].
    + apply emits_handlePushEventDetailed; try (intros; exact I).
      intros c Hc. exact (not_tracker_hosting _ _ Hc).
    + destruct (String.eqb_spec et "pull_request") as [->|_]; [contradiction|].
      destruct (String.eqb et "ping"); apply emits_emit; exact I.
Qed.

End TrackerUse.

(** ** The detailed push handler *)

Section PushTraces.
Context {W : Type} (P : Platform W) (h : WebhookHandler).

Lemma substring_prefix_length (n : nat) (s : string) :
  (n <= String.length s)%nat -> String.length (String.substring 0 n s) = n.
Proof.
  revert s. induction n as [|n IH]; intros [|c s] Hlen; simpl in *; try lia; try reflexivity.
  rewrite IH; lia.
Qed.

Lemma GetFileDiff_run c repoName commitSHA w :
  GetFileDiff P c repoName commitSHA w =
    let g := Repositories_GetCommit P (org c) repoName commitSHA w in
    mkRun match fst g with
          | Err e => Val (Err ("failed to get commit diff: " +:+ e))
          | Ok commit =>
              if (String.length commitSHA <? 8)%nat
              then Panicked "runtime error: slice bounds out of range"
              else Val (Ok (diff_text commitSHA commit))
          end
          (snd g) [EvCall (Call_GetCommit (org c) repoName commitSHA)].
Proof.
  unfold GetFileDiff, bind, call, slice_to. cbn [outcome world events]. cbv zeta.
  destruct (fst (Repositories_GetCommit P (org c) repoName commitSHA w)); [|reflexivity].
  destruct (String.length commitSHA <? 8)%nat; reflexivity.
Qed.

(** X12.  [GetFileDiff] makes one call, the same commit lookup that
    [GetCommitDetails] makes.  It returns the platform's error wrapped when the
    lookup fails; when the lookup succeeds it panics on a commit id shorter
    than 8 bytes, and otherwise returns a text that opens with the first 8
    bytes of the id and the number of changed files. *)
Theorem GetFileDiff_outcomes c repoName commitSHA w :
  let g := Repositories_GetCommit P (org c) repoName commitSHA w in
  let run := GetFileDiff P c repoName commitSHA w in
  calls (events run) = [Call_GetCommit (org c) repoName commitSHA] /\
  calls (events run) = calls (events (GetCommitDetails P c repoName commitSHA w)) /\
  world run = snd g /\
  (forall e, fst g = Err e ->
     outcome run = Val (Err ("failed to get commit diff: " +:+ e))) /\
  (forall commit, fst g = Ok commit -> (String.length commitSHA < 8)%nat ->
     outcome run = Panicked "runtime error: slice bounds out of range") /\
  (forall commit, fst g = Ok commit -> (8 <= String.length commitSHA)%nat ->
     exists rest,
       outcome run =
         Val (Ok ("=== COMMIT DIFF: " +:+ String.substring 0 8 commitSHA +:+ " ===" +:+
                  newline +:+ "Total files changed: " +:+
                  fmt_d (Z.of_nat (length (Commit_Files commit))) +:+ newline +:+ rest)) /\
       String.length (String.substring 0 8 commitSHA) = 8%nat).
Proof.
  cbv zeta. rewrite GetFileDiff_run, GetCommitDetails_run. cbv zeta. cbn [outcome world events].
  split; [reflexivity|]. split; [reflexivity|]. split; [reflexivity|].
  split; [|split].
  - intros e ->. reflexivity.
  - intros commit -> Hlen.
    destruct (Nat.ltb_spec (String.length commitSHA) 8) as [_|Hge]; [reflexivity|lia].
  - intros commit -> Hlen.
    destruct (Nat.ltb_spec (String.length commitSHA) 8) as [Hlt|_]; [lia|].
    eexists. split; [reflexivity|].
    apply substring_prefix_length. exact Hlen.
Qed.

Lemma handlePushEventDetailed_run payload commits w :
  assert_slice (index payload "commits") = Some commits ->
  handlePushEventDetailed P h payload w =
    (exec logger_Info (push_summary payload (length commits)) then
     for_range_from 0 commits (processCommit P h (push_repo payload) (push_branch payload))) w.
Proof. intros Hc. unfold handlePushEventDetailed. rewrite Hc. reflexivity. Qed.

Lemma Forall_events_calls (Q : Event -> Prop) (t : list Event) :
  Forall Q t -> Forall (fun c => Q (EvCall c)) (calls t).
Proof.
  induction 1 as [|e t He _ IH]; [constructor|].
  destruct e as [c| |]; [constructor; assumption|exact IH|exact IH].
Qed.

(** X9.  Whatever the platform answers, and whether or not the handler
    runs to its end, every remote call of the detailed push handler is a commit
    lookup, in the repository named by the payload, of the id of one of the
    commit objects of the payload: no other commit, repository or service is
    ever reached. *)
Theorem push_looks_up_only_the_commits_of_the_payload payload commits w :
  assert_slice (index payload "commits") = Some commits ->
  Forall (fun c => exists sha,
            In sha (commit_ids commits) /\
            c = Call_GetCommit (org (githubClient h)) (push_repo payload) sha)
         (calls (events (handlePushEventDetailed P h payload w))).
Proof.
  intros Hc. rewrite (handlePushEventDetailed_run _ _ _ Hc).
  set (Q := fun e => match e with
                     | EvCall c => exists sha,
                         In sha (commit_ids commits) /\
                         c = Call_GetCommit (org (githubClient h)) (push_repo payload) sha
                     | _ => True
                     end).
  apply (Forall_events_calls Q).
  revert w. change (emits Q (exec logger_Info (push_summary payload (length commits)) then
    for_range_from 0 commits (processCommit P h (push_repo payload) (push_branch payload)))).
  apply emits_bind; [apply emits_emit; exact I|]. intros _.
  apply emits_for_range_from. intros i x Hx.
  destruct x as [| | | | |m]; try (intros w; constructor).
  assert (Hq : Q (EvCall (Call_GetCommit (org (githubClient h)) (push_repo payload)
                            (string_ (m !! "id"))))).
  { exists (string_ (m !! "id")). split; [|reflexivity].
    unfold commit_ids. apply list_elem_of_In, list_elem_of_omap.
    exists (JObject m). split; [apply list_elem_of_In; exact Hx|reflexivity]. }
  intros w. rewrite processCommit_run. cbv zeta.
  rewrite GetCommitDetails_run. cbv zeta. cbn [outcome world events].
  destruct (fst (Repositories_GetCommit P _ _ _ w)) as [cd|e].
  - rewrite GetFileDiff_run. cbv zeta. cbn [outcome world events].
    destruct (fst (Repositories_GetCommit P _ _ _ _)) as [cd'|e'].
    + destruct (String.length (string_ (m !! "id")) <? 8)%nat; cbn [events app].
      * repeat constructor; exact Hq.
      * constructor; [exact Hq|]. constructor; [exact Hq|].
        match goal with |- context [logDetailedCommit ?n ?info ?w'] =>
          destruct (logDetailedCommit_logs_only (W:=W) n info w') as (_ & _ & Hlog) end.
        eapply List.Forall_impl; [|exact Hlog]. intros e [msg ->]. exact I.
    + cbn [events app]. constructor; [exact Hq|]. constructor; [exact Hq|].
      constructor; [exact I|].
      match goal with |- context [logDetailedCommit ?n ?info ?w'] =>
        destruct (logDetailedCommit_logs_only (W:=W) n info w') as (_ & _ & Hlog) end.
      eapply List.Forall_impl; [|exact Hlog]. intros e [msg ->]. exact I.
  - repeat constructor. exact Hq.
Qed.





(** X11.  A push without a [commits] array is answered after one error
    line, and a push with an empty [commits] array after its summary line;
    neither makes a call. *)
Theorem push_without_commits r payload w :
  delivers P r "push" payload ->
  (assert_slice (index payload "commits") = None ->
     HandleRepoWebhook P h r w =
       mkRun (Val repo_confirmation) w [EvError "No commits found in push payload"]) /\
  (assert_slice (index payload "commits") = Some [] ->
     HandleRepoWebhook P h r w =
       mkRun (Val repo_confirmation) w [EvInfo (push_summary payload 0)]).
Proof.
  intros Hd. rewrite (HandleRepoWebhook_delivered P h _ _ _ _ Hd). unfold dispatchRepo.
  cbn [String.eqb Ascii.eqb Bool.eqb]. split; intros Hc.
  - unfold bind, handlePushEventDetailed. rewrite Hc. reflexivity.
  - unfold bind. rewrite (handlePushEventDetailed_run _ _ _ Hc). reflexivity.
Qed.


End PushTraces.

(** ** Status transitions and labels *)

Section TransitionSafety.
Context {W : Type} (P : Platform W) (h : WebhookHandler).

Lemma first_match_In ts target t : first_match ts target t -> In t ts /\ To_Name t = target.
Proof.
  intros (pre & post & -> & Hname & _). split; [|exact Hname].
  apply in_or_app. right. left. reflexivity.
Qed.

(** X14.  [moveToStatus] makes one listing call and at most one execution
    call, both on the issue it was given.  It executes nothing that the
    tracker did not list for that issue with exactly the target status as
    destination.  When the listing fails, the platform's error is returned as
    it is and nothing is executed. *)
Theorem moveToStatus_executes_only_what_is_listed issueKey targetStatus w :
  let run := moveToStatus P issueKey targetStatus w in
  let listing := Issue_GetTransitions P issueKey w in
  (calls (events run) = [Call_Issue_GetTransitions issueKey] \/
   exists transitionID,
     calls (events run) = [Call_Issue_GetTransitions issueKey;
                           Call_Issue_DoTransition issueKey transitionID]) /\
  (forall key transitionID,
     In (Call_Issue_DoTransition key transitionID) (calls (events run)) ->
     key = issueKey /\
     exists ts t, fst listing = Ok ts /\ In t ts /\
                  ID t = transitionID /\ To_Name t = targetStatus) /\
  (forall err, fst listing = Err err ->
     outcome run = Val (Some err) /\
     calls (events run) = [Call_Issue_GetTransitions issueKey]).
Proof.
  cbv zeta. split; [apply moveToStatus_calls|].
  destruct (Issue_GetTransitions P issueKey w) as [[ts|err] w1] eqn:Hl; cbn [fst].
  - destruct (find_transition ts targetStatus) as [t|] eqn:Hf.
    + rewrite (moveToStatus_found P _ _ _ _ _ _ Hl Hf). cbn [events outcome]. split.
      * intros key tid [Hin|[Hin|[]]]; [discriminate Hin|]. injection Hin as <- <-.
        split; [reflexivity|]. exists ts, t.
        destruct (first_match_In _ _ _ (find_transition_Some _ _ _ Hf)) as (Hin & Hname).
        auto.
      * intros err [=].
    + rewrite (moveToStatus_not_found P _ _ _ _ _ Hl Hf). cbn [events outcome]. split.
      * intros key tid [Hin|[]]. discriminate Hin.
      * intros err [=].
  - rewrite (moveToStatus_unavailable P _ _ _ _ _ Hl). cbn [events outcome]. split.
    + intros key tid [Hin|[]]. discriminate Hin.
    + intros err' [= <-]. split; reflexivity.
Qed.

Lemma emits_moves_moveToStatus targets issueKey targetStatus :
  In targetStatus targets ->
  emits (moves_to P targets) (moveToStatus P issueKey targetStatus).
Proof.
  intros Ht w.
  destruct (Issue_GetTransitions P issueKey w) as [[ts|err] w1] eqn:Hl.
  - destruct (find_transition ts targetStatus) as [t|] eqn:Hf.
    + rewrite (moveToStatus_found P _ _ _ _ _ _ Hl Hf). cbn [events].
      constructor; [exact I|]. constructor; [|constructor].
      destruct (first_match_In _ _ _ (find_transition_Some _ _ _ Hf)) as (Hin & Hname).
      exists w, ts, t. rewrite Hl, Hname. auto.
    + rewrite (moveToStatus_not_found P _ _ _ _ _ Hl Hf). repeat constructor.
  - rewrite (moveToStatus_unavailable P _ _ _ _ _ Hl). repeat constructor.
Qed.

(** X15.  Whatever the request and whatever the platform answers, the
    only transitions the repository entry point ever executes are transitions
    that the tracker lists for the issue with destination ["Open_PR"] or
    ["Merged_PR"]: no issue is moved to any other status. *)
Theorem only_the_two_statuses_are_entered r w issueKey transitionID :
  In (Call_Issue_DoTransition issueKey transitionID)
     (calls (events (HandleRepoWebhook P h r w))) ->
  exists w' ts t,
    fst (Issue_GetTransitions P issueKey w') = Ok ts /\
    In t ts /\ ID t = transitionID /\
    (To_Name t = "Open_PR" \/ To_Name t = "Merged_PR").
Proof.
  intros Hin.
  assert (Hall : Forall (moves_to P ["Open_PR"; "Merged_PR"])
                        (events (HandleRepoWebhook P h r w))).
  { apply emits_HandleRepoWebhook; try (intros; exact I).
    - intros c Hc. destruct c; try discriminate Hc; exact I.
    - intros key target Ht. apply emits_moves_moveToStatus. exact Ht. }
  apply (Forall_events_calls (moves_to P ["Open_PR"; "Merged_PR"])) in Hall.
  rewrite List.Forall_forall in Hall. specialize (Hall _ Hin).
  destruct Hall as (w' & ts & t & Hl & Ht & Hid & [Hn|[Hn|[]]]);
    exists w', ts, t; auto.
Qed.

End TransitionSafety.

Lemma string_length_app (s t : string) :
  String.length (s +:+ t) = (String.length s + String.length t)%nat.
Proof. induction s as [|c s IH]; simpl; [reflexivity|]. rewrite IH. reflexivity. Qed.

Lemma string_app_inv_tail (s1 s2 t : string) : s1 +:+ t = s2 +:+ t -> s1 = s2.
Proof.
  revert s2. induction s1 as [|a s1 IH]; intros [|b s2] H.
  - reflexivity.
  - apply (f_equal String.length) in H. rewrite !string_length_app in H.
    cbn [String.length] in H. lia.
  - apply (f_equal String.length) in H. rewrite !string_length_app in H.
    cbn [String.length] in H. lia.
  - cbn [append] in H. injection H as -> H. f_equal. apply IH. exact H.
Qed.

Lemma parse_d_fmt_d (n : Z) : parse_d (fmt_d n) = Some n.
Proof.
  unfold parse_d, fmt_d. rewrite NilZero.isi.
  - rewrite DecimalZ.of_to. reflexivity.
  - destruct n; simpl; [discriminate| |discriminate].
    intros [= H]. exact (Unsigned.to_uint_nonnil _ H).
  - destruct n; simpl; [discriminate|discriminate|].
    intros [= H]. exact (Unsigned.to_uint_nonnil _ H).
Qed.

(** X16.  The PR number can be read back from the label: the label
    ["pr-<n>"] and the search query built from it are different for different
    PR numbers, and an issue created for one PR number carries the label
    searched for a PR number exactly when the two numbers are the same.  So
    within the tracker project a search by label can only find issues created
    for that PR number. *)
Theorem pr_label_identifies_the_pr_number :
  (forall n, parse_d (fmt_d n) = Some n) /\
  (forall n1 n2, pr_label n1 = pr_label n2 <-> n1 = n2) /\
  (forall n1 n2, pr_jql n1 = pr_jql n2 <-> n1 = n2) /\
  (forall prInfo created n,
     has_label (pr_issue prInfo created) (pr_label n) <-> PRNumber prInfo = n).
Proof.
  assert (Hinj : forall n1 n2, fmt_d n1 = fmt_d n2 -> n1 = n2).
  { intros n1 n2 H. apply (f_equal parse_d) in H. rewrite !parse_d_fmt_d in H.
    injection H as ->. reflexivity. }
  assert (Hlabel : forall n1 n2, pr_label n1 = pr_label n2 -> n1 = n2).
  { intros n1 n2 H. unfold pr_label in H. cbn in H. injection H as H.
    exact (Hinj n1 n2 H). }
  split; [exact parse_d_fmt_d|]. split; [|split].
  - intros n1 n2. split; [apply Hlabel|intros ->; reflexivity].
  - intros n1 n2. split; [|intros ->; reflexivity].
    intros H. unfold pr_jql in H. cbn in H. injection H as H.
    exact (Hinj _ _ (string_app_inv_tail (fmt_d n1) (fmt_d n2) dquote H)).
  - intros prInfo created n. split.
    + intros (fields & [= <-] & Hin). cbn in Hin.
      destruct Hin as [Hin|[Hin|[]]]; [discriminate Hin|]. apply Hlabel, Hin.
    + intros <-. eexists. split; [reflexivity|]. right. left. reflexivity.
Qed.

(** ** The enrichment of a pull request and the tracker step *)

Section EnrichmentOnce.
Context {W : Type} (P : Platform W) (h : WebhookHandler).

Lemma hosting_calls_app (t1 t2 : list Event) :
  hosting_calls (t1 ++ t2) = hosting_calls t1 ++ hosting_calls t2.
Proof. unfold hosting_calls. rewrite calls_app. apply List.filter_app. Qed.

Lemma not_hosting_hosting_calls (t : list Event) :
  Forall not_hosting t -> hosting_calls t = [].
Proof.
  induction 1 as [|e t He _ IH]; [reflexivity|].
  change (e :: t) with ([e] ++ t). rewrite hosting_calls_app, IH, app_nil_r.
  destruct e as [c| |]; try reflexivity. unfold hosting_calls. cbn. cbn in He.
  rewrite He. reflexivity.
Qed.

Lemma tracker_sync_not_hosting payload n d : emits not_hosting (tracker_sync P h payload n d).
Proof.
  apply emits_tracker_sync; try (intros; exact I); try (intros; reflexivity).
  intros key target _. apply emits_moveToStatus. intros c Hc. exact Hc.
Qed.

(** X17.  A [pull_request] event that holds a PR number is enriched once
    and before anything else, whatever its action and whether or not a tracker
    client is configured: the calls of the repository entry point to the
    hosting platform are exactly the calls of one [GetPullRequestDetails], for
    the repository and the number of the payload, and they come first. *)
Theorem pull_request_is_enriched_once r payload f w :
  delivers P r "pull_request" payload ->
  pr_number payload = Some f ->
  let fetch := GetPullRequestDetails P (githubClient h) (pr_repo payload)
                 (int_of_float64 f) w in
  let run := HandleRepoWebhook P h r w in
  hosting_calls (events run) = calls (events fetch) /\
  exists rest,
    calls (events run) = calls (events fetch) ++ rest /\
    Forall (fun c => is_tracker_call c = true) rest.
Proof.
  intros Hd Hn. cbv zeta. rewrite (HandleRepoWebhook_pull_request P h _ _ _ Hd).
  assert (Hrun := handlePullRequestEventDetailed_run P h payload f w Hn). cbv zeta in Hrun.
  set (fetch := GetPullRequestDetails P (githubClient h) (pr_repo payload)
                  (int_of_float64 f) w) in *.
  assert (Hfetch : events fetch = map EvCall (calls (events fetch)) /\
                   hosting_calls (events fetch) = calls (events fetch)).
  { unfold fetch. rewrite GetPullRequestDetails_run. cbv zeta.
    repeat match goal with |- context [match ?x with Ok _ => _ | Err _ => _ end] =>
      destruct x end; split; reflexivity. }
  destruct Hfetch as (_ & Hh).
  destruct (GetPullRequestDetails_total P (githubClient h) (pr_repo payload)
              (int_of_float64 f) w) as [a Ha]. fold fetch in Ha. rewrite Ha in Hrun.
  unfold bind. rewrite Hrun. destruct a as [d|err]; cbn [outcome world events ret].
  - rewrite app_nil_r.
    set (sync := tracker_sync P h payload (int_of_float64 f) d (world fetch)).
    destruct (logDetailedPR_logs_only P (pr_action payload) d (world sync)) as (_ & _ & Hlg).
    pose proof (tracker_sync_not_hosting payload (int_of_float64 f) d (world fetch)) as Hs.
    fold sync in Hs. split.
    + change (EvInfo ?m :: ?t) with ([EvInfo m] ++ t).
      rewrite !hosting_calls_app, Hh, (not_hosting_hosting_calls _ Hs).
      unfold hosting_calls at 2. rewrite (info_only_calls _ Hlg). cbn. rewrite app_nil_r.
      reflexivity.
    + exists (calls (events sync)). split.
      * change (EvInfo ?m :: ?t) with ([EvInfo m] ++ t).
        rewrite !calls_app, (info_only_calls _ Hlg), app_nil_r. reflexivity.
      * apply (Forall_events_calls not_hosting) in Hs. exact Hs.
  - rewrite app_nil_r. split.
    + change (EvInfo ?m :: ?t) with ([EvInfo m] ++ t).
      rewrite !hosting_calls_app, Hh. cbn. rewrite app_nil_r. reflexivity.
    + exists []. split; [|constructor].
      change (EvInfo ?m :: ?t) with ([EvInfo m] ++ t).
      rewrite !calls_app. cbn. reflexivity.
Qed.

End EnrichmentOnce.

(** ** The configuration read by [main] *)

Lemma no_tracker_client_no_tracker_call {W} (P : Platform W) (h : WebhookHandler) r w :
  jiraClient h = None ->
  tracker_calls (events (HandleRepoWebhook P h r w)) = [].
Proof.
  intros Hj. apply (emits_not_tracker (HandleRepoWebhook P h r)). clear w. intros w.
  destruct (rejected_or_delivers P r) as [Hr|(et & pl & Hd)].
  { destruct (HandleRepoWebhook_rejected P h r w Hr) as (line & msg & ->).
    repeat constructor. }
  rewrite (HandleRepoWebhook_delivered P h _ _ _ _ Hd).
  apply emits_bind; [|intros _; apply emits_ret]. unfold dispatchRepo.
  destruct (String.eqb et "push").
  { apply emits_handlePushEventDetailed; try (intros; exact I).
    intros c Hc. exact (not_tracker_hosting _ _ Hc). }
  destruct (String.eqb et "pull_request"); [|destruct (String.eqb et "ping"); apply emits_emit; exact I].
  rewrite handlePullRequestEventDetailed_eq. unfold must_float64.
  apply emits_bind; [destruct (assert_float64 _); [apply emits_ret|apply emits_panic]|].
  intros number. apply emits_bind; [apply emits_emit; exact I|]. intros _.
  apply emits_bind.
  { apply emits_GetPullRequestDetails. intros c Hc. exact (not_tracker_hosting _ _ Hc). }
  intros [d|err]; [|apply emits_emit; exact I].
  apply emits_bind.
  - unfold tracker_sync. rewrite Hj. apply emits_ret.
  - intros _. apply emits_logs_only; [intros; exact I|apply logDetailedPR_logs_only].
Qed.

(** X18.  [main] refuses to start exactly when [GITHUB_TOKEN] or
    [GITHUB_ORG] is unset or empty.  Otherwise the server listens on the port
    named by [PORT], on 3000 when [PORT] is unset or empty; the hosting
    client works in the organisation [GITHUB_ORG]; and the handler gets a
    tracker client exactly when [JIRA_BASE_URL] and [JIRA_EMAIL] are both set
    and the client can be built for that address.  A failure to build the
    tracker client does not stop the start: the handler then runs without the
    tracker and never calls it. *)
Theorem startup_configuration dotenv_loaded lib_NewClient jiraAPIToken env :
  jiraAPIToken <> "" ->
  let s := main_configure dotenv_loaded lib_NewClient jiraAPIToken env in
  (started s = None <->
   os_Getenv env "GITHUB_TOKEN" = "" \/ os_Getenv env "GITHUB_ORG" = "") /\
  (forall srv, started s = Some srv ->
     Addr srv = ":" +:+ (if String.eqb (os_Getenv env "PORT") "" then "3000"
                         else os_Getenv env "PORT") /\
     org (githubClient (server_handler srv)) = os_Getenv env "GITHUB_ORG" /\
     (jiraClient (server_handler srv) <> None <->
      os_Getenv env "JIRA_BASE_URL" <> "" /\ os_Getenv env "JIRA_EMAIL" <> "" /\
      lib_NewClient (os_Getenv env "JIRA_BASE_URL") = None) /\
     (jiraClient (server_handler srv) = None ->
      forall W (P : Platform W) r w,
        tracker_calls (events (HandleRepoWebhook P (server_handler srv) r w)) = [])).
Proof.
  intros Htoken. cbv zeta. unfold main_configure.
  destruct (String.eqb_spec (os_Getenv env "GITHUB_TOKEN") "") as [Ht|Ht];
    [|destruct (String.eqb_spec (os_Getenv env "GITHUB_ORG") "") as [Ho|Ho]];
    cbn [orb].
  - split; [split; [auto|reflexivity]|]. intros srv [=].
  - split; [split; [auto|reflexivity]|]. intros srv [=].
  - unfold jira_NewClient.
    destruct (String.eqb_spec (os_Getenv env "JIRA_BASE_URL") "") as [Hb|Hb];
      [|destruct (String.eqb_spec (os_Getenv env "JIRA_EMAIL") "") as [He|He];
        [|destruct (String.eqb_spec jiraAPIToken "") as [Hk|_]; [contradiction|];
          destruct (lib_NewClient (os_Getenv env "JIRA_BASE_URL")) as [err|] eqn:Hl]];
      cbn [negb andb started];
      (split; [split; [discriminate|intros [H|H]; contradiction]|]);
      intros srv [= <-]; cbn [Addr server_handler githubClient jiraClient org github_NewClient];
      (split; [reflexivity|]); (split; [reflexivity|]); split.
    all: try (split; [intros H; contradiction|intros (H1 & H2 & H3); try contradiction;
                                              try discriminate]).
    all: try (intros _ W P r w; apply no_tracker_client_no_tracker_call; reflexivity).
    + split; [intros _; auto|discriminate].
    + intros [=].
Qed.

(** * The further properties on concrete requests *)

Lemma deliveries_delivers s eventType body m :
  eventType <> "" ->
  Deliveries.decode body = Ok (JObject m) ->
  delivers (Deliveries.platform s) (Scenario.request eventType body) eventType (Some m).
Proof.
  intros Hne Hdec. exists body. split; [reflexivity|]. split; [reflexivity|].
  split; [exact Hne|]. unfold json_Unmarshal_map. cbn [json_decode Deliveries.platform].
  rewrite Hdec. reflexivity.
Defined.

Lemma repository_deleted_witness :
  HandleOrgWebhook (Deliveries.platform Scenario.settings) Scenario.handler
    (Scenario.request "repository" (Deliveries.repository_body "deleted")) 0%nat =
  mkRun (Val org_confirmation) 0%nat [].
Proof.
  refine (proj1 (repository_event_without_provisioning
                   (Deliveries.platform Scenario.settings) Scenario.handler
                   (Scenario.request "repository" (Deliveries.repository_body "deleted"))
                   (Some (Deliveries.repository_map "deleted")) 0%nat
                   (deliveries_delivers _ _ _ _ _ _)) _).
  - discriminate.
  - vm_compute. reflexivity.
  - vm_compute. discriminate.
Defined.


Lemma repository_event_on_repo_endpoint_witness :
  HandleRepoWebhook (Deliveries.platform Scenario.settings) Scenario.handler
    (Scenario.request "repository" (Deliveries.repository_body "created")) 0%nat =
  mkRun (Val repo_confirmation) 0%nat [EvInfo "Received repo-level event: repository"].
Proof.
  exact (proj1 (unhandled_events_are_acknowledged
                  (Deliveries.platform Scenario.settings) Scenario.handler
                  (Scenario.request "repository" (Deliveries.repository_body "created"))
                  "repository" (Some (Deliveries.repository_map "created")) 0%nat
                  (deliveries_delivers Scenario.settings "repository"
                     (Deliveries.repository_body "created")
                     (Deliveries.repository_map "created")
                     ltac:(discriminate) ltac:(vm_compute; reflexivity))
                  ltac:(discriminate) ltac:(discriminate))).
Defined.

Lemma push_lookups_witness :
  Forall (fun c => exists sha,
            In sha ["0123456789abcdef"; "fedcba9876543210"] /\
            c = Call_GetCommit "acme" "engine" sha)
         (calls (events (handlePushEventDetailed
                           (Deliveries.platform Scenario.diff_unavailable) Scenario.handler
                           (Some Deliveries.push_map) 0%nat))).
Proof.
  exact (push_looks_up_only_the_commits_of_the_payload
           (Deliveries.platform Scenario.diff_unavailable) Scenario.handler
           (Some Deliveries.push_map)
           [JObject Deliveries.first_commit; JObject Deliveries.second_commit] 0%nat
           ltac:(vm_compute; reflexivity)).
Defined.


Lemma push_without_commits_witness :
  HandleRepoWebhook (Deliveries.platform Scenario.settings) Scenario.handler
    (Scenario.request "push" Deliveries.bare_push_body) 0%nat =
  mkRun (Val repo_confirmation) 0%nat [EvError "No commits found in push payload"].
Proof.
  exact (proj1 (push_without_commits
                  (Deliveries.platform Scenario.settings) Scenario.handler
                  (Scenario.request "push" Deliveries.bare_push_body)
                  (Some Deliveries.bare_push_map) 0%nat
                  (deliveries_delivers Scenario.settings "push" Deliveries.bare_push_body
                     Deliveries.bare_push_map
                     ltac:(discriminate) ltac:(vm_compute; reflexivity)))
               ltac:(vm_compute; reflexivity)).
Defined.


Lemma merged_transition_witness :
  exists w' ts t,
    fst (Issue_GetTransitions (Scenario.platform Scenario.settings) "REP-1" w') = Ok ts /\
    In t ts /\ ID t = "21" /\ (To_Name t = "Open_PR" \/ To_Name t = "Merged_PR").
Proof.
  exact (only_the_two_statuses_are_entered
           (Scenario.platform Scenario.settings) Scenario.handler
           (Scenario.request "pull_request" Scenario.merged_body) 0%nat "REP-1" "21"
           ltac:(vm_compute; do 5 right; left; reflexivity)).
Defined.

Lemma pull_request_enriched_once_witness :
  hosting_calls
    (events (HandleRepoWebhook (Scenario.platform Scenario.settings) Scenario.handler
               (Scenario.request "pull_request" Scenario.opened_body) 0%nat)) =
  [Call_PullRequests_Get "acme" "engine" 7;
   Call_PullRequests_ListFiles "acme" "engine" 7;
   Call_PullRequests_ListReviews "acme" "engine" 7].
Proof.
  exact (proj1 (pull_request_is_enriched_once
                  (Scenario.platform Scenario.settings) Scenario.handler
                  (Scenario.request "pull_request" Scenario.opened_body)
                  (Some Scenario.opened_map) (7 # 1)%Q 0%nat
                  (scenario_delivers _ Scenario.opened_body (JObject Scenario.opened_map) _
                                     eq_refl eq_refl)
                  ltac:(vm_compute; reflexivity))).
Defined.

Lemma startup_witness :
  let s := main_configure true (fun _ => None) "token" Deliveries.environment in
  exists srv,
    started s = Some srv /\ Addr srv = ":3000" /\
    org (githubClient (server_handler srv)) = "acme" /\
    jiraClient (server_handler srv) = None.
Proof.
  cbv zeta.
  pose proof (startup_configuration true (fun _ => None) "token" Deliveries.environment
                ltac:(discriminate)) as H.
  cbv zeta in H. destruct H as (_ & H).
  eexists. split; [vm_compute; reflexivity|].
  specialize (H _ ltac:(vm_compute; reflexivity)).
  destruct H as (Haddr & Horg & _ & _).
  split; [exact Haddr|]. split; [exact Horg|reflexivity].
Defined.

Lemma created_by_witness :
  In (EvInfo "Created By: ada")
     (events (HandleOrgWebhook (Deliveries.platform Scenario.settings) Scenario.handler
                (Scenario.request "repository" (Deliveries.repository_body "created"))
                0%nat)).
Proof.
  exact (proj1 (proj2 (created_by_fallback
                  (Deliveries.platform Scenario.settings) Scenario.handler
                  (Scenario.request "repository" (Deliveries.repository_body "created"))
                  (Some (Deliveries.repository_map "created"))
                  Deliveries.repository_object 0%nat
                  (deliveries_delivers Scenario.settings "repository"
                     (Deliveries.repository_body "created")
                     (Deliveries.repository_map "created")
                     ltac:(discriminate) ltac:(vm_compute; reflexivity))
                  ltac:(vm_compute; reflexivity) ltac:(vm_compute; reflexivity))
                  Deliveries.sender_object ltac:(vm_compute; reflexivity))).
Defined.
